(** * jupytext: exporting notebook cells as text

    A shallow embedding of [jupytext/cell_to_text.py] and the properties of
    its cell exporters.

    Conventions of the embedding.
    - A Python [str] is a [string]; characters are ASCII.
    - A Python list of lines is a [list string].  A call that edits a list in
      place is a function that returns the edited list.
    - The objects of the caller (the cell, its metadata dict, the format dict)
      live in a [store] and are referred to by location; the exporter object
      itself is a record that is threaded through its methods.
    - A Python exception is the [Err] result of the monad [M]. *)

From Stdlib Require Import ZArith Ascii String List Bool Lia.
From stdpp Require Import base option list strings gmap.

Local Open Scope Z_scope.
Local Open Scope nat_scope.

(** ** Python strings *)

Module Str.

(** [s.startswith(p)] *)
Fixpoint startswith (s p : string) : bool :=
  match p, s with
  | EmptyString, _ => true
  | String a p', String b s' => Ascii.eqb a b && startswith s' p'
  | String _ _, EmptyString => false
  end.

(** The rest of [s] after the prefix [p], when [s] starts with [p]. *)
Fixpoint strip_prefix (p s : string) : option string :=
  match p, s with
  | EmptyString, _ => Some s
  | String a p', String b s' => if Ascii.eqb a b then strip_prefix p' s' else None
  | String _ _, EmptyString => None
  end.

(** [s.endswith(p)] *)
Definition endswith (s p : string) : bool :=
  startswith (String.rev s) (String.rev p).

(** [c in s] for a one-character string [c] *)
Fixpoint contains (c : ascii) (s : string) : bool :=
  match s with
  | EmptyString => false
  | String a s' => Ascii.eqb a c || contains c s'
  end.

(** The whitespace of [\s] and of [str.strip] on ASCII text:
    tab, line feed, vertical tab, form feed, carriage return, the four
    separators 28 to 31, and the space. *)
Definition is_space (c : ascii) : bool :=
  match nat_of_ascii c with
  | 9 | 10 | 11 | 12 | 13 | 28 | 29 | 30 | 31 | 32 => true
  | _ => false
  end.

Fixpoint all_space (s : string) : bool :=
  match s with
  | EmptyString => true
  | String a s' => is_space a && all_space s'
  end.

(** [sep.join(parts)] *)
Definition join (sep : string) (parts : list string) : string :=
  String.concat sep parts.

(** [c * n] for a one-character string [c] *)
Fixpoint repeat (c : ascii) (n : nat) : string :=
  match n with
  | O => EmptyString
  | S n' => String c (repeat c n')
  end.

(** The line boundaries of [str.splitlines] on ASCII text. *)
Definition is_linebreak (c : ascii) : bool :=
  match nat_of_ascii c with
  | 10 | 11 | 12 | 13 | 28 | 29 | 30 => true
  | _ => false
  end.

(** [s.splitlines()]: [cur] is the line being read, reversed, when one has
    been started.  A carriage return followed by a line feed is one
    boundary; a final boundary opens no new line. *)
Fixpoint splitlines_go (cur : option string) (s : string) : list string :=
  match s with
  | EmptyString => option_list (String.rev <$> cur)
  | String a s' =>
      if is_linebreak a then
        String.rev (default EmptyString cur) ::
          match s' with
          | String b s'' =>
              if Ascii.eqb a "013" && Ascii.eqb b "010"
              then splitlines_go None s''
              else splitlines_go None s'
          | EmptyString => []
          end
      else splitlines_go (Some (String a (default EmptyString cur))) s'
  end.

Definition splitlines (s : string) : list string := splitlines_go None s.

End Str.

(** ** Regular expressions

    The fragment of Python's [re] that the patterns of this file are written
    in, and what a comment string or a marker spliced into them can add:
    literal characters, [.], [\s], [^], [$], [|], groups, and the
    repetitions [*], [+] and [?] with their lazy forms.  A pattern is
    compiled from its text, as [re.compile] does, so that a comment string
    or a marker that is spliced into a pattern is read as pattern text.
    Character classes, counted repetitions, the extensions [(?...)] and the
    escapes other than [\s] are outside the fragment: such a pattern is
    [Unsupported], which is not an error of [re]. *)

Module Re.

Inductive regex : Type :=
| Chr (c : ascii)
| Any
| Space
| Bol
| Eol
| Eps
| Seq (r1 r2 : regex)
| Alt (r1 r2 : regex)
| Star (r : regex)
| Plus (r : regex)
| Opt (r : regex)
| Lazy (r : regex)
| Group (r : regex).

(** *** Matching

    [ends n0 r s] lists the suffixes of the subject that remain after [r]
    has matched a prefix of [s]; [n0] is the length of the whole subject, so
    that [s] has length [n0] at the start of the subject only.  A lazy
    repetition [Lazy r] tries the same matches as [r] in another order, so
    that it leaves the same suffixes. *)

Fixpoint star_ends (step : string -> list string) (fuel : nat)
    (s : string) : list string :=
  s :: match fuel with
       | O => []
       | S fuel' =>
           flat_map (star_ends step fuel')
             (List.filter (fun t => String.length t <? String.length s) (step s))
       end.

Fixpoint ends (n0 : nat) (r : regex) (s : string) : list string :=
  match r with
  | Chr c =>
      match s with
      | String d t => if Ascii.eqb c d then [t] else []
      | EmptyString => []
      end
  | Any =>
      match s with
      | String d t => if Ascii.eqb d "010" then [] else [t]
      | EmptyString => []
      end
  | Space =>
      match s with
      | String d t => if Str.is_space d then [t] else []
      | EmptyString => []
      end
  | Bol => if String.length s =? n0 then [s] else []
  | Eol =>
      match s with
      | EmptyString => [s]
      | String d EmptyString => if Ascii.eqb d "010" then [s] else []
      | _ => []
      end
  | Eps => [s]
  | Seq r1 r2 => flat_map (ends n0 r2) (ends n0 r1 s)
  | Alt r1 r2 => ends n0 r1 s ++ ends n0 r2 s
  | Star r' => star_ends (ends n0 r') (String.length s) s
  | Plus r' =>
      flat_map (fun t => star_ends (ends n0 r') (String.length t) t) (ends n0 r' s)
  | Opt r' => s :: ends n0 r' s
  | Lazy r' => ends n0 r' s
  | Group r' => ends n0 r' s
  end.

(** [bool(r.match(line))]: the pattern matches at the start of the line. *)
Definition matches (r : regex) (line : string) : bool :=
  match ends (String.length line) r line with
  | [] => false
  | _ :: _ => true
  end.

(** *** Compiling pattern text *)

Inductive token : Type :=
| TChar (c : ascii)
| TOpen | TClose | TBar | TStar | TPlus | TQuestion | TDot | TBol | TEol
| TBackslash | TBrace | TBracket.

(** A closing bracket and a closing brace are literal characters outside a
    character class and a counted repetition. *)
Definition classify (c : ascii) : token :=
  match c with
  | "("%char => TOpen
  | ")"%char => TClose
  | "|"%char => TBar
  | "*"%char => TStar
  | "+"%char => TPlus
  | "?"%char => TQuestion
  | "."%char => TDot
  | "^"%char => TBol
  | "$"%char => TEol
  | "\"%char => TBackslash
  | "{"%char => TBrace
  | "["%char => TBracket
  | _ => TChar c
  end.

Fixpoint mk_seq (rs : list regex) : regex :=
  match rs with
  | [] => Eps
  | r :: rs' => Seq r (mk_seq rs')
  end.

Fixpoint mk_alt (r : regex) (rs : list regex) : regex :=
  match rs with
  | [] => r
  | r' :: rs' => Alt r (mk_alt r' rs')
  end.

(** A branch under construction: the alternatives already closed and the
    atoms of the current one, both most recent first. *)
Record frame : Type := Frame { alts : list regex; cur : list regex }.

Definition empty_frame : frame := Frame [] [].

Definition push (r : regex) (f : frame) : frame :=
  Frame (alts f) (r :: cur f).

Definition next_alt (f : frame) : frame :=
  Frame (mk_seq (rev (cur f)) :: alts f) [].

Definition close (f : frame) : regex :=
  match rev (alts (next_alt f)) with
  | [] => Eps
  | r :: rs => mk_alt r rs
  end.

(** What a repetition may follow: not an anchor ("nothing to repeat") and
    not a repetition ("multiple repeat"). *)
Definition repeatable (r : regex) : bool :=
  match r with
  | Chr _ | Any | Space | Group _ => true
  | _ => false
  end.

Definition repetition (r : regex) : bool :=
  match r with
  | Star _ | Plus _ | Opt _ => true
  | _ => false
  end.

Definition is_digit (c : ascii) : bool :=
  (48 <=? nat_of_ascii c) && (nat_of_ascii c <=? 57).

Fixpoint skip_digits (cs : string) : string :=
  match cs with
  | String c cs' => if is_digit c then skip_digits cs' else cs
  | EmptyString => cs
  end.

(** After an opening brace: the text is [m}], [m,n}], [m,}], [,n}] or [,}],
    a counted repetition.  A brace that opens none is a literal
    character. *)
Definition counted (cs : string) : bool :=
  match cs with
  | String "}" _ => false
  | _ =>
      match skip_digits cs with
      | String "}" _ => true
      | String "," cs' =>
          match skip_digits cs' with
          | String "}" _ => true
          | _ => false
          end
      | _ => false
      end
  end.

(** What [re.compile] makes of a pattern: a compiled pattern, the exception
    [re.error], or a pattern outside the fragment. *)
Inductive compiled : Type :=
| Compiled (r : regex)
| Invalid
| Unsupported.

Fixpoint parse (cs : string) (f : frame) (stack : list frame) : compiled :=
  match cs with
  | EmptyString =>
      match stack with
      | [] => Compiled (close f)
      | _ :: _ => Invalid
      end
  | String c cs' =>
      match classify c with
      | TChar a => parse cs' (push (Chr a) f) stack
      | TDot => parse cs' (push Any f) stack
      | TBol => parse cs' (push Bol f) stack
      | TEol => parse cs' (push Eol f) stack
      | TBar => parse cs' (next_alt f) stack
      | TOpen =>
          match cs' with
          | String "?" _ => Unsupported
          | _ => parse cs' empty_frame (f :: stack)
          end
      | TClose =>
          match stack with
          | g :: stack' => parse cs' (push (Group (close f)) g) stack'
          | [] => Invalid
          end
      | TStar =>
          match cur f with
          | r :: rs =>
              if repeatable r then parse cs' (Frame (alts f) (Star r :: rs)) stack
              else Invalid
          | [] => Invalid
          end
      | TPlus =>
          match cur f with
          | r :: rs =>
              if repeatable r then parse cs' (Frame (alts f) (Plus r :: rs)) stack
              else match r with
                   | Star _ | Plus _ | Opt _ | Lazy _ => Unsupported
                   | _ => Invalid
                   end
          | [] => Invalid
          end
      | TQuestion =>
          match cur f with
          | r :: rs =>
              if repeatable r then parse cs' (Frame (alts f) (Opt r :: rs)) stack
              else if repetition r
                   then parse cs' (Frame (alts f) (Lazy r :: rs)) stack
                   else Invalid
          | [] => Invalid
          end
      | TBackslash =>
          match cs' with
          | String "s" cs'' => parse cs'' (push Space f) stack
          | String _ _ => Unsupported
          | EmptyString => Invalid
          end
      | TBrace =>
          if counted cs' then Unsupported else parse cs' (push (Chr c) f) stack
      | TBracket => Unsupported
      end
  end.

Definition compile (pattern : string) : compiled :=
  parse pattern empty_frame [].

(** A string that [re.escape] would leave as it is, as far as this
    fragment goes: no character of it is read as an operator. *)
Definition plain_char (c : ascii) : bool :=
  match classify c with
  | TChar _ => true
  | _ => false
  end.

Fixpoint plain (s : string) : bool :=
  match s with
  | EmptyString => true
  | String a s' => plain_char a && plain s'
  end.

End Re.


(** ** Results of a call *)

(** The exceptions of the embedding.  [ReError] is [re.error];
    [Unmodelled] is a use of dynamic typing, or a pattern, that the embedding
    does not follow; [Exhausted] is an escalation loop that found no token
    within its bound. *)
Inductive exn : Type :=
| AttributeError
| IndexError
| KeyError (key : string)
| TypeError
| ValueError (msg : string)
| NotImplementedError (msg : string)
| ReError
| Unmodelled
| Exhausted.

(** The result of running a loop with a fuel. *)
Inductive outcome (A : Type) : Type :=
| Returned (a : A)
| Raised (e : exn)
| OutOfFuel.

Arguments Returned {A} a.
Arguments Raised {A} e.
Arguments OutOfFuel {A}.

(** ** The end-of-cell marker *)

(** [re.compile(r'^{}( )'.format(comment) + endofcell + r'\s*$')] *)
Definition endofcell_re (comment endofcell : string) : Re.compiled :=
  Re.compile ("^" +:+ comment +:+ "( )" +:+ endofcell +:+ "\s*$").

(** The [while True] loop of [endofcell_marker]; one unit of fuel pays for
    one turn of the loop. *)
Fixpoint endofcell_marker_loop (fuel : nat) (source : list string)
    (comment endofcell : string) : outcome string :=
  match fuel with
  | O => OutOfFuel
  | S fuel' =>
      match endofcell_re comment endofcell with
      | Re.Invalid => Raised ReError
      | Re.Unsupported => Raised Unmodelled
      | Re.Compiled endofcell_re =>
          if existsb (Re.matches endofcell_re) source
          then endofcell_marker_loop fuel' source comment (endofcell +:+ "-")
          else Returned endofcell
      end
  end.

(** [endofcell_marker(source, comment)] run with the given fuel. *)
Definition endofcell_marker (fuel : nat) (source : list string)
    (comment : string) : outcome string :=
  endofcell_marker_loop fuel source comment "-".

(** The tokens [-], [--], [---], ... *)
Definition dashes (n : nat) : string := Str.repeat "-" n.

(** The end-marker line in the words of the specification: the comment
    string, one space, the token, optional trailing whitespace. *)
Definition is_endofcell_line (comment token line : string) : bool :=
  match Str.strip_prefix (comment +:+ " " +:+ token) line with
  | Some rest => Str.all_space rest
  | None => false
  end.

(** The longest line of a source. *)
Definition longest (source : list string) : nat :=
  fold_right (fun line n => Nat.max (String.length line) n) 0 source.

(** ** JSON values and dicts *)

#[local] Set Warnings "-register-all".

Inductive json : Type :=
| JNull
| JBool (b : bool)
| JNum (n : Z)
| JStr (s : string)
| JArr (items : list json)
| JObj (fields : list (string * json)).

(** [bool(v)] *)
Definition truthy (v : json) : bool :=
  match v with
  | JNull => false
  | JBool b => b
  | JNum n => negb (n =? 0)%Z
  | JStr s => negb (String.eqb s "")
  | JArr items => match items with [] => false | _ => true end
  | JObj fields => match fields with [] => false | _ => true end
  end.

(** [v == s] for a string [s] *)
Definition is_str (v : json) (s : string) : bool :=
  match v with
  | JStr t => String.eqb t s
  | _ => false
  end.

(** A Python dict with string keys: the keys are unique and keep the order
    in which they were inserted. *)
Definition dict : Type := list (string * json).

Fixpoint dict_get (d : dict) (key : string) : option json :=
  match d with
  | [] => None
  | (k, v) :: d' => if String.eqb k key then Some v else dict_get d' key
  end.

(** [key in d] *)
Definition dict_mem (d : dict) (key : string) : bool :=
  match dict_get d key with
  | Some _ => true
  | None => false
  end.

(** [d[key] = v] *)
Fixpoint dict_set (d : dict) (key : string) (v : json) : dict :=
  match d with
  | [] => [(key, v)]
  | (k, w) :: d' =>
      if String.eqb k key then (k, v) :: d' else (k, w) :: dict_set d' key v
  end.

(** [del d[key]], for a key of [d] *)
Fixpoint dict_del (d : dict) (key : string) : dict :=
  match d with
  | [] => []
  | (k, w) :: d' => if String.eqb k key then d' else (k, w) :: dict_del d' key
  end.

(** [{k: d[k] for k in d if k not in keys}] *)
Definition dict_without (d : dict) (keys : list string) : dict :=
  List.filter (fun kv => negb (existsb (String.eqb (fst kv)) keys)) d.

(** [bool(d)] *)
Definition dict_nonempty (d : dict) : bool :=
  match d with
  | [] => false
  | _ :: _ => true
  end.

(** ** The objects of the caller *)

Definition loc : Type := positive.

Inductive cell_kind : Type := code | markdown | raw.

Definition cell_type_name (t : cell_kind) : string :=
  match t with
  | code => "code"
  | markdown => "markdown"
  | raw => "raw"
  end.

Definition cell_type_eqb (a b : cell_kind) : bool :=
  match a, b with
  | code, code | markdown, markdown | raw, raw => true
  | _, _ => false
  end.

(** A notebook cell: its type, its source text, and a reference to its
    metadata dict. *)
Module Cell.
Record t : Type := Make {
  cell_type : cell_kind;
  source : string;
  metadata : loc
}.
End Cell.

(** The format dict [fmt], with the keys that the exporters read. *)
Module Fmt.
Record t : Type := Make {
  extension : option string;
  cell_metadata_filter : option json;
  comment_magics : option bool;
  cell_markers : option string;
  rst2md : option bool;
  split_at_heading : option bool
}.

(** [{}] *)
Definition empty : t := Make None None None None None None.

(** [bool(fmt)] *)
Definition nonempty (f : t) : bool :=
  match f with
  | Make None None None None None None => false
  | _ => true
  end.

(** [fmt.pop('cell_markers')] leaves this dict. *)
Definition without_cell_markers (f : t) : t :=
  Make (extension f) (cell_metadata_filter f) (comment_magics f) None
       (rst2md f) (split_at_heading f).
End Fmt.

(** The store: the cell objects, the metadata dicts and the format dicts
    that exist, and the warnings issued so far. *)
Record store : Type := Store {
  cells : gmap loc Cell.t;
  dicts : gmap loc dict;
  fmts : gmap loc Fmt.t;
  warnings : list string
}.

(** ** The monad of exporter calls *)

Inductive result (A : Type) : Type :=
| Ok (a : A)
| Err (e : exn).

Arguments Ok {A} a.
Arguments Err {A} e.

Definition M (A : Type) : Type := store -> result A * store.

Definition ret {A} (a : A) : M A := fun s => (Ok a, s).

Definition bind {A B} (m : M A) (k : A -> M B) : M B :=
  fun s =>
    match m s with
    | (Ok a, s') => k a s'
    | (Err e, s') => (Err e, s')
    end.

Definition raise {A} (e : exn) : M A := fun s => (Err e, s).

Definition lift {A} (r : result A) : M A := fun s => (r, s).

#[global] Instance M_ret : MRet M := @ret.
#[global] Instance M_bind : MBind M := fun A B k m => bind m k.

(** Reading an object; a location that the store does not hold is outside
    the embedding. *)
Definition get_cell (l : loc) : M Cell.t :=
  fun s => match cells s !! l with
           | Some c => (Ok c, s)
           | None => (Err Unmodelled, s)
           end.

Definition get_dict (l : loc) : M dict :=
  fun s => match dicts s !! l with
           | Some d => (Ok d, s)
           | None => (Err Unmodelled, s)
           end.

(** [self.fmt] is the caller's dict, or a fresh empty dict of the exporter
    ([None]). *)
Definition get_fmt (l : option loc) : M Fmt.t :=
  fun s => match l with
           | None => (Ok Fmt.empty, s)
           | Some l' =>
               match fmts s !! l' with
               | Some f => (Ok f, s)
               | None => (Err Unmodelled, s)
               end
           end.

Definition set_fmt (l : loc) (f : Fmt.t) : M unit :=
  fun s => (Ok tt, Store (cells s) (dicts s) (<[l := f]> (fmts s)) (warnings s)).

(** [warnings.warn(msg)] *)
Definition warn (msg : string) : M unit :=
  fun s => (Ok tt, Store (cells s) (dicts s) (fmts s) (warnings s ++ [msg])).

(** ** The collaborators

    The functions and tables that [cell_to_text] imports from the other
    modules of the package ([languages], [cell_metadata], [metadata_filter],
    [magics], [cell_reader], [pep8]) and from [json].  The exporters are
    defined over any implementation of them.  A function that edits a list
    of lines in place ([cell_language], [comment_magic], [escape_code_start])
    returns the list as it is after the call. *)

Inductive reader : Type :=
| LightScriptCellReader
| MarkdownCellReader
| RMarkdownCellReader.

Class Collaborators : Type := {
  (** [cell_language(source)]: the language, the magic arguments, and the
      source after the call *)
  cell_language : list string -> option string * option string * list string;
  comment_lines : list string -> string -> list string;
  is_active : option string -> dict -> bool;
  filter_metadata : dict -> option json -> string -> dict;
  _IGNORE_CELL_METADATA : string;
  metadata_to_md_options : dict -> string;
  metadata_to_rmd_options : option string -> dict -> string;
  metadata_to_json_options : dict -> string;
  (** [metadata_to_double_percent_options(metadata)]: the options, and the
      dict after the call, out of which the encoder takes the keys that it
      writes on their own *)
  metadata_to_double_percent_options : dict -> string * dict;
  comment_magic : list string -> option string -> option bool -> list string;
  escape_code_start : list string -> option string -> option string -> list string;
  (** [reader(fmt).read(lines)[1]]: where the first cell of the lines ends *)
  read_pos : reader -> Fmt.t -> list string -> nat;
  _SCRIPT_EXTENSIONS : gmap string (gmap string string);
  pep8_lines_between_cells : list string -> list string -> option string -> Z;
  json_dumps : dict -> string
}.

(** ** The exporter classes *)

Inductive dialect : Type :=
| MarkdownCellExporter
| RMarkdownCellExporter
| LightScriptCellExporter
| BareScriptCellExporter
| RScriptCellExporter
| DoublePercentCellExporter
| HydrogenCellExporter
| SphinxGalleryCellExporter.

(** The class attributes. *)
Definition default_comment_magics (d : dialect) : option bool :=
  match d with
  | MarkdownCellExporter => Some false
  | RMarkdownCellExporter => Some true
  | LightScriptCellExporter | BareScriptCellExporter => Some true
  | RScriptCellExporter => Some true
  | DoublePercentCellExporter => Some true
  | HydrogenCellExporter => Some false
  | SphinxGalleryCellExporter => Some true
  end.

Definition parse_cell_language (d : dialect) : bool :=
  match d with
  | HydrogenCellExporter => false
  | _ => true
  end.

Definition use_cell_markers (d : dialect) : bool :=
  match d with
  | BareScriptCellExporter => false
  | _ => true
  end.

Definition cell_reader (d : dialect) : reader :=
  match d with
  | RMarkdownCellExporter => RMarkdownCellReader
  | _ => MarkdownCellReader
  end.

(** [SphinxGalleryCellExporter.default_cell_marker] *)
Definition default_cell_marker : string := Str.repeat "#" 79.

(** The exporter object [self]. *)
Record exporter : Type := Exporter {
  class_of : dialect;
  fmt : option loc;
  ext : option string;
  cell_type : cell_kind;
  source : list string;
  unfiltered_metadata : loc;
  metadata : dict;
  language : option string;
  default_language : option string;
  comment : string;
  comment_magics : option bool;
  lines_to_next_cell : option json;
  lines_to_end_of_cell_marker : option json;
  cell_marker_start : option string;
  cell_marker_end : option string;
  cell_markers : option string
}.

Definition set_ext (self : exporter) (v : option string) : exporter :=
  Exporter (class_of self) (fmt self) v (cell_type self) (source self)
    (unfiltered_metadata self) (metadata self) (language self)
    (default_language self) (comment self) (comment_magics self)
    (lines_to_next_cell self) (lines_to_end_of_cell_marker self)
    (cell_marker_start self) (cell_marker_end self) (cell_markers self).

Definition set_source (self : exporter) (v : list string) : exporter :=
  Exporter (class_of self) (fmt self) (ext self) (cell_type self) v
    (unfiltered_metadata self) (metadata self) (language self)
    (default_language self) (comment self) (comment_magics self)
    (lines_to_next_cell self) (lines_to_end_of_cell_marker self)
    (cell_marker_start self) (cell_marker_end self) (cell_markers self).

Definition set_metadata (self : exporter) (v : dict) : exporter :=
  Exporter (class_of self) (fmt self) (ext self) (cell_type self) (source self)
    (unfiltered_metadata self) v (language self)
    (default_language self) (comment self) (comment_magics self)
    (lines_to_next_cell self) (lines_to_end_of_cell_marker self)
    (cell_marker_start self) (cell_marker_end self) (cell_markers self).

Definition set_comment (self : exporter) (v : string) : exporter :=
  Exporter (class_of self) (fmt self) (ext self) (cell_type self) (source self)
    (unfiltered_metadata self) (metadata self) (language self)
    (default_language self) v (comment_magics self)
    (lines_to_next_cell self) (lines_to_end_of_cell_marker self)
    (cell_marker_start self) (cell_marker_end self) (cell_markers self).

Definition set_lines_to_next_cell (self : exporter) (v : option json) : exporter :=
  Exporter (class_of self) (fmt self) (ext self) (cell_type self) (source self)
    (unfiltered_metadata self) (metadata self) (language self)
    (default_language self) (comment self) (comment_magics self)
    v (lines_to_end_of_cell_marker self)
    (cell_marker_start self) (cell_marker_end self) (cell_markers self).

Definition set_cell_marker_start_end (self : exporter) (a b : option string) : exporter :=
  Exporter (class_of self) (fmt self) (ext self) (cell_type self) (source self)
    (unfiltered_metadata self) (metadata self) (language self)
    (default_language self) (comment self) (comment_magics self)
    (lines_to_next_cell self) (lines_to_end_of_cell_marker self)
    a b (cell_markers self).

Definition set_cell_markers (self : exporter) (v : option string) : exporter :=
  Exporter (class_of self) (fmt self) (ext self) (cell_type self) (source self)
    (unfiltered_metadata self) (metadata self) (language self)
    (default_language self) (comment self) (comment_magics self)
    (lines_to_next_cell self) (lines_to_end_of_cell_marker self)
    (cell_marker_start self) (cell_marker_end self) v.

(** ** Small Python idioms *)

Definition newline : string := String "010" EmptyString.
Definition dquote : string := String "034" EmptyString.
Definition squote : string := "'".

(** [bool(s)] for a string or [None] *)
Definition str_truthy (o : option string) : bool :=
  match o with
  | Some s => negb (String.eqb s "")
  | None => false
  end.

(** [s.split(',', 1)] for a string that holds a comma *)
Fixpoint split_comma (s : string) : string * string :=
  match s with
  | EmptyString => (EmptyString, EmptyString)
  | String a s' =>
      if Ascii.eqb a "," then (EmptyString, s')
      else let '(x, y) := split_comma s' in (String a x, y)
  end.

(** [text[-1]] *)
Definition last_line (text : list string) : result string :=
  match text with
  | [] => Err IndexError
  | a :: text' => Ok (List.last text' a)
  end.

(** [text[0]] *)
Definition first_line (text : list string) : result string :=
  match text with
  | [] => Err IndexError
  | a :: _ => Ok a
  end.

(** [self.ext.endswith(suffix)] *)
Definition ext_endswith (ext : option string) (suffix : string) : result bool :=
  match ext with
  | Some e => Ok (Str.endswith e suffix)
  | None => Err AttributeError
  end.

(** An integer of the metadata, or [None]; other values are not followed. *)
Definition as_count (v : option json) : result (option Z) :=
  match v with
  | None | Some JNull => Ok None
  | Some (JNum n) => Ok (Some n)
  | Some _ => Err Unmodelled
  end.

(** A string of the metadata used as a line of text. *)
Definition as_text (v : json) : result string :=
  match v with
  | JStr s => Ok s
  | _ => Err TypeError
  end.

(** ** The exporters *)

Section Exporters.

Context `{Collaborators}.

(** The lines of a source text: the body of [cell_source]. *)
Definition source_lines (source : string) : list string :=
  if String.eqb source "" then [""]
  else if Str.endswith source newline
       then Str.splitlines source ++ [""]
       else Str.splitlines source.

(** [cell_source(cell)] *)
Definition cell_source (cell : loc) : M (list string) :=
  c ← get_cell cell;
  mret (source_lines (Cell.source c)).

(** [BaseCellExporter.__init__], for an object of class [d] *)
Definition BaseCellExporter_init (d : dialect) (cell : loc)
    (default_language : option string) (given_fmt : option loc) : M exporter :=
  (* self.fmt = fmt or {} *)
  given ← get_fmt given_fmt;
  let self_fmt := if Fmt.nonempty given then given_fmt else None in
  f ← get_fmt self_fmt;
  let ext := Fmt.extension f in
  c ← get_cell cell;
  let cell_type := Cell.cell_type c in
  source ← cell_source cell;
  let unfiltered_metadata := Cell.metadata c in
  (* copy(cell.metadata) *)
  copied ← get_dict (Cell.metadata c);
  let metadata :=
    filter_metadata copied (Fmt.cell_metadata_filter f) _IGNORE_CELL_METADATA in
  let '(language, magic_args, source) :=
    if parse_cell_language d then cell_language source
    else (None, None, source) in
  metadata ←
    (if str_truthy language then
       metadata ←
         (if str_truthy magic_args then
            is_rmd ← lift (ext_endswith ext ".Rmd");
            let args := default "" magic_args in
            let quote := if Str.contains "'" args then dquote else squote in
            let args := if is_rmd : bool then quote +:+ args +:+ quote else args in
            mret (dict_set metadata "magic_args" (JStr args))
          else mret metadata);
       is_rmd ← lift (ext_endswith ext ".Rmd");
       mret (if is_rmd : bool then metadata
             else dict_set metadata "language" (JStr (default "" language)))
     else mret metadata);
  let language := if str_truthy language then language else default_language in
  let comment :=
    default "#" ((ext ≫= (_SCRIPT_EXTENSIONS !!.)) ≫= (.!! "comment")) in
  let comment_magics :=
    match Fmt.comment_magics f with
    | Some b => Some b
    | None => default_comment_magics d
    end in
  (* how many blank lines before next cell *)
  cell_metadata ← get_dict (Cell.metadata c);
  let lines_to_next_cell := dict_get cell_metadata "lines_to_next_cell" in
  let lines_to_end_of_cell_marker :=
    dict_get cell_metadata "lines_to_end_of_cell_marker" in
  let metadata :=
    if cell_type_eqb (Cell.cell_type c) raw && negb (dict_mem metadata "active")
    then dict_set metadata "active" (JStr "")
    else metadata in
  mret (Exporter d self_fmt ext cell_type source unfiltered_metadata metadata
          language default_language comment comment_magics
          lines_to_next_cell lines_to_end_of_cell_marker None None None).

(** The constructor of a subclass calls the constructor of its parent and
    then runs the statements of its own, here [X_setup]. *)

(** [MarkdownCellExporter.__init__] *)
Definition MarkdownCellExporter_setup (self : exporter) : M exporter :=
  mret (set_comment self "").

Definition MarkdownCellExporter_init (d : dialect) (cell : loc)
    (default_language : option string) (given_fmt : option loc) : M exporter :=
  self ← BaseCellExporter_init d cell default_language given_fmt;
  MarkdownCellExporter_setup self.

(** [RMarkdownCellExporter.__init__] *)
Definition RMarkdownCellExporter_setup (self : exporter) : M exporter :=
  mret (set_comment (set_ext self (Some ".Rmd")) "").

Definition RMarkdownCellExporter_init (d : dialect) (cell : loc)
    (default_language : option string) (given_fmt : option loc) : M exporter :=
  self ← MarkdownCellExporter_init d cell default_language given_fmt;
  RMarkdownCellExporter_setup self.

(** The message of the warning about a [cell_markers] value. *)
Definition ignored_cell_markers (value : string) : string :=
  "Ignored cell markers '" +:+ value
    +:+ "' as it does not match the expected 'start,end' pattern".

(** [LightScriptCellExporter.__init__] *)
Definition LightScriptCellExporter_setup (self : exporter) : M exporter :=
  f ← get_fmt (fmt self);
  self ←
    match Fmt.cell_markers f with
    | Some markers =>
        if negb (Str.contains "," markers) then
          (* self.fmt.pop('cell_markers') *)
          _ ← match fmt self with
              | Some l => set_fmt l (Fmt.without_cell_markers f)
              | None => mret tt
              end;
          _ ← warn (ignored_cell_markers markers);
          mret self
        else if negb (String.eqb markers "+,-") then
          let '(cell_marker_start, cell_marker_end) := split_comma markers in
          mret (set_cell_marker_start_end self
                  (Some cell_marker_start) (Some cell_marker_end))
        else mret self
    | None => mret self
    end;
  unfiltered ← get_dict (unfiltered_metadata self);
  mret (match dict_get unfiltered "endofcell" with
        | Some v => set_metadata self (dict_set (metadata self) "endofcell" v)
        | None => self
        end).

Definition LightScriptCellExporter_init (d : dialect) (cell : loc)
    (default_language : option string) (given_fmt : option loc) : M exporter :=
  self ← BaseCellExporter_init d cell default_language given_fmt;
  LightScriptCellExporter_setup self.

(** [RScriptCellExporter.__init__] *)
Definition RScriptCellExporter_setup (self : exporter) : M exporter :=
  mret (set_comment self "#'").

Definition RScriptCellExporter_init (d : dialect) (cell : loc)
    (default_language : option string) (given_fmt : option loc) : M exporter :=
  self ← BaseCellExporter_init d cell default_language given_fmt;
  RScriptCellExporter_setup self.

(** [DoublePercentCellExporter.__init__] *)
Definition DoublePercentCellExporter_setup (self : exporter) : M exporter :=
  f ← get_fmt (fmt self);
  mret (set_cell_markers self (Fmt.cell_markers f)).

Definition DoublePercentCellExporter_init (d : dialect) (cell : loc)
    (default_language : option string) (given_fmt : option loc) : M exporter :=
  self ← BaseCellExporter_init d cell default_language given_fmt;
  DoublePercentCellExporter_setup self.

(** The message of the error about the [rst2md] option. *)
Definition rst2md_read_only : string :=
  "The 'rst2md' option is a read only option. The reverse conversion is not "
    +:+ "implemented. Please either deactivate the option, or save to another format.".

(** [SphinxGalleryCellExporter.__init__] *)
Definition SphinxGalleryCellExporter_setup (self : exporter) : M exporter :=
  let self := set_comment self "#" in
  unfiltered ← get_dict (unfiltered_metadata self);
  let self :=
    match dict_get unfiltered "cell_marker" with
    | Some v => set_metadata self (dict_set (metadata self) "cell_marker" v)
    | None => self
    end in
  f ← get_fmt (fmt self);
  if default false (Fmt.rst2md f) then raise (ValueError rst2md_read_only)
  else mret self.

Definition SphinxGalleryCellExporter_init (d : dialect) (cell : loc)
    (default_language : option string) (given_fmt : option loc) : M exporter :=
  self ← BaseCellExporter_init d cell default_language given_fmt;
  SphinxGalleryCellExporter_setup self.

(** The constructor of each class. *)
Definition init (d : dialect) (cell : loc) (default_language : option string)
    (given_fmt : option loc) : M exporter :=
  match d with
  | MarkdownCellExporter => MarkdownCellExporter_init d cell default_language given_fmt
  | RMarkdownCellExporter => RMarkdownCellExporter_init d cell default_language given_fmt
  | LightScriptCellExporter | BareScriptCellExporter =>
      LightScriptCellExporter_init d cell default_language given_fmt
  | RScriptCellExporter => RScriptCellExporter_init d cell default_language given_fmt
  | DoublePercentCellExporter | HydrogenCellExporter =>
      DoublePercentCellExporter_init d cell default_language given_fmt
  | SphinxGalleryCellExporter =>
      SphinxGalleryCellExporter_init d cell default_language given_fmt
  end.

(** *** Methods of the base class *)

(** [BaseCellExporter.is_code] *)
Definition BaseCellExporter_is_code (self : exporter) : bool :=
  if cell_type_eqb (cell_type self) code then true
  else if cell_type_eqb (cell_type self) raw && dict_mem (metadata self) "active"
       then true
       else false.

(** [self.is_code()]: the answer and the object after the call.  The light
    scripts treat markdown cells with metadata as code cells. *)
Definition is_code (self : exporter) : bool * exporter :=
  match class_of self with
  | LightScriptCellExporter | BareScriptCellExporter =>
      if cell_type_eqb (cell_type self) markdown && dict_nonempty (metadata self)
      then
        let self :=
          set_metadata self
            (dict_set (metadata self) "cell_type"
               (JStr (cell_type_name (cell_type self)))) in
        let self := set_source self (comment_lines (source self) (comment self)) in
        (true, self)
      else (BaseCellExporter_is_code self, self)
  | _ => (BaseCellExporter_is_code self, self)
  end.

(** [self.markdown_to_text(source)] *)
Definition markdown_to_text (self : exporter) (source : list string) : list string :=
  let source :=
    if negb (String.eqb (comment self) "") && negb (String.eqb (comment self) "#'")
    then comment_magic source (language self) (comment_magics self)
    else source in
  comment_lines source (comment self).

(** *** Markdown *)

(** ['{' not in title] *)
Definition without_brace (title : json) : result bool :=
  match title with
  | JStr t => Ok (negb (Str.contains "{" t))
  | JArr items => Ok (negb (existsb (fun v => is_str v "{") items))
  | JObj fields => Ok (negb (existsb (fun kv => String.eqb (fst kv) "{") fields))
  | _ => Err TypeError
  end.

(** [self.html_comment(metadata, code)]: the lines, and the dict [metadata]
    after the call. *)
Definition html_comment (self : exporter) (metadata : dict) (code : string)
    : result (list string * dict) :=
  let close := "<!-- #end" +:+ code +:+ " -->" in
  if dict_nonempty metadata then
    let region_start := ["<!-- #" +:+ code] in
    match
      match dict_get metadata "title" with
      | Some title =>
          match without_brace title with
          | Ok true =>
              match as_text title with
              | Ok t => Ok (region_start ++ [t], dict_del metadata "title")
              | Err e => Err e
              end
          | Ok false => Ok (region_start, metadata)
          | Err e => Err e
          end
      | None => Ok (region_start, metadata)
      end
    with
    | Ok (region_start, metadata) =>
        let region_start := region_start ++ [json_dumps metadata; "-->"] in
        Ok (Str.join " " region_start :: source self ++ [close], metadata)
    | Err e => Err e
    end
  else Ok (("<!-- #" +:+ code +:+ " -->") :: source self ++ [close], metadata).

(** [MarkdownCellExporter.code_to_text] *)
Definition MarkdownCellExporter_code_to_text (self : exporter)
    : M (list string * exporter) :=
  let source := comment_magic (source self) (language self) (comment_magics self) in
  let options :=
    if cell_type_eqb (cell_type self) code && str_truthy (language self)
    then [default "" (language self)] else [] in
  let filtered_metadata := dict_without (metadata self) ["active"; "language"] in
  let options :=
    if dict_nonempty filtered_metadata
    then options ++ [metadata_to_md_options filtered_metadata] else options in
  if cell_type_eqb (cell_type self) raw then
    '(lines, _) ← lift (html_comment self filtered_metadata "raw");
    mret (lines, self)
  else mret (("```" +:+ Str.join " " options) :: source ++ ["```"], self).

(** [RMarkdownCellExporter.code_to_text] *)
Definition RMarkdownCellExporter_code_to_text (self : exporter)
    : M (list string * exporter) :=
  let active := is_active (ext self) (metadata self) in
  let source :=
    if active then comment_magic (source self) (language self) (comment_magics self)
    else source self in
  let self :=
    if negb (is_active (Some "Rmd") (metadata self))
    then set_metadata self (dict_set (metadata self) "eval" (JBool false))
    else self in
  let options := metadata_to_rmd_options (language self) (metadata self) in
  mret (("```{" +:+ options +:+ "}") :: source ++ ["```"], self).

(** *** Light scripts *)

(** [self.cell_marker_end] used as a string; [None] cannot be added to
    one. *)
Definition marker_text (marker : option string) : result string :=
  match marker with
  | Some m => Ok m
  | None => Err TypeError
  end.

Definition compile (pattern : string) : result Re.regex :=
  match Re.compile pattern with
  | Re.Compiled r => Ok r
  | Re.Invalid => Err ReError
  | Re.Unsupported => Err Unmodelled
  end.

(** [all([line.startswith(prefix) for line in lines])] *)
Definition all_startwith (lines : list string) (prefix : string) : bool :=
  forallb (fun line => Str.startswith line prefix) lines.

(** [LightScriptCellExporter.explicit_start_marker]; [src] is the argument
    [source] *)
Definition explicit_start_marker (self : exporter) (src : list string) : M bool :=
  if negb (use_cell_markers (class_of self)) then mret false
  else if dict_nonempty (metadata self) then mret true
  else
    at_marker ←
      (if str_truthy (cell_marker_start self) then
         start_code_re ← lift (compile ("^" +:+ comment self +:+ "\s*"
                               +:+ default "" (cell_marker_start self) +:+ "\s*(.*)$"));
         cell_marker_end ← lift (marker_text (cell_marker_end self));
         end_code_re ← lift (compile ("^" +:+ comment self +:+ "\s*"
                               +:+ cell_marker_end +:+ "\s*$"));
         first ← lift (first_line src);
         mret (Re.matches start_code_re first || Re.matches end_code_re first)
       else mret false);
    if at_marker : bool then mret false
    else if all_startwith (source self) (comment self) then mret true
    else
      f ← get_fmt (fmt self);
      mret (read_pos LightScriptCellReader f src <? length src).

(** [endofcell_marker(source, comment)], with the fuel that a comment
    string without operators needs. *)
Definition endofcell_token (src : list string) (comment : string) : result string :=
  match endofcell_marker (S (longest src)) src comment with
  | Returned token => Ok token
  | Raised e => Err e
  | OutOfFuel => Err Exhausted
  end.

(** [[self.comment + ' ' + line if line else self.comment for line in source]] *)
Definition commented (prefix : string) (src : list string) : list string :=
  map (fun line => if String.eqb line "" then prefix else prefix +:+ " " +:+ line) src.

(** [' {}'.format(endofcell)] without the space, for the values that
    [code_to_text] stores under ['endofcell'] *)
Definition format_str (v : json) : result string :=
  match v with
  | JStr s => Ok s
  | _ => Err Unmodelled
  end.

(** [LightScriptCellExporter.code_to_text] *)
Definition LightScriptCellExporter_code_to_text (self : exporter)
    : M (list string * exporter) :=
  let active := is_active (ext self) (metadata self) in
  let active :=
    if bool_decide (language self ≠ default_language self)
       && negb (dict_mem (metadata self) "active")
    then false else active in
  let src := escape_code_start (source self) (ext self) (language self) in
  let src :=
    if active then comment_magic src (language self) (comment_magics self)
    else commented (comment self) src in
  explicit ← explicit_start_marker self src;
  self ←
    (if explicit : bool then
       endofcell ←
         (if str_truthy (cell_marker_end self)
          then mret (default "" (cell_marker_end self))
          else lift (endofcell_token src (comment self)));
       mret (set_metadata self (dict_set (metadata self) "endofcell" (JStr endofcell)))
     else mret self);
  if negb (dict_nonempty (metadata self)) || negb (use_cell_markers (class_of self))
  then mret (src, self)
  else
    endofcell ←
      match dict_get (metadata self) "endofcell" with
      | Some v => mret v
      | None => raise (KeyError "endofcell")
      end;
    let self :=
      if is_str endofcell "-" || str_truthy (cell_marker_end self)
      then set_metadata self (dict_del (metadata self) "endofcell")
      else self in
    let cell_start :=
      [comment self;
       if str_truthy (cell_marker_start self)
       then default "" (cell_marker_start self) else "+"] in
    '(cell_start, self) ←
      (if negb (str_truthy (cell_marker_start self)) then
         mret (cell_start ++ [metadata_to_json_options (metadata self)], self)
       else if dict_nonempty (metadata self) then
         '(cell_start, self) ←
           match dict_get (metadata self) "title" with
           | Some title =>
               t ← lift (as_text title);
               mret (cell_start ++ [t],
                     set_metadata self (dict_del (metadata self) "title"))
           | None => mret (cell_start, self)
           end;
         mret (if dict_nonempty (metadata self)
               then (cell_start ++ [metadata_to_json_options (metadata self)], self)
               else (cell_start, self))
       else mret (cell_start, self));
    endofcell ← lift (format_str endofcell);
    mret (Str.join " " cell_start :: src ++ [comment self +:+ " " +:+ endofcell],
          self).

(** [LightScriptCellExporter.remove_eoc_marker] *)
Definition LightScriptCellExporter_remove_eoc_marker (self : exporter)
    (text next_text : list string) : M (list string * exporter) :=
  if str_truthy (cell_marker_start self) then mret (text, self)
  else
    let '(code_cell, self) := is_code self in
    if code_cell : bool then
      final ← lift (last_line text);
      if String.eqb final (comment self +:+ " -") then
        if match next_text with
           | [] => true
           | first :: _ => Str.startswith first (comment self +:+ " + {")
           end
        then
          (* remove end of cell marker when redundant with next explicit marker *)
          let text := removelast text in
          to_end ← lift (as_count (lines_to_end_of_cell_marker self));
          match to_end with
          | Some n =>
              if (n =? 0)%Z then mret (text, self)
              else
                to_next ← lift (as_count (lines_to_next_cell self));
                match to_next with
                | None =>
                    mret (text, set_lines_to_next_cell self
                                  (lines_to_end_of_cell_marker self))
                | Some m =>
                    if (n >? m)%Z
                    then mret (text, set_lines_to_next_cell self
                                       (lines_to_end_of_cell_marker self))
                    else mret (text, self)
                end
          | None => mret (text, self)
          end
        else
          (* insert blank lines at the end of the cell *)
          to_end ← lift (as_count (lines_to_end_of_cell_marker self));
          let blank_lines :=
            match to_end with
            | Some n => n
            | None =>
                let pep8 :=
                  pep8_lines_between_cells (removelast text) next_text (ext self) in
                if (pep8 <? 2)%Z then 0%Z else 2%Z
            end in
          mret (removelast text ++ replicate (Z.to_nat blank_lines) "" ++ [final],
                self)
      else mret (text, self)
    else mret (text, self).

(** [LightScriptCellExporter.simplify_soc_marker] *)
Definition LightScriptCellExporter_simplify_soc_marker (self : exporter)
    (text prev_text : list string) : M (list string * exporter) :=
  if str_truthy (cell_marker_start self) then mret (text, self)
  else
    let '(code_cell, self) := is_code self in
    match text with
    | first :: rest =>
        if code_cell && String.eqb first (comment self +:+ " + {}") then
          if match prev_text with
             | [] => true
             | a :: prev => Str.all_space (List.last prev a)
             end
          then mret ((comment self +:+ " +") :: rest, self)
          else mret (text, self)
        else mret (text, self)
    | [] => mret (text, self)
    end.

(** *** R scripts *)

(** [RScriptCellExporter.code_to_text] *)
Definition RScriptCellExporter_code_to_text (self : exporter)
    : M (list string * exporter) :=
  let active := is_active (ext self) (metadata self) in
  let src := escape_code_start (source self) (ext self) (language self) in
  let src :=
    if active then comment_magic src (language self) (comment_magics self) else src in
  let src := if negb active then commented "#" src else src in
  let self :=
    if negb (is_active (Some "R") (metadata self))
    then set_metadata self (dict_set (metadata self) "eval" (JBool false))
    else self in
  let options := metadata_to_rmd_options None (metadata self) in
  mret ((if String.eqb options "" then [] else ["#+ " +:+ options]) ++ src, self).

(** *** Double percent and Hydrogen scripts *)

(** A metadata value used as a line of the text; a line that is not a
    string is not followed. *)
Definition as_line (v : json) : result string :=
  match v with
  | JStr s => Ok s
  | _ => Err Unmodelled
  end.

(** [DoublePercentCellExporter.cell_to_text] *)
Definition DoublePercentCellExporter_cell_to_text (self : exporter)
    : M (list string * exporter) :=
  let self :=
    if negb (cell_type_eqb (cell_type self) code)
    then set_metadata self
           (dict_set (metadata self) "cell_type"
              (JStr (cell_type_name (cell_type self))))
    else self in
  let active := is_active (Some "py") (metadata self) in
  let active :=
    if bool_decide (language self ≠ default_language self)
       && negb (dict_mem (metadata self) "active")
    then false else active in
  let self :=
    if cell_type_eqb (cell_type self) raw
       && match dict_get (metadata self) "active" with
          | Some v => is_str v ""
          | None => false
          end
    then set_metadata self (dict_del (metadata self) "active")
    else self in
  let '(options, encoded) := metadata_to_double_percent_options (metadata self) in
  let self := set_metadata self encoded in
  let lines :=
    if Str.startswith options "%" || String.eqb options ""
    then [comment self +:+ " %%" +:+ options]
    else [comment self +:+ " %% " +:+ options] in
  if cell_type_eqb (cell_type self) code && active then
    let src := comment_magic (source self) (language self) (comment_magics self) in
    mret (if bool_decide (src = [""]) then lines else lines ++ src, self)
  else
    unfiltered ← get_dict (unfiltered_metadata self);
    let cell_marker :=
      match dict_get unfiltered "cell_marker" with
      | Some v => v
      | None =>
          match cell_markers self with
          | Some m => JStr m
          | None => JNull
          end
      end in
    if negb (cell_type_eqb (cell_type self) code) && truthy cell_marker then
      marker ← lift (as_line cell_marker);
      mret (lines ++ [marker] ++ source self ++ [marker], self)
    else mret (lines ++ comment_lines (source self) (comment self), self).

(** *** Sphinx Gallery scripts *)

(** [SphinxGalleryCellExporter.cell_to_text] *)
Definition SphinxGalleryCellExporter_cell_to_text (self : exporter)
    : M (list string * exporter) :=
  if cell_type_eqb (cell_type self) code then
    mret (comment_magic (source self) (language self) (comment_magics self), self)
  else
    let '(cell_marker, self) :=
      match dict_get (metadata self) "cell_marker" with
      | Some v => (v, set_metadata self (dict_del (metadata self) "cell_marker"))
      | None => (JStr default_cell_marker, self)
      end in
    if bool_decide (source self = [""]) then
      mret (if is_str cell_marker (dquote +:+ dquote) || is_str cell_marker "''"
            then [match cell_marker with JStr m => m | _ => "" end]
            else [dquote +:+ dquote],
            self)
    else if is_str cell_marker (dquote +:+ dquote +:+ dquote)
            || is_str cell_marker "'''" then
      let marker := match cell_marker with JStr m => m | _ => "" end in
      mret (marker :: source self ++ [marker], self)
    else
      match cell_marker with
      | JStr m =>
          mret ((if Str.startswith m (Str.repeat "#" 20) then m
                 else default_cell_marker)
                  :: comment_lines (source self) (comment self),
                self)
      | _ => raise AttributeError
      end.

(** *** The methods of an exporter, by class *)

(** [self.code_to_text()] *)
Definition code_to_text (self : exporter) : M (list string * exporter) :=
  match class_of self with
  | MarkdownCellExporter => MarkdownCellExporter_code_to_text self
  | RMarkdownCellExporter => RMarkdownCellExporter_code_to_text self
  | LightScriptCellExporter | BareScriptCellExporter =>
      LightScriptCellExporter_code_to_text self
  | RScriptCellExporter => RScriptCellExporter_code_to_text self
  | DoublePercentCellExporter | HydrogenCellExporter | SphinxGalleryCellExporter =>
      raise (NotImplementedError "This method must be implemented in a sub-class")
  end.

(** [BaseCellExporter.cell_to_text] *)
Definition BaseCellExporter_cell_to_text (self : exporter)
    : M (list string * exporter) :=
  let '(code_cell, self) := is_code self in
  if code_cell : bool then code_to_text self
  else
    let src :=
      if String.eqb (comment self) ""
      then escape_code_start (source self) (ext self) None
      else source self in
    mret (markdown_to_text self src, self).

(** [MarkdownCellExporter.cell_to_text] *)
Definition MarkdownCellExporter_cell_to_text (self : exporter)
    : M (list string * exporter) :=
  if cell_type_eqb (cell_type self) markdown then
    (* Is an explicit region required? *)
    region ←
      (if dict_nonempty (metadata self) then mret true
       else
         f ← get_fmt (fmt self);
         mret (read_pos (cell_reader (class_of self)) f (source self)
                 <? length (source self)));
    if region : bool then
      '(lines, metadata) ← lift (html_comment self (metadata self) "region");
      mret (lines, set_metadata self metadata)
    else mret (source self, self)
  else code_to_text self.

(** [self.cell_to_text()] *)
Definition cell_to_text (self : exporter) : M (list string * exporter) :=
  match class_of self with
  | MarkdownCellExporter | RMarkdownCellExporter =>
      MarkdownCellExporter_cell_to_text self
  | LightScriptCellExporter | BareScriptCellExporter | RScriptCellExporter =>
      BaseCellExporter_cell_to_text self
  | DoublePercentCellExporter | HydrogenCellExporter =>
      DoublePercentCellExporter_cell_to_text self
  | SphinxGalleryCellExporter => SphinxGalleryCellExporter_cell_to_text self
  end.

(** [self.remove_eoc_marker(text, next_text)] *)
Definition remove_eoc_marker (self : exporter) (text next_text : list string)
    : M (list string * exporter) :=
  match class_of self with
  | LightScriptCellExporter | BareScriptCellExporter =>
      LightScriptCellExporter_remove_eoc_marker self text next_text
  | _ => mret (text, self)
  end.

(** [self.simplify_soc_marker(text, prev_text)] *)
Definition simplify_soc_marker (self : exporter) (text prev_text : list string)
    : M (list string * exporter) :=
  match class_of self with
  | LightScriptCellExporter | BareScriptCellExporter =>
      LightScriptCellExporter_simplify_soc_marker self text prev_text
  | _ => mret (text, self)
  end.

(** One cell exported by a fresh exporter, as the writer of a notebook does:
    [cls(cell, default_language, fmt).cell_to_text()]. *)
Definition export (d : dialect) (cell : loc) (default_language : option string)
    (given_fmt : option loc) : M (list string) :=
  self ← init d cell default_language given_fmt;
  '(lines, _) ← cell_to_text self;
  mret lines.

End Exporters.

(** ** Reference collaborators

    One implementation of the collaborators, used to run the exporters on
    examples.  The modules it stands for are not part of this development;
    each function follows what the specification and the tests say about
    it. *)

Module Ref.

(** Modelled from the spec: [languages.cell_language] (the module is
    missing).  "A language is parsed out of the first line(s) of source when
    it encodes a magic-cell directive": a first line [%%lang args] with a
    known language is taken off the source. *)
Definition known_languages : list string :=
  ["R"; "bash"; "sh"; "python"; "python2"; "python3"; "javascript"; "js"; "perl"].

Fixpoint split_space (s : string) : string * option string :=
  match s with
  | EmptyString => (EmptyString, None)
  | String a s' =>
      if Ascii.eqb a " " then (EmptyString, Some s')
      else let '(x, y) := split_space s' in (String a x, y)
  end.

Definition cell_language (source : list string)
    : option string * option string * list string :=
  match source with
  | line :: rest =>
      match Str.strip_prefix "%%" line with
      | Some magic =>
          let '(lang, magic_args) := split_space magic in
          if existsb (String.eqb lang) known_languages
          then (Some lang, Some (default "" magic_args), rest)
          else (None, None, source)
      | None => (None, None, source)
      end
  | [] => (None, None, source)
  end.

(** Modelled from the spec: [languages.comment_lines] (the module is
    missing).  Prose lines "are rendered as line comments": the prefix and a
    space before each line, the prefix alone for an empty line. *)
Definition comment_lines (lines : list string) (prefix : string) : list string :=
  if String.eqb prefix "" then lines else commented prefix lines.

(** Modelled from the spec: [cell_metadata.is_active] (the module is
    missing).  A cell is inactive when "its active flag excludes the current
    target format"; the flag lists formats separated by commas. *)
Fixpoint split_on (sep : ascii) (cur : string) (s : string) : list string :=
  match s with
  | EmptyString => [String.rev cur]
  | String a s' =>
      if Ascii.eqb a sep then String.rev cur :: split_on sep EmptyString s'
      else split_on sep (String a cur) s'
  end.

Fixpoint without_dots (s : string) : string :=
  match s with
  | EmptyString => EmptyString
  | String a s' => if Ascii.eqb a "." then without_dots s' else String a (without_dots s')
  end.

Definition is_active (ext : option string) (metadata : dict) : bool :=
  match dict_get metadata "active" with
  | None => true
  | Some (JStr active) =>
      match ext with
      | Some e => existsb (String.eqb (without_dots e)) (split_on "," EmptyString active)
      | None => false
      end
  | Some _ => false
  end.

(** Modelled from the spec: [metadata_filter.filter_metadata] and
    [cell_metadata._IGNORE_CELL_METADATA] (the modules are missing).  The
    filter is "allow/deny key lists applied before encoding"; with no user
    filter the default deny list applies. *)
Definition _IGNORE_CELL_METADATA : string :=
  "-autoscroll,-collapsed,-scrolled,-trusted,-ExecuteTime,-skipline,-noskipline,"
    +:+ "-cell_marker,-lines_to_next_cell,-lines_to_end_of_cell_marker".

Definition denied (filter : string) : list string :=
  omap (Str.strip_prefix "-") (split_on "," EmptyString filter).

Definition filter_metadata (metadata : dict) (user_filter : option json)
    (default_filter : string) : dict :=
  dict_without metadata (denied default_filter).

(** Modelled from the spec: [json.dumps] on metadata, "a single inline JSON
    object". *)
Fixpoint digits (fuel : nat) (n : N) (acc : string) : string :=
  match fuel with
  | O => acc
  | S fuel' =>
      let d := ascii_of_N (48 + n mod 10)%N in
      if (n <? 10)%N then String d acc else digits fuel' (n / 10)%N (String d acc)
  end.

Definition decimal (z : Z) : string :=
  let n := Z.abs_N z in
  let s := digits (S (N.to_nat (N.log2 n))) n EmptyString in
  if (z <? 0)%Z then "-" +:+ s else s.

Fixpoint escape (s : string) : string :=
  match s with
  | EmptyString => EmptyString
  | String a s' =>
      if Ascii.eqb a "034" || Ascii.eqb a "\" then String "\" (String a (escape s'))
      else String a (escape s')
  end.

Definition quoted (s : string) : string := dquote +:+ escape s +:+ dquote.

Fixpoint dumps (v : json) : string :=
  match v with
  | JNull => "null"
  | JBool true => "true"
  | JBool false => "false"
  | JNum n => decimal n
  | JStr s => quoted s
  | JArr items => "[" +:+ Str.join ", " (map dumps items) +:+ "]"
  | JObj fields =>
      "{" +:+ Str.join ", "
                (map (fun kv => let '(k, w) := kv in quoted k +:+ ": " +:+ dumps w) fields)
          +:+ "}"
  end.

Definition json_dumps (metadata : dict) : string := dumps (JObj metadata).

(** Modelled from the spec: [cell_metadata.metadata_to_json_options] (the
    module is missing), "JSON-object options (a single inline JSON
    object)". *)
Definition metadata_to_json_options (metadata : dict) : string := json_dumps metadata.

(** Modelled from the spec: [cell_metadata.metadata_to_md_options] (the
    module is missing), "space-joined key=value/JSON tokens". *)
Definition metadata_to_md_options (metadata : dict) : string :=
  Str.join " " (map (fun kv => let '(k, w) := kv in k +:+ "=" +:+ dumps w) metadata).

(** Modelled from the spec: [cell_metadata.metadata_to_rmd_options] (the
    module is missing), "comma-joined key=value, with the language name as an
    unlabeled first token"; logical values are written as R writes them. *)
Definition r_value (v : json) : string :=
  match v with
  | JBool true => "TRUE"
  | JBool false => "FALSE"
  | _ => dumps v
  end.

Definition metadata_to_rmd_options (language : option string) (metadata : dict) : string :=
  Str.join ", "
    (option_list language
       ++ map (fun kv => let '(k, w) := kv in k +:+ "=" +:+ r_value w) metadata).

(** Modelled from the spec: [cell_metadata.metadata_to_double_percent_options]
    (the module is missing), "space-joined tokens": the title, the cell type
    in brackets, and the other keys as a JSON object.  The keys [title] and
    [cell_type] are "routed to their own syntactic slot": the encoder takes
    them out of the dict that it is given. *)
Definition metadata_to_double_percent_options (metadata : dict) : string * dict :=
  let title :=
    match dict_get metadata "title" with
    | Some (JStr t) => [t]
    | _ => []
    end in
  let kind :=
    match dict_get metadata "cell_type" with
    | Some (JStr t) => ["[" +:+ t +:+ "]"]
    | _ => []
    end in
  let others := dict_without metadata ["title"; "cell_type"] in
  (Str.join " "
     (title ++ kind ++ if dict_nonempty others then [json_dumps others] else []),
   others).

(** Modelled from the spec: [magics.comment_magic] (the module is missing).
    "Lines recognized as magics are rewritten with the line-comment prefix
    prepended; once a non-magic, non-blank line is seen, scanning stops."  A
    magic is a line that starts with a percent sign. *)
Fixpoint comment_leading_magics (source : list string) : list string :=
  match source with
  | [] => []
  | line :: rest =>
      if Str.startswith line "%" then ("# " +:+ line) :: comment_leading_magics rest
      else if String.eqb line "" then line :: comment_leading_magics rest
      else source
  end.

Definition comment_magic (source : list string) (language : option string)
    (comment_magics : option bool) : list string :=
  if default false comment_magics then comment_leading_magics source else source.

(** Modelled from the spec: [magics.escape_code_start] (the module is
    missing).  It "comments the very first line of a cell if it would
    otherwise be misread as a boundary marker". *)
Definition escape_code_start (source : list string) (ext language : option string)
    : list string :=
  match source with
  | line :: rest =>
      if Str.startswith line "# +" then ("# " +:+ line) :: rest else source
  | [] => source
  end.

(** Modelled from the spec: the readers of [cell_reader] (the module is
    missing), as far as the position where the first cell ends.  In a script
    a blank line ends a code cell; in Markdown two blank lines end a cell. *)
Fixpoint first_blank (lines : list string) : nat :=
  match lines with
  | [] => 0
  | line :: rest => if String.eqb line "" then 0 else S (first_blank rest)
  end.

Fixpoint first_two_blanks (lines : list string) : nat :=
  match lines with
  | [] => 0
  | line :: rest =>
      match rest with
      | next :: _ =>
          if String.eqb line "" && String.eqb next "" then 0
          else S (first_two_blanks rest)
      | [] => 1
      end
  end.

Definition read_pos (r : reader) (f : Fmt.t) (lines : list string) : nat :=
  match r with
  | LightScriptCellReader => first_blank lines
  | MarkdownCellReader | RMarkdownCellReader => first_two_blanks lines
  end.

(** Modelled from the spec: [languages._SCRIPT_EXTENSIONS] (the module is
    missing): the language and the comment string of each script
    extension. *)
Definition script (language comment : string) : gmap string string :=
  {[ "language" := language; "comment" := comment ]}.

Definition _SCRIPT_EXTENSIONS : gmap string (gmap string string) :=
  {[ ".py" := script "python" "#"; ".R" := script "R" "#"; ".r" := script "R" "#";
     ".jl" := script "julia" "#"; ".cpp" := script "c++" "//";
     ".ss" := script "scheme" ";;"; ".sh" := script "bash" "#";
     ".m" := script "matlab" "%"; ".pro" := script "idl" ";" ]}.

(** Modelled from the spec: [pep8.pep8_lines_between_cells] (the module is
    missing), "a style rule that inspects the two adjacent text blocks": two
    blank lines before a definition, one otherwise. *)
Definition pep8_lines_between_cells (prev_lines next_lines : list string)
    (ext : option string) : Z :=
  match next_lines with
  | line :: _ =>
      if Str.startswith line "def " || Str.startswith line "class " then 2%Z else 1%Z
  | [] => 1%Z
  end.

Definition collaborators : Collaborators :=
  Build_Collaborators cell_language comment_lines is_active filter_metadata
    _IGNORE_CELL_METADATA metadata_to_md_options metadata_to_rmd_options
    metadata_to_json_options metadata_to_double_percent_options comment_magic
    escape_code_start read_pos _SCRIPT_EXTENSIONS pep8_lines_between_cells
    json_dumps.

End Ref.

(** ** Example stores *)

(** A store with one cell at location 1, its metadata at location 2 and a
    format dict at location 3. *)
Definition one_cell (kind : cell_kind) (source : string) (metadata : dict)
    (f : Fmt.t) : store :=
  Store {[ 1%positive := Cell.Make kind source 2%positive ]}
        {[ 2%positive := metadata ]}
        {[ 3%positive := f ]}
        [].

(** The format dict [{'extension': ext}]. *)
Definition fmt_of (ext : string) : Fmt.t :=
  Fmt.Make (Some ext) None None None None None.

(** An exporter for a cell of a Python notebook: the fields that the examples
    vary, and for the others what a constructor gives for the cell at
    location 1 and the format [{'extension': ext}] at location 3. *)
Definition exporter_of (d : dialect) (ext comment : string) (kind : cell_kind)
    (source : list string) (metadata : dict) (language : string)
    (to_next to_end : option json) : exporter :=
  Exporter d (Some 3%positive) (Some ext) kind source 2%positive metadata
    (Some language) (Some "python") comment (Some true) to_next to_end
    None None None.

(** The format dict [{'extension': '.py', 'rst2md': True}]. *)
Definition rst2md_fmt : Fmt.t :=
  Fmt.Make (Some ".py") None None None (Some true) None.

(** The format dict [{'extension': '.py', 'cell_markers': markers}]. *)
Definition markers_fmt (markers : string) : Fmt.t :=
  Fmt.Make (Some ".py") None None (Some markers) None None.

(** ** Definitions used in the statements *)

(** The literal characters of a string, as patterns. *)
Fixpoint lits (p : string) : list Re.regex :=
  match p with
  | EmptyString => []
  | String c p' => Re.Chr c :: lits p'
  end.

(** What [endofcell_re] compiles to when the comment string holds no
    operator. *)
Definition endofcell_regex (comment token : string) : Re.regex :=
  Re.mk_seq (Re.Bol :: lits comment
               ++ Re.Group (Re.Seq (Re.Chr " ") Re.Eps) :: lits token
               ++ [Re.Star Re.Space; Re.Eol]).

Definition nonempty {A} (l : list A) : bool :=
  match l with
  | [] => false
  | _ :: _ => true
  end.

(** The exporter that [BaseCellExporter.__init__] builds, as a function of
    the objects that it reads: the cell [c], its metadata dict [md] and the
    format dict [f]. *)
Section Constructed.
Context `{Collaborators}.

Definition base_metadata (ext : option string) (filtered : dict)
    (language magic_args : option string) : result dict :=
  if str_truthy language then
    match
      if str_truthy magic_args then
        match ext_endswith ext ".Rmd" with
        | Ok is_rmd =>
            let args := default "" magic_args in
            let quote := if Str.contains "'" args then dquote else squote in
            let args := if is_rmd : bool then quote +:+ args +:+ quote else args in
            Ok (dict_set filtered "magic_args" (JStr args))
        | Err e => Err e
        end
      else Ok filtered
    with
    | Ok metadata =>
        match ext_endswith ext ".Rmd" with
        | Ok is_rmd =>
            Ok (if is_rmd : bool then metadata
                else dict_set metadata "language" (JStr (default "" language)))
        | Err e => Err e
        end
    | Err e => Err e
    end
  else Ok filtered.

Definition detected (d : dialect) (c : Cell.t)
    : option string * option string * list string :=
  if parse_cell_language d then cell_language (source_lines (Cell.source c))
  else (None, None, source_lines (Cell.source c)).

Definition base_exporter (d : dialect) (self_fmt : option loc) (c : Cell.t)
    (md : dict) (f : Fmt.t) (default_language : option string) : result exporter :=
  let ext := Fmt.extension f in
  let filtered :=
    filter_metadata md (Fmt.cell_metadata_filter f) _IGNORE_CELL_METADATA in
  let '(language, magic_args, src) := detected d c in
  match base_metadata ext filtered language magic_args with
  | Ok metadata =>
      Ok (Exporter d self_fmt ext (Cell.cell_type c) src (Cell.metadata c)
            (if cell_type_eqb (Cell.cell_type c) raw
                && negb (dict_mem metadata "active")
             then dict_set metadata "active" (JStr "")
             else metadata)
            (if str_truthy language then language else default_language)
            default_language
            (default "#" ((ext ≫= (_SCRIPT_EXTENSIONS !!.)) ≫= (.!! "comment")))
            (match Fmt.comment_magics f with
             | Some b => Some b
             | None => default_comment_magics d
             end)
            (dict_get md "lines_to_next_cell")
            (dict_get md "lines_to_end_of_cell_marker")
            None None None)
  | Err e => Err e
  end.

(** The source of a light-script cell as [code_to_text] renders it, before
    it adds the markers. *)
Definition rendered_source (self : exporter) : list string :=
  let active := is_active (ext self) (metadata self) in
  let active :=
    if bool_decide (language self ≠ default_language self)
       && negb (dict_mem (metadata self) "active")
    then false else active in
  let src := escape_code_start (source self) (ext self) (language self) in
  if active then comment_magic src (language self) (comment_magics self)
  else commented (comment self) src.

End Constructed.

(** The statements that the constructor of class [d] runs after the base
    constructor. *)
Definition setup (d : dialect) (self : exporter) : M exporter :=
  match d with
  | MarkdownCellExporter => MarkdownCellExporter_setup self
  | RMarkdownCellExporter =>
      self ← MarkdownCellExporter_setup self; RMarkdownCellExporter_setup self
  | LightScriptCellExporter | BareScriptCellExporter =>
      LightScriptCellExporter_setup self
  | RScriptCellExporter => RScriptCellExporter_setup self
  | DoublePercentCellExporter | HydrogenCellExporter =>
      DoublePercentCellExporter_setup self
  | SphinxGalleryCellExporter => SphinxGalleryCellExporter_setup self
  end.

(** What a constructor keeps of the exporter that the base constructor
    builds. *)
Definition extends (self0 self : exporter) : Prop :=
  class_of self = class_of self0 /\
  fmt self = fmt self0 /\
  cell_type self = cell_type self0 /\
  source self = source self0 /\
  unfiltered_metadata self = unfiltered_metadata self0 /\
  language self = language self0 /\
  default_language self = default_language self0 /\
  comment_magics self = comment_magics self0 /\
  lines_to_next_cell self = lines_to_next_cell self0 /\
  lines_to_end_of_cell_marker self = lines_to_end_of_cell_marker self0 /\
  (forall k, k <> "endofcell" -> k <> "cell_marker" ->
     dict_get (metadata self) k = dict_get (metadata self0) k) /\
  (dict_nonempty (metadata self0) = true -> dict_nonempty (metadata self) = true).

(** The next text is empty or opens with the start marker [# + {]. *)
Definition opens_with_marker (self : exporter) (next_text : list string) : bool :=
  match next_text with
  | [] => true
  | first :: _ => Str.startswith first (comment self +:+ " + {")
  end.

(** ** Round trips

    The Reader of a dialect is not part of this development; it is any
    function from the context and the lines of a text to a cell. *)

(** A cell as a Reader returns it: its type, the lines of its source and its
    metadata. *)
Record cell_value : Type := CellValue {
  value_type : cell_kind;
  value_lines : list string;
  value_metadata : dict
}.

(** The lines of a source without the blank lines at its end. *)
Fixpoint without_trailing_blanks (lines : list string) : list string :=
  match lines with
  | [] => []
  | line :: rest =>
      match without_trailing_blanks rest with
      | [] => if String.eqb line "" then [] else [line]
      | rest' => line :: rest'
      end
  end.

Section RoundTrip.
Context `{Collaborators}.

(** Two cells are the same up to the metadata keys that the filter of the
    format drops and up to the blank lines at the end of the source.  The
    outputs of a cell are not part of a [cell_value]. *)
Definition same_cell (f : Fmt.t) (a b : cell_value) : Prop :=
  value_type a = value_type b /\
  without_trailing_blanks (value_lines a) = without_trailing_blanks (value_lines b) /\
  filter_metadata (value_metadata a) (Fmt.cell_metadata_filter f) _IGNORE_CELL_METADATA
  = filter_metadata (value_metadata b) (Fmt.cell_metadata_filter f) _IGNORE_CELL_METADATA.

(** The contract of the exporters of class [d] with a Reader [read]: reading
    the lines that the exporter writes for a cell gives the cell back. *)
Definition round_trip (d : dialect)
    (read : option string -> Fmt.t -> list string -> cell_value) : Prop :=
  forall (kind : cell_kind) (source : string) (metadata : dict) (f : Fmt.t)
         (default_language : option string) (lines : list string) (s' : store),
    export d 1%positive default_language (Some 3%positive)
      (one_cell kind source metadata f) = (Ok lines, s') ->
    same_cell f (CellValue kind (source_lines source) metadata)
      (read default_language f lines).

(** The metadata of a cell that the Markdown exporter encodes in the options
    of a code fence: what the filter keeps, but for the keys [active] and
    [language]. *)
Definition fenced_metadata (f : Fmt.t) (metadata : dict) : dict :=
  dict_without
    (filter_metadata metadata (Fmt.cell_metadata_filter f) _IGNORE_CELL_METADATA)
    ["active"; "language"].

(** The [comment_magics] flag of a Markdown exporter for the format [f]. *)
Definition markdown_comment_magics (f : Fmt.t) : option bool :=
  match Fmt.comment_magics f with
  | Some b => Some b
  | None => Some false
  end.

(** The options of the fence of a Markdown code cell. *)
Definition fence_options (f : Fmt.t) (dl : option string) (metadata : dict)
    : list string :=
  (if str_truthy dl then [default "" dl] else [])
    ++ (if dict_nonempty (fenced_metadata f metadata)
        then [metadata_to_md_options (fenced_metadata f metadata)] else []).

End RoundTrip.

(** The light scripts, with and without cell markers. *)
Definition light (d : dialect) : bool :=
  match d with
  | LightScriptCellExporter | BareScriptCellExporter => true
  | _ => false
  end.

(** ** Further definitions used in the statements *)

(** The line boundaries of [s] are line feeds only. *)
Fixpoint unix_lines (s : string) : bool :=
  match s with
  | EmptyString => true
  | String a s' => (negb (Str.is_linebreak a) || Ascii.eqb a "010") && unix_lines s'
  end.

(** A call that leaves the whole store as it was, whatever it returns. *)
Definition unchanged {A} (m : M A) : Prop :=
  forall s, snd (m s) = s.

(** The exceptions that would show a defect of the exporters themselves: a
    key that is read but missing, and the method that the base class leaves
    to its subclasses. *)
Definition unexpected (e : exn) : bool :=
  match e with
  | KeyError _ | NotImplementedError _ => true
  | _ => false
  end.

(** A result that is no exception of the kind [bad]. *)
Definition quiet {A} (bad : exn -> bool) (r : result A) : Prop :=
  match r with
  | Err e => bad e = false
  | Ok _ => True
  end.

(** A call that raises no exception of the kind [bad]. *)
Definition never_raises {A} (bad : exn -> bool) (m : M A) : Prop :=
  forall s, quiet bad (fst (m s)).

Section Writer.
Context `{Collaborators}.

(** The calls that the writer of a notebook makes on the exporter of one
    cell: the constructor, [cell_to_text], and the two calls that adjust the
    markers to the texts of the next and of the previous cell. *)
Definition cell_text (d : dialect) (cell : loc) (default_language : option string)
    (given_fmt : option loc) (next_text prev_text : list string) : M (list string) :=
  self ← init d cell default_language given_fmt;
  '(text, self) ← cell_to_text self;
  '(text, self) ← remove_eoc_marker self text next_text;
  '(text, self) ← simplify_soc_marker self text prev_text;
  mret text.

End Writer.


(** ** The exporter with a dict of its own

    In the embedding above the exporter carries its metadata as a value, so
    that it cannot be told from it which dict a statement writes.  The
    module [Heap] follows the same classes with [self.metadata] as what it is
    in Python, a reference to a dict: the dicts that the exporter makes
    ([copy(cell.metadata)], a dict comprehension) are new dicts of the store,
    and each assignment, [del] and [pop] writes the dict that the reference
    names.  [self.unfiltered_metadata] is the dict of the caller itself. *)

Module Heap.

(** The exporter object [self]. *)
Record exporter : Type := Exporter {
  class_of : dialect;
  fmt : option loc;
  ext : option string;
  cell_type : cell_kind;
  source : list string;
  unfiltered_metadata : loc;
  metadata : loc;
  language : option string;
  default_language : option string;
  comment : string;
  comment_magics : option bool;
  lines_to_next_cell : option json;
  lines_to_end_of_cell_marker : option json;
  cell_marker_start : option string;
  cell_marker_end : option string;
  cell_markers : option string
}.

Definition set_ext (self : exporter) (v : option string) : exporter :=
  Exporter (class_of self) (fmt self) v (cell_type self) (source self)
    (unfiltered_metadata self) (metadata self) (language self)
    (default_language self) (comment self) (comment_magics self)
    (lines_to_next_cell self) (lines_to_end_of_cell_marker self)
    (cell_marker_start self) (cell_marker_end self) (cell_markers self).

Definition set_source (self : exporter) (v : list string) : exporter :=
  Exporter (class_of self) (fmt self) (ext self) (cell_type self) v
    (unfiltered_metadata self) (metadata self) (language self)
    (default_language self) (comment self) (comment_magics self)
    (lines_to_next_cell self) (lines_to_end_of_cell_marker self)
    (cell_marker_start self) (cell_marker_end self) (cell_markers self).

Definition set_comment (self : exporter) (v : string) : exporter :=
  Exporter (class_of self) (fmt self) (ext self) (cell_type self) (source self)
    (unfiltered_metadata self) (metadata self) (language self)
    (default_language self) v (comment_magics self)
    (lines_to_next_cell self) (lines_to_end_of_cell_marker self)
    (cell_marker_start self) (cell_marker_end self) (cell_markers self).

Definition set_lines_to_next_cell (self : exporter) (v : option json) : exporter :=
  Exporter (class_of self) (fmt self) (ext self) (cell_type self) (source self)
    (unfiltered_metadata self) (metadata self) (language self)
    (default_language self) (comment self) (comment_magics self)
    v (lines_to_end_of_cell_marker self)
    (cell_marker_start self) (cell_marker_end self) (cell_markers self).

Definition set_cell_marker_start_end (self : exporter) (a b : option string) : exporter :=
  Exporter (class_of self) (fmt self) (ext self) (cell_type self) (source self)
    (unfiltered_metadata self) (metadata self) (language self)
    (default_language self) (comment self) (comment_magics self)
    (lines_to_next_cell self) (lines_to_end_of_cell_marker self)
    a b (cell_markers self).

Definition set_cell_markers (self : exporter) (v : option string) : exporter :=
  Exporter (class_of self) (fmt self) (ext self) (cell_type self) (source self)
    (unfiltered_metadata self) (metadata self) (language self)
    (default_language self) (comment self) (comment_magics self)
    (lines_to_next_cell self) (lines_to_end_of_cell_marker self)
    (cell_marker_start self) (cell_marker_end self) v.

(** *** Dicts of the store *)

(** A new dict that holds [d]: [copy(d)], a dict display or a
    comprehension.  Its location is one that the store does not hold. *)
Definition new_dict (d : dict) : M loc :=
  fun s =>
    let l := fresh (dom (dicts s)) in
    (Ok l, Store (cells s) (<[l := d]> (dicts s)) (fmts s) (warnings s)).

(** The dict at [l] becomes [d]. *)
Definition put_dict (l : loc) (d : dict) : M unit :=
  fun s => (Ok tt, Store (cells s) (<[l := d]> (dicts s)) (fmts s) (warnings s)).

(** [d[key] = v] for the dict [d] at [l] *)
Definition set_item (l : loc) (key : string) (v : json) : M unit :=
  d ← get_dict l;
  put_dict l (dict_set d key v).

(** [del d[key]] *)
Definition del_item (l : loc) (key : string) : M unit :=
  d ← get_dict l;
  if dict_mem d key then put_dict l (dict_del d key) else raise (KeyError key).

(** [d.pop(key)] *)
Definition pop_item (l : loc) (key : string) : M json :=
  d ← get_dict l;
  match dict_get d key with
  | Some v => _ ← put_dict l (dict_del d key); mret v
  | None => raise (KeyError key)
  end.

Section Exporters.

Context `{Collaborators}.

(** [BaseCellExporter.__init__], for an object of class [d] *)
Definition BaseCellExporter_init (d : dialect) (cell : loc)
    (default_language : option string) (given_fmt : option loc) : M exporter :=
  (* self.fmt = fmt or {} *)
  given ← get_fmt given_fmt;
  let self_fmt := if Fmt.nonempty given then given_fmt else None in
  f ← get_fmt self_fmt;
  let ext := Fmt.extension f in
  c ← get_cell cell;
  let cell_type := Cell.cell_type c in
  source ← cell_source cell;
  let unfiltered_metadata := Cell.metadata c in
  (* copy(cell.metadata) *)
  cell_metadata ← get_dict (Cell.metadata c);
  metadata ← new_dict cell_metadata;
  (* filter_metadata takes the keys that it drops out of the dict that it is
     given, and returns that dict *)
  copied ← get_dict metadata;
  _ ← put_dict metadata
        (filter_metadata copied (Fmt.cell_metadata_filter f) _IGNORE_CELL_METADATA);
  let '(language, magic_args, source) :=
    if parse_cell_language d then cell_language source
    else (None, None, source) in
  _ ←
    (if str_truthy language then
       _ ←
         (if str_truthy magic_args then
            is_rmd ← lift (ext_endswith ext ".Rmd");
            let args := default "" magic_args in
            let quote := if Str.contains "'" args then dquote else squote in
            let args := if is_rmd : bool then quote +:+ args +:+ quote else args in
            set_item metadata "magic_args" (JStr args)
          else mret tt);
       is_rmd ← lift (ext_endswith ext ".Rmd");
       if is_rmd : bool then mret tt
       else set_item metadata "language" (JStr (default "" language))
     else mret tt);
  let language := if str_truthy language then language else default_language in
  let comment :=
    default "#" ((ext ≫= (_SCRIPT_EXTENSIONS !!.)) ≫= (.!! "comment")) in
  let comment_magics :=
    match Fmt.comment_magics f with
    | Some b => Some b
    | None => default_comment_magics d
    end in
  (* how many blank lines before next cell *)
  cell_metadata ← get_dict (Cell.metadata c);
  let lines_to_next_cell := dict_get cell_metadata "lines_to_next_cell" in
  let lines_to_end_of_cell_marker :=
    dict_get cell_metadata "lines_to_end_of_cell_marker" in
  own ← get_dict metadata;
  _ ←
    (if cell_type_eqb (Cell.cell_type c) raw && negb (dict_mem own "active")
     then set_item metadata "active" (JStr "")
     else mret tt);
  mret (Exporter d self_fmt ext cell_type source unfiltered_metadata metadata
          language default_language comment comment_magics
          lines_to_next_cell lines_to_end_of_cell_marker None None None).

(** [MarkdownCellExporter.__init__] *)
Definition MarkdownCellExporter_setup (self : exporter) : M exporter :=
  mret (set_comment self "").

(** [RMarkdownCellExporter.__init__] *)
Definition RMarkdownCellExporter_setup (self : exporter) : M exporter :=
  mret (set_comment (set_ext self (Some ".Rmd")) "").

(** [LightScriptCellExporter.__init__] *)
Definition LightScriptCellExporter_setup (self : exporter) : M exporter :=
  f ← get_fmt (fmt self);
  self ←
    match Fmt.cell_markers f with
    | Some markers =>
        if negb (Str.contains "," markers) then
          (* self.fmt.pop('cell_markers') *)
          _ ← match fmt self with
              | Some l => set_fmt l (Fmt.without_cell_markers f)
              | None => mret tt
              end;
          _ ← warn (ignored_cell_markers markers);
          mret self
        else if negb (String.eqb markers "+,-") then
          let '(cell_marker_start, cell_marker_end) := split_comma markers in
          mret (set_cell_marker_start_end self
                  (Some cell_marker_start) (Some cell_marker_end))
        else mret self
    | None => mret self
    end;
  unfiltered ← get_dict (unfiltered_metadata self);
  _ ← match dict_get unfiltered "endofcell" with
      | Some v => set_item (metadata self) "endofcell" v
      | None => mret tt
      end;
  mret self.

(** [RScriptCellExporter.__init__] *)
Definition RScriptCellExporter_setup (self : exporter) : M exporter :=
  mret (set_comment self "#'").

(** [DoublePercentCellExporter.__init__] *)
Definition DoublePercentCellExporter_setup (self : exporter) : M exporter :=
  f ← get_fmt (fmt self);
  mret (set_cell_markers self (Fmt.cell_markers f)).

(** [SphinxGalleryCellExporter.__init__] *)
Definition SphinxGalleryCellExporter_setup (self : exporter) : M exporter :=
  let self := set_comment self "#" in
  unfiltered ← get_dict (unfiltered_metadata self);
  _ ← match dict_get unfiltered "cell_marker" with
      | Some v => set_item (metadata self) "cell_marker" v
      | None => mret tt
      end;
  f ← get_fmt (fmt self);
  if default false (Fmt.rst2md f) then raise (ValueError rst2md_read_only)
  else mret self.

(** The statements that the constructor of class [d] runs after the base
    constructor. *)
Definition setup (d : dialect) (self : exporter) : M exporter :=
  match d with
  | MarkdownCellExporter => MarkdownCellExporter_setup self
  | RMarkdownCellExporter =>
      self ← MarkdownCellExporter_setup self; RMarkdownCellExporter_setup self
  | LightScriptCellExporter | BareScriptCellExporter =>
      LightScriptCellExporter_setup self
  | RScriptCellExporter => RScriptCellExporter_setup self
  | DoublePercentCellExporter | HydrogenCellExporter =>
      DoublePercentCellExporter_setup self
  | SphinxGalleryCellExporter => SphinxGalleryCellExporter_setup self
  end.

(** The constructor of each class. *)
Definition init (d : dialect) (cell : loc) (default_language : option string)
    (given_fmt : option loc) : M exporter :=
  self ← BaseCellExporter_init d cell default_language given_fmt;
  setup d self.

(** [BaseCellExporter.is_code] *)
Definition BaseCellExporter_is_code (self : exporter) : M bool :=
  own ← get_dict (metadata self);
  if cell_type_eqb (cell_type self) code then mret true
  else if cell_type_eqb (cell_type self) raw && dict_mem own "active"
       then mret true
       else mret false.

(** [self.is_code()]: the answer and the object after the call. *)
Definition is_code (self : exporter) : M (bool * exporter) :=
  match class_of self with
  | LightScriptCellExporter | BareScriptCellExporter =>
      own ← get_dict (metadata self);
      if cell_type_eqb (cell_type self) markdown && dict_nonempty own
      then
        _ ← set_item (metadata self) "cell_type"
              (JStr (cell_type_name (cell_type self)));
        let self := set_source self (comment_lines (source self) (comment self)) in
        mret (true, self)
      else
        answer ← BaseCellExporter_is_code self;
        mret (answer, self)
  | _ =>
      answer ← BaseCellExporter_is_code self;
      mret (answer, self)
  end.

(** [self.markdown_to_text(source)] *)
Definition markdown_to_text (self : exporter) (source : list string) : list string :=
  let source :=
    if negb (String.eqb (comment self) "") && negb (String.eqb (comment self) "#'")
    then comment_magic source (language self) (comment_magics self)
    else source in
  comment_lines source (comment self).

(** [self.html_comment(metadata, code)], for the dict at [metadata] *)
Definition html_comment (self : exporter) (metadata : loc) (code : string)
    : M (list string) :=
  let close := "<!-- #end" +:+ code +:+ " -->" in
  given ← get_dict metadata;
  if dict_nonempty given then
    let region_start := ["<!-- #" +:+ code] in
    title ←
      match dict_get given "title" with
      | Some title =>
          plain_title ← lift (without_brace title);
          if plain_title : bool then
            title ← pop_item metadata "title";
            mret (Some title)
          else mret None
      | None => mret None
      end;
    given ← get_dict metadata;
    let dumped := json_dumps given in
    (* ' '.join(region_start) *)
    region_start ←
      match title with
      | Some title =>
          t ← lift (as_text title);
          mret (region_start ++ [t])
      | None => mret region_start
      end;
    let region_start := region_start ++ [dumped; "-->"] in
    mret (Str.join " " region_start :: source self ++ [close])
  else mret (("<!-- #" +:+ code +:+ " -->") :: source self ++ [close]).

(** [MarkdownCellExporter.code_to_text] *)
Definition MarkdownCellExporter_code_to_text (self : exporter)
    : M (list string * exporter) :=
  let source := comment_magic (source self) (language self) (comment_magics self) in
  let options :=
    if cell_type_eqb (cell_type self) code && str_truthy (language self)
    then [default "" (language self)] else [] in
  own ← get_dict (metadata self);
  (* a dict comprehension *)
  filtered_metadata ← new_dict (dict_without own ["active"; "language"]);
  filtered ← get_dict filtered_metadata;
  let options :=
    if dict_nonempty filtered
    then options ++ [metadata_to_md_options filtered] else options in
  if cell_type_eqb (cell_type self) raw then
    lines ← html_comment self filtered_metadata "raw";
    mret (lines, self)
  else mret (("```" +:+ Str.join " " options) :: source ++ ["```"], self).

(** [RMarkdownCellExporter.code_to_text] *)
Definition RMarkdownCellExporter_code_to_text (self : exporter)
    : M (list string * exporter) :=
  own ← get_dict (metadata self);
  let active := is_active (ext self) own in
  let source :=
    if active then comment_magic (source self) (language self) (comment_magics self)
    else source self in
  _ ←
    (if negb (is_active (Some "Rmd") own)
     then set_item (metadata self) "eval" (JBool false)
     else mret tt);
  own ← get_dict (metadata self);
  let options := metadata_to_rmd_options (language self) own in
  mret (("```{" +:+ options +:+ "}") :: source ++ ["```"], self).

(** [LightScriptCellExporter.explicit_start_marker]; [src] is the argument
    [source] *)
Definition explicit_start_marker (self : exporter) (src : list string) : M bool :=
  if negb (use_cell_markers (class_of self)) then mret false
  else
    own ← get_dict (metadata self);
    if dict_nonempty own then mret true
    else
      at_marker ←
        (if str_truthy (cell_marker_start self) then
           start_code_re ← lift (compile ("^" +:+ comment self +:+ "\s*"
                                 +:+ default "" (cell_marker_start self) +:+ "\s*(.*)$"));
           cell_marker_end ← lift (marker_text (cell_marker_end self));
           end_code_re ← lift (compile ("^" +:+ comment self +:+ "\s*"
                                 +:+ cell_marker_end +:+ "\s*$"));
           first ← lift (first_line src);
           mret (Re.matches start_code_re first || Re.matches end_code_re first)
         else mret false);
      if at_marker : bool then mret false
      else if all_startwith (source self) (comment self) then mret true
      else
        f ← get_fmt (fmt self);
        mret (read_pos LightScriptCellReader f src <? length src).

(** [LightScriptCellExporter.code_to_text] *)
Definition LightScriptCellExporter_code_to_text (self : exporter)
    : M (list string * exporter) :=
  own ← get_dict (metadata self);
  let active := is_active (ext self) own in
  let active :=
    if bool_decide (language self ≠ default_language self)
       && negb (dict_mem own "active")
    then false else active in
  let src := escape_code_start (source self) (ext self) (language self) in
  let src :=
    if active then comment_magic src (language self) (comment_magics self)
    else commented (comment self) src in
  explicit ← explicit_start_marker self src;
  _ ←
    (if explicit : bool then
       endofcell ←
         (if str_truthy (cell_marker_end self)
          then mret (default "" (cell_marker_end self))
          else lift (endofcell_token src (comment self)));
       set_item (metadata self) "endofcell" (JStr endofcell)
     else mret tt);
  own ← get_dict (metadata self);
  if negb (dict_nonempty own) || negb (use_cell_markers (class_of self))
  then mret (src, self)
  else
    endofcell ←
      match dict_get own "endofcell" with
      | Some v => mret v
      | None => raise (KeyError "endofcell")
      end;
    _ ←
      (if is_str endofcell "-" || str_truthy (cell_marker_end self)
       then del_item (metadata self) "endofcell"
       else mret tt);
    let cell_start :=
      [comment self;
       if str_truthy (cell_marker_start self)
       then default "" (cell_marker_start self) else "+"] in
    own ← get_dict (metadata self);
    cell_start ←
      (if negb (str_truthy (cell_marker_start self)) then
         mret (cell_start ++ [metadata_to_json_options own])
       else if dict_nonempty own then
         cell_start ←
           (if dict_mem own "title" then
              title ← pop_item (metadata self) "title";
              t ← lift (as_text title);
              mret (cell_start ++ [t])
            else mret cell_start);
         own ← get_dict (metadata self);
         mret (if dict_nonempty own
               then cell_start ++ [metadata_to_json_options own]
               else cell_start)
       else mret cell_start);
    endofcell ← lift (format_str endofcell);
    mret (Str.join " " cell_start :: src ++ [comment self +:+ " " +:+ endofcell],
          self).

(** [LightScriptCellExporter.remove_eoc_marker] *)
Definition LightScriptCellExporter_remove_eoc_marker (self : exporter)
    (text next_text : list string) : M (list string * exporter) :=
  if str_truthy (cell_marker_start self) then mret (text, self)
  else
    '(code_cell, self) ← is_code self;
    if code_cell : bool then
      final ← lift (last_line text);
      if String.eqb final (comment self +:+ " -") then
        if match next_text with
           | [] => true
           | first :: _ => Str.startswith first (comment self +:+ " + {")
           end
        then
          (* remove end of cell marker when redundant with next explicit marker *)
          let text := removelast text in
          to_end ← lift (as_count (lines_to_end_of_cell_marker self));
          match to_end with
          | Some n =>
              if (n =? 0)%Z then mret (text, self)
              else
                to_next ← lift (as_count (lines_to_next_cell self));
                match to_next with
                | None =>
                    mret (text, set_lines_to_next_cell self
                                  (lines_to_end_of_cell_marker self))
                | Some m =>
                    if (n >? m)%Z
                    then mret (text, set_lines_to_next_cell self
                                       (lines_to_end_of_cell_marker self))
                    else mret (text, self)
                end
          | None => mret (text, self)
          end
        else
          (* insert blank lines at the end of the cell *)
          to_end ← lift (as_count (lines_to_end_of_cell_marker self));
          let blank_lines :=
            match to_end with
            | Some n => n
            | None =>
                let pep8 :=
                  pep8_lines_between_cells (removelast text) next_text (ext self) in
                if (pep8 <? 2)%Z then 0%Z else 2%Z
            end in
          mret (removelast text ++ replicate (Z.to_nat blank_lines) "" ++ [final],
                self)
      else mret (text, self)
    else mret (text, self).

(** [LightScriptCellExporter.simplify_soc_marker] *)
Definition LightScriptCellExporter_simplify_soc_marker (self : exporter)
    (text prev_text : list string) : M (list string * exporter) :=
  if str_truthy (cell_marker_start self) then mret (text, self)
  else
    '(code_cell, self) ← is_code self;
    match text with
    | first :: rest =>
        if code_cell && String.eqb first (comment self +:+ " + {}") then
          if match prev_text with
             | [] => true
             | a :: prev => Str.all_space (List.last prev a)
             end
          then mret ((comment self +:+ " +") :: rest, self)
          else mret (text, self)
        else mret (text, self)
    | [] => mret (text, self)
    end.

(** [RScriptCellExporter.code_to_text] *)
Definition RScriptCellExporter_code_to_text (self : exporter)
    : M (list string * exporter) :=
  own ← get_dict (metadata self);
  let active := is_active (ext self) own in
  let src := escape_code_start (source self) (ext self) (language self) in
  let src :=
    if active then comment_magic src (language self) (comment_magics self) else src in
  let src := if negb active then commented "#" src else src in
  _ ←
    (if negb (is_active (Some "R") own)
     then set_item (metadata self) "eval" (JBool false)
     else mret tt);
  own ← get_dict (metadata self);
  let options := metadata_to_rmd_options None own in
  mret ((if String.eqb options "" then [] else ["#+ " +:+ options]) ++ src, self).

(** [DoublePercentCellExporter.cell_to_text] *)
Definition DoublePercentCellExporter_cell_to_text (self : exporter)
    : M (list string * exporter) :=
  _ ←
    (if negb (cell_type_eqb (cell_type self) code)
     then set_item (metadata self) "cell_type"
            (JStr (cell_type_name (cell_type self)))
     else mret tt);
  own ← get_dict (metadata self);
  let active := is_active (Some "py") own in
  let active :=
    if bool_decide (language self ≠ default_language self)
       && negb (dict_mem own "active")
    then false else active in
  _ ←
    (if cell_type_eqb (cell_type self) raw
        && match dict_get own "active" with
           | Some v => is_str v ""
           | None => false
           end
     then del_item (metadata self) "active"
     else mret tt);
  (* the encoder takes keys out of the dict that it is given *)
  own ← get_dict (metadata self);
  let '(options, encoded) := metadata_to_double_percent_options own in
  _ ← put_dict (metadata self) encoded;
  let lines :=
    if Str.startswith options "%" || String.eqb options ""
    then [comment self +:+ " %%" +:+ options]
    else [comment self +:+ " %% " +:+ options] in
  if cell_type_eqb (cell_type self) code && active then
    let src := comment_magic (source self) (language self) (comment_magics self) in
    mret (if bool_decide (src = [""]) then lines else lines ++ src, self)
  else
    unfiltered ← get_dict (unfiltered_metadata self);
    let cell_marker :=
      match dict_get unfiltered "cell_marker" with
      | Some v => v
      | None =>
          match cell_markers self with
          | Some m => JStr m
          | None => JNull
          end
      end in
    if negb (cell_type_eqb (cell_type self) code) && truthy cell_marker then
      marker ← lift (as_line cell_marker);
      mret (lines ++ [marker] ++ source self ++ [marker], self)
    else mret (lines ++ comment_lines (source self) (comment self), self).

(** [SphinxGalleryCellExporter.cell_to_text] *)
Definition SphinxGalleryCellExporter_cell_to_text (self : exporter)
    : M (list string * exporter) :=
  if cell_type_eqb (cell_type self) code then
    mret (comment_magic (source self) (language self) (comment_magics self), self)
  else
    own ← get_dict (metadata self);
    cell_marker ←
      (if dict_mem own "cell_marker" then pop_item (metadata self) "cell_marker"
       else mret (JStr default_cell_marker));
    if bool_decide (source self = [""]) then
      mret (if is_str cell_marker (dquote +:+ dquote) || is_str cell_marker "''"
            then [match cell_marker with JStr m => m | _ => "" end]
            else [dquote +:+ dquote],
            self)
    else if is_str cell_marker (dquote +:+ dquote +:+ dquote)
            || is_str cell_marker "'''" then
      let marker := match cell_marker with JStr m => m | _ => "" end in
      mret (marker :: source self ++ [marker], self)
    else
      match cell_marker with
      | JStr m =>
          mret ((if Str.startswith m (Str.repeat "#" 20) then m
                 else default_cell_marker)
                  :: comment_lines (source self) (comment self),
                self)
      | _ => raise AttributeError
      end.

(** [self.code_to_text()] *)
Definition code_to_text (self : exporter) : M (list string * exporter) :=
  match class_of self with
  | MarkdownCellExporter => MarkdownCellExporter_code_to_text self
  | RMarkdownCellExporter => RMarkdownCellExporter_code_to_text self
  | LightScriptCellExporter | BareScriptCellExporter =>
      LightScriptCellExporter_code_to_text self
  | RScriptCellExporter => RScriptCellExporter_code_to_text self
  | DoublePercentCellExporter | HydrogenCellExporter | SphinxGalleryCellExporter =>
      raise (NotImplementedError "This method must be implemented in a sub-class")
  end.

(** [BaseCellExporter.cell_to_text] *)
Definition BaseCellExporter_cell_to_text (self : exporter)
    : M (list string * exporter) :=
  '(code_cell, self) ← is_code self;
  if code_cell : bool then code_to_text self
  else
    let src :=
      if String.eqb (comment self) ""
      then escape_code_start (source self) (ext self) None
      else source self in
    mret (markdown_to_text self src, self).

(** [MarkdownCellExporter.cell_to_text] *)
Definition MarkdownCellExporter_cell_to_text (self : exporter)
    : M (list string * exporter) :=
  if cell_type_eqb (cell_type self) markdown then
    (* Is an explicit region required? *)
    own ← get_dict (metadata self);
    region ←
      (if dict_nonempty own then mret true
       else
         f ← get_fmt (fmt self);
         mret (read_pos (cell_reader (class_of self)) f (source self)
                 <? length (source self)));
    if region : bool then
      lines ← html_comment self (metadata self) "region";
      mret (lines, self)
    else mret (source self, self)
  else code_to_text self.

(** [self.cell_to_text()] *)
Definition cell_to_text (self : exporter) : M (list string * exporter) :=
  match class_of self with
  | MarkdownCellExporter | RMarkdownCellExporter =>
      MarkdownCellExporter_cell_to_text self
  | LightScriptCellExporter | BareScriptCellExporter | RScriptCellExporter =>
      BaseCellExporter_cell_to_text self
  | DoublePercentCellExporter | HydrogenCellExporter =>
      DoublePercentCellExporter_cell_to_text self
  | SphinxGalleryCellExporter => SphinxGalleryCellExporter_cell_to_text self
  end.

(** [self.remove_eoc_marker(text, next_text)] *)
Definition remove_eoc_marker (self : exporter) (text next_text : list string)
    : M (list string * exporter) :=
  match class_of self with
  | LightScriptCellExporter | BareScriptCellExporter =>
      LightScriptCellExporter_remove_eoc_marker self text next_text
  | _ => mret (text, self)
  end.

(** [self.simplify_soc_marker(text, prev_text)] *)
Definition simplify_soc_marker (self : exporter) (text prev_text : list string)
    : M (list string * exporter) :=
  match class_of self with
  | LightScriptCellExporter | BareScriptCellExporter =>
      LightScriptCellExporter_simplify_soc_marker self text prev_text
  | _ => mret (text, self)
  end.

(** The calls that the writer of a notebook makes on the exporter of one
    cell. *)
Definition cell_text (d : dialect) (cell : loc) (default_language : option string)
    (given_fmt : option loc) (next_text prev_text : list string)
    : M (list string * exporter) :=
  self ← init d cell default_language given_fmt;
  '(text, self) ← cell_to_text self;
  '(text, self) ← remove_eoc_marker self text next_text;
  '(text, self) ← simplify_soc_marker self text prev_text;
  mret (text, self).

End Exporters.

End Heap.

(** The caller's view of two stores: [s'] holds the cells of [s], and at
    every location where [s] holds a dict, [s'] holds the same dict. *)
Definition keeps (s s' : store) : Prop :=
  cells s' = cells s /\
  forall (l : loc) (d : dict), dicts s !! l = Some d -> dicts s' !! l = Some d.

(** The location [l] is none of the dicts of [s]. *)
Definition outside (s : store) (l : loc) : Prop := dicts s !! l = None.

(** A call that, started in a store that keeps the objects of [s0], ends in
    one that keeps them, and whose value satisfies [post] when it returns. *)
Definition safe (s0 : store) {A} (m : M A) (post : A -> Prop) : Prop :=
  forall s, keeps s0 s ->
    keeps s0 (snd (m s)) /\ forall a, fst (m s) = Ok a -> post a.

(** A call that leaves the format dicts and the warnings as they were. *)
Definition silent {A} (m : M A) : Prop :=
  forall s, fmts (snd (m s)) = fmts s /\ warnings (snd (m s)) = warnings s.

Section RegexFacts.
Import Re.

Lemma classify_char c a : classify c = TChar a -> a = c.
Proof.
  destruct c as [[] [] [] [] [] [] [] []]; cbn; intros H; congruence.
Qed.

Lemma plain_char_classify c : plain_char c = true -> classify c = TChar c.
Proof.
  unfold plain_char. destruct (classify c) eqn:E; try discriminate.
  intros _. f_equal. eauto using classify_char.
Qed.

Lemma app_String c (s t : string) : String c s +:+ t = String c (s +:+ t).
Proof. reflexivity. Qed.

Lemma app_Empty (t : string) : "" +:+ t = t.
Proof. reflexivity. Qed.

Lemma parse_plain p : forall rest f st,
  plain p = true ->
  parse (p +:+ rest) f st = parse rest (Frame (alts f) (rev (lits p) ++ cur f)) st.
Proof.
  induction p as [|c p IH]; intros rest f st Hp.
  - destruct f; reflexivity.
  - cbn in Hp. apply andb_prop in Hp as [Hc Hp].
    rewrite app_String. cbn [parse]. rewrite (plain_char_classify _ Hc).
    rewrite IH by assumption. cbn. rewrite <- app_assoc. reflexivity.
Qed.
End RegexFacts.

Section MarkerFacts.
Import Re.

Lemma plain_dashes n : plain (dashes n) = true.
Proof. induction n; [reflexivity|]. cbn. exact IHn. Qed.

Lemma endofcell_re_plain comment n :
  plain comment = true ->
  endofcell_re comment (dashes n) = Compiled (endofcell_regex comment (dashes n)).
Proof.
  intros Hc. unfold endofcell_re, compile.
  rewrite app_String, app_Empty. cbn [parse classify].
  change (classify "^") with TBol. cbv iota.
  rewrite parse_plain by assumption.
  rewrite !app_String, app_Empty. cbn [parse].
  change (classify "(") with TOpen. cbv iota. cbn [parse].
  change (classify " ") with (TChar " "). cbv iota. cbn [parse].
  change (classify ")") with TClose. cbv iota.
  rewrite parse_plain by apply plain_dashes.
  cbn. unfold endofcell_regex. cbn. f_equal. f_equal.
  rewrite !rev_app_distr. cbn. rewrite !rev_app_distr, !rev_involutive. cbn.
  rewrite <- ?app_assoc. cbn. rewrite <- ?app_assoc. reflexivity.
Qed.

Lemma strip_prefix_app a : forall b s,
  Str.strip_prefix (a +:+ b) s =
  match Str.strip_prefix a s with Some t => Str.strip_prefix b t | None => None end.
Proof.
  induction a as [|c a IH]; intros b s.
  - destruct s; reflexivity.
  - rewrite app_String. destruct s as [|d s]; cbn; [reflexivity|].
    destruct (Ascii.eqb c d); [apply IH | reflexivity].
Qed.

Lemma flat_map_single {A B} (f : A -> list B) x : flat_map f [x] = f x.
Proof. cbn. apply app_nil_r. Qed.

Lemma ends_lits n0 p : forall rs s,
  ends n0 (mk_seq (lits p ++ rs)) s =
  match Str.strip_prefix p s with
  | Some t => ends n0 (mk_seq rs) t
  | None => []
  end.
Proof.
  induction p as [|c p IH]; intros rs s.
  - destruct s; reflexivity.
  - cbn [lits app mk_seq ends Str.strip_prefix]. destruct s as [|d s]; [reflexivity|].
    destruct (Ascii.eqb c d); [|reflexivity].
    rewrite flat_map_single. apply IH.
Qed.

Lemma nonempty_app {A} (l k : list A) : nonempty (l ++ k) = nonempty l || nonempty k.
Proof. destruct l; reflexivity. Qed.

Lemma is_space_newline d : Ascii.eqb d "010" = true -> Str.is_space d = true.
Proof. intros H. apply Ascii.eqb_eq in H. subst. reflexivity. Qed.

Lemma ends_Eol n0 s : ends n0 (mk_seq [Eol]) s = ends n0 Eol s.
Proof.
  cbn. destruct s as [|d [|e s]]; cbn; try reflexivity.
  destruct (Ascii.eqb d "010"); reflexivity.
Qed.

Lemma star_space_eol n0 s : forall fuel,
  String.length s <= fuel ->
  nonempty (flat_map (ends n0 (mk_seq [Eol])) (star_ends (ends n0 Space) fuel s))
  = Str.all_space s.
Proof.
  induction s as [|d s IH]; intros fuel Hf.
  - destruct fuel; reflexivity.
  - destruct fuel as [|fuel]; [cbn in Hf; lia|].
    cbn [star_ends flat_map]. rewrite nonempty_app.
    cbn [ends Str.all_space].
    destruct (Str.is_space d) eqn:Hd.
    + cbn [List.filter String.length].
      replace (String.length s <? S (String.length s)) with true
        by (symmetry; apply Nat.ltb_lt; lia).
      rewrite flat_map_single, IH by (cbn in Hf; lia).
      rewrite ends_Eol. cbn.
      destruct s as [|e s]; [|reflexivity].
      cbn. apply orb_true_r.
    + cbn [List.filter flat_map]. rewrite ends_Eol. cbn.
      destruct s as [|e s]; [|reflexivity].
      destruct (Ascii.eqb d "010") eqn:E; [|reflexivity].
      apply is_space_newline in E. congruence.
Qed.

Lemma matches_endofcell_regex comment token line :
  matches (endofcell_regex comment token) line = is_endofcell_line comment token line.
Proof.
  unfold matches, endofcell_regex, is_endofcell_line.
  cbn [mk_seq ends]. rewrite Nat.eqb_refl, flat_map_single.
  rewrite ends_lits, strip_prefix_app.
  destruct (Str.strip_prefix comment line) as [t|]; [|reflexivity].
  rewrite app_String, app_Empty.
  cbn [mk_seq ends Str.strip_prefix]. destruct t as [|d t]; [reflexivity|].
  destruct (Ascii.eqb " " d) eqn:E; [|reflexivity].
  cbn [flat_map ends app]. rewrite !app_nil_r.
  rewrite ends_lits.
  destruct (Str.strip_prefix token t) as [u|]; [|reflexivity].
  change (ends (String.length line) (mk_seq [Star Space; Eol]) u)
    with (flat_map (ends (String.length line) (mk_seq [Eol]))
            (star_ends (ends (String.length line) Space) (String.length u) u)).
  apply (star_space_eol (String.length line) u (String.length u)). lia.
Qed.
End MarkerFacts.

Section LoopFacts.
Import Re.

Lemma length_app (a b : string) :
  String.length (a +:+ b) = String.length a + String.length b.
Proof. induction a as [|c a IH]; [reflexivity|]. rewrite app_String. cbn. lia. Qed.

Lemma strip_prefix_length p : forall s t,
  Str.strip_prefix p s = Some t -> String.length s = String.length p + String.length t.
Proof.
  induction p as [|c p IH]; intros s t H.
  - destruct s; cbn in H; inversion H; reflexivity.
  - destruct s as [|d s]; cbn in H; [discriminate|].
    destruct (Ascii.eqb c d); [|discriminate].
    apply IH in H. cbn. lia.
Qed.

Lemma is_endofcell_line_length comment token line :
  is_endofcell_line comment token line = true ->
  String.length comment + 1 + String.length token <= String.length line.
Proof.
  unfold is_endofcell_line.
  destruct (Str.strip_prefix _ line) as [t|] eqn:E; [|discriminate].
  intros _. apply strip_prefix_length in E. rewrite !length_app in E. cbn in E. lia.
Qed.

Lemma dashes_snoc n : dashes n +:+ "-" = dashes (S n).
Proof.
  induction n as [|n IH]; [reflexivity|].
  change (dashes (S n)) with (String "-" (dashes n)).
  rewrite app_String, IH. reflexivity.
Qed.

Lemma length_dashes n : String.length (dashes n) = n.
Proof. induction n as [|n IH]; [reflexivity|]. cbn. f_equal. exact IH. Qed.

Lemma longest_ge source line :
  In line source -> String.length line <= longest source.
Proof.
  induction source as [|l source IH]; [intros []|].
  change (longest (l :: source)) with (Nat.max (String.length l) (longest source)).
  intros [->|H]; [lia|]. apply IH in H. lia.
Qed.

Lemma no_endofcell_line_beyond comment token source :
  longest source < String.length token ->
  existsb (is_endofcell_line comment token) source = false.
Proof.
  intros Hlen. apply not_true_is_false. intros H.
  apply existsb_exists in H as (line & Hin & Hm).
  apply is_endofcell_line_length in Hm. apply longest_ge in Hin. lia.
Qed.

Lemma existsb_matches_plain comment n source :
  plain comment = true ->
  endofcell_re comment (dashes n) = Compiled (endofcell_regex comment (dashes n)) /\
  existsb (matches (endofcell_regex comment (dashes n))) source =
  existsb (is_endofcell_line comment (dashes n)) source.
Proof.
  intros Hc. split; [apply endofcell_re_plain, Hc|].
  induction source as [|l source IH]; [reflexivity|].
  cbn [existsb]. rewrite matches_endofcell_regex, IH. reflexivity.
Qed.

Lemma endofcell_marker_loop_plain source comment :
  plain comment = true ->
  forall fuel n, longest source <= n + fuel ->
    exists m, n <= m /\
      endofcell_marker_loop (S fuel) source comment (dashes (S n)) = Returned (dashes (S m)) /\
      existsb (is_endofcell_line comment (dashes (S m))) source = false /\
      forall k, n <= k < m ->
        existsb (is_endofcell_line comment (dashes (S k))) source = true.
Proof.
  intros Hc. induction fuel as [|fuel IH]; intros n Hn.
  - exists n. destruct (existsb_matches_plain comment (S n) source Hc) as [Hre Hex].
    assert (Hno : existsb (is_endofcell_line comment (dashes (S n))) source = false).
    { apply no_endofcell_line_beyond. rewrite length_dashes. lia. }
    split; [lia|]. split; [|split; [exact Hno | intros k Hk; lia]].
    cbn [endofcell_marker_loop]. rewrite Hre, Hex, Hno. reflexivity.
  - destruct (existsb_matches_plain comment (S n) source Hc) as [Hre Hex].
    destruct (existsb (is_endofcell_line comment (dashes (S n))) source) eqn:Hn'.
    + destruct (IH (S n)) as (m & Hm & Hret & Hno & Hall); [lia|].
      exists m. split; [lia|]. split; [|split; [exact Hno|]].
      * cbn [endofcell_marker_loop]. rewrite Hre, Hex, dashes_snoc. exact Hret.
      * intros k Hk. destruct (Nat.eq_dec k n) as [->|Hne]; [assumption|].
        apply Hall. lia.
    + exists n. split; [lia|]. split; [|split; [exact Hn' | intros k Hk; lia]].
      cbn [endofcell_marker_loop]. rewrite Hre, Hex. reflexivity.
Qed.

Lemma endofcell_marker_loop_mono source comment : forall fuel fuel' tok res,
  endofcell_marker_loop fuel source comment tok = Returned res ->
  fuel <= fuel' ->
  endofcell_marker_loop fuel' source comment tok = Returned res.
Proof.
  induction fuel as [|fuel IH]; intros fuel' tok res H Hle; [discriminate|].
  destruct fuel' as [|fuel']; [lia|].
  cbn [endofcell_marker_loop] in *.
  destruct (endofcell_re comment tok); [|discriminate..].
  destruct (existsb _ source); [|assumption].
  eapply IH; [eassumption | lia].
Qed.
End LoopFacts.

Section MarkerTheorems.
Import Re.

Lemma strip_prefix_self p : Str.strip_prefix p p = Some EmptyString.
Proof.
  induction p as [|c p IH]; [reflexivity|].
  cbn. rewrite Ascii.eqb_refl. exact IH.
Qed.

Lemma is_endofcell_line_exact comment token :
  is_endofcell_line comment token (comment +:+ " " +:+ token) = true.
Proof. unfold is_endofcell_line. rewrite strip_prefix_self. reflexivity. Qed.

Lemma endofcell_re_bar n :
  endofcell_re "|" (dashes n) =
  Compiled (Alt (Seq Bol Eps)
          (mk_seq (Group (Seq (Chr " ") Eps) :: lits (dashes n) ++ [Star Space; Eol]))).
Proof.
  unfold endofcell_re, compile.
  repeat (rewrite app_String || rewrite app_Empty). cbn.
  rewrite (parse_plain (dashes n)) by apply plain_dashes.
  cbn. f_equal. f_equal.
  rewrite !rev_app_distr. cbn. rewrite !rev_involutive. cbn.
  rewrite <- ?app_assoc. reflexivity.
Qed.

Lemma endofcell_marker_loop_bar : forall fuel n,
  endofcell_marker_loop fuel ["x"] "|" (dashes (S n)) = OutOfFuel.
Proof.
  induction fuel as [|fuel IH]; intros n; [reflexivity|].
  cbn [endofcell_marker_loop]. rewrite endofcell_re_bar.
  cbn [existsb]. unfold matches at 1. cbn [ends app].
  cbn [String.length Nat.eqb flat_map app orb].
  rewrite dashes_snoc. apply IH.
Qed.

Lemma existsb_false_Forall {A} (p : A -> bool) l :
  existsb p l = false -> Forall (fun x => p x = false) l.
Proof.
  induction l as [|x l IH]; cbn; [constructor|].
  intros H. apply orb_false_elim in H as [Hx Hl]. constructor; auto.
Qed.

Lemma existsb_true_Exists {A} (p : A -> bool) l :
  existsb p l = true -> Exists (fun x => p x = true) l.
Proof.
  intros H. apply existsb_exists in H as (x & Hin & Hx).
  apply Exists_exists. exists x. split; [|exact Hx].
  apply list_elem_of_In. exact Hin.
Qed.

(** The token that [endofcell_marker] returns for a comment string without
    operators: the first of [-], [--], [---], ... that no source line matches
    as an end-marker line. *)
Lemma endofcell_marker_first_free_token (source : list string) (comment : string) :
  plain comment = true ->
  exists n,
    endofcell_marker (S (longest source)) source comment = Returned (dashes (S n)) /\
    Forall (fun line => is_endofcell_line comment (dashes (S n)) line = false) source /\
    (forall k, k < n ->
       Exists (fun line => is_endofcell_line comment (dashes (S k)) line = true) source) /\
    (In (comment +:+ " -") source -> 1 <= n).
Proof.
  intros Hc.
  destruct (endofcell_marker_loop_plain source comment Hc (longest source) 0)
    as (m & _ & Hret & Hno & Hall); [lia|].
  exists m. split; [exact Hret|]. split; [|split].
  - apply existsb_false_Forall. exact Hno.
  - intros k Hk. apply existsb_true_Exists, Hall. lia.
  - intros Hin. destruct m as [|m]; [|lia]. exfalso.
    assert (existsb (is_endofcell_line comment (dashes 1)) source = true) as Hex.
    { apply existsb_exists. exists (comment +:+ " -"). split; [exact Hin|].
      apply (is_endofcell_line_exact comment "-"). }
    congruence.
Qed.

(** X22.  For every list of source lines and every comment string in which no
    character is a regular-expression operator, the loop of
    [endofcell_marker] returns a token within one turn more than the length
    of the longest source line, and returns the same token with any larger
    fuel; a token longer than the longest line matches no line. *)
Theorem endofcell_marker_terminates (source : list string) (comment : string) :
  plain comment = true ->
  (exists fuel token,
     fuel <= S (longest source) /\
     forall fuel', fuel <= fuel' ->
       endofcell_marker fuel' source comment = Returned token) /\
  (forall n re,
     longest source < n ->
     endofcell_re comment (dashes n) = Compiled re ->
     existsb (matches re) source = false).
Proof.
  intros Hc. split.
  - destruct (endofcell_marker_loop_plain source comment Hc (longest source) 0)
      as (m & _ & Hret & _); [lia|].
    exists (S (longest source)), (dashes (S m)). split; [lia|].
    intros fuel' Hle. unfold endofcell_marker.
    eapply endofcell_marker_loop_mono; eassumption.
  - intros n re Hn Hre.
    destruct (existsb_matches_plain comment n source Hc) as [Hre' Hex].
    rewrite Hre' in Hre. inversion Hre; subst re. rewrite Hex.
    apply no_endofcell_line_beyond. rewrite length_dashes. exact Hn.
Qed.

Lemma endofcell_marker_terminates_witness :
  (exists fuel token,
     fuel <= S (longest ["# -"; "# --"; "# ---"]) /\
     forall fuel', fuel <= fuel' ->
       endofcell_marker fuel' ["# -"; "# --"; "# ---"] "#" = Returned token) /\
  (forall n re,
     longest ["# -"; "# --"; "# ---"] < n ->
     endofcell_re "#" (dashes n) = Compiled re ->
     existsb (matches re) ["# -"; "# --"; "# ---"] = false).
Proof.
  apply (endofcell_marker_terminates ["# -"; "# --"; "# ---"] "#").
  reflexivity.
Defined.

(** C3 fails at the call [endofcell_marker(['x'], '|')]: the comment string
    is spliced into the pattern without escaping, so that [|] makes it an
    alternation whose first branch, [^], matches every line; on a source of
    one line the loop never returns, whatever the fuel, although the marker
    line that would be written, [| -], is no line of the source. *)
Lemma endofcell_marker_loops_forever :
  plain "|" = false /\
  (forall fuel, endofcell_marker fuel ["x"] "|" = OutOfFuel) /\
  (forall token, is_endofcell_line "|" token "x" = false) /\
  ~ (forall (source : list string) (comment : string),
       exists fuel token, endofcell_marker fuel source comment = Returned token).
Proof.
  assert (forall fuel, endofcell_marker fuel ["x"] "|" = OutOfFuel) as Hloop.
  { intros fuel. apply (endofcell_marker_loop_bar fuel 0). }
  split; [reflexivity|]. split; [exact Hloop|]. split; [reflexivity|].
  intros Hall. destruct (Hall ["x"] "|") as (fuel & token & Hret).
  rewrite Hloop in Hret. discriminate.
Qed.

End MarkerTheorems.

(** * Running the monad *)

Section Running.
Context `{Collaborators}.

Lemma bind_run {A B} (m : M A) (k : A -> M B) (s : store) :
  (m ≫= k) s =
  match m s with
  | (Ok a, s') => k a s'
  | (Err e, s') => (Err e, s')
  end.
Proof. reflexivity. Qed.

Lemma get_cell_run (s : store) l c :
  cells s !! l = Some c -> get_cell l s = (Ok c, s).
Proof. intros E. unfold get_cell. rewrite E. reflexivity. Qed.

Lemma get_dict_run (s : store) l d :
  dicts s !! l = Some d -> get_dict l s = (Ok d, s).
Proof. intros E. unfold get_dict. rewrite E. reflexivity. Qed.

Lemma get_fmt_run (s : store) l f :
  fmts s !! l = Some f -> get_fmt (Some l) s = (Ok f, s).
Proof. intros E. unfold get_fmt. rewrite E. reflexivity. Qed.

Lemma nonempty_empty f : Fmt.nonempty f = false -> f = Fmt.empty.
Proof.
  destruct f as [[] [] [] [] [] []]; cbn; intros E; try discriminate. reflexivity.
Qed.

(** The format dict that the constructor reads is the one it is given. *)
Lemma self_fmt_run (s : store) l f :
  fmts s !! l = Some f ->
  get_fmt (if Fmt.nonempty f then Some l else None) s = (Ok f, s).
Proof.
  intros E. destruct (Fmt.nonempty f) eqn:N.
  - apply get_fmt_run, E.
  - apply nonempty_empty in N. subst f. reflexivity.
Qed.

Lemma ret_run {A} (a : A) (s : store) : (mret a : M A) s = (Ok a, s).
Proof. reflexivity. Qed.

Lemma lift_run {A} (r : result A) (s : store) : lift r s = (r, s).
Proof. reflexivity. Qed.

Lemma raise_run {A} (e : exn) (s : store) : raise (A:=A) e s = (Err e, s).
Proof. reflexivity. Qed.

End Running.

Ltac run_store :=
  repeat first
    [ rewrite bind_run
    | rewrite ret_run
    | rewrite lift_run
    | rewrite raise_run
    | erewrite get_cell_run by eassumption
    | erewrite get_dict_run by eassumption
    | erewrite self_fmt_run by eassumption
    | erewrite get_fmt_run by eassumption
    | progress cbv beta iota ].

Ltac fields :=
  cbn [class_of fmt ext cell_type source unfiltered_metadata metadata language
       default_language comment comment_magics lines_to_next_cell
       lines_to_end_of_cell_marker cell_marker_start cell_marker_end cell_markers
       set_ext set_source set_metadata set_comment set_lines_to_next_cell
       set_cell_marker_start_end set_cell_markers] in *.

Section Constructors.
Context `{Collaborators}.

Lemma BaseCellExporter_init_run (d : dialect) (cell : loc)
    (default_language : option string) (l : loc) (s : store)
    (c : Cell.t) (md : dict) (f : Fmt.t) :
  cells s !! cell = Some c ->
  dicts s !! Cell.metadata c = Some md ->
  fmts s !! l = Some f ->
  BaseCellExporter_init d cell default_language (Some l) s =
  (base_exporter d (if Fmt.nonempty f then Some l else None) c md f default_language, s).
Proof.
  intros Hc Hmd Hf.
  unfold BaseCellExporter_init, cell_source, base_exporter, detected.
  run_store.
  destruct (if parse_cell_language d then _ else _) as [[language magic_args] src].
  unfold base_metadata.
  destruct (str_truthy language); [|run_store; reflexivity].
  destruct (str_truthy magic_args);
    destruct (ext_endswith (Fmt.extension f) ".Rmd") as [[]|e];
    run_store; reflexivity.
Qed.

End Constructors.

Section ConstructorFacts.
Context `{Collaborators}.

Lemma base_metadata_ok (e : string) (filtered : dict) (language magic_args : option string) :
  exists metadata, base_metadata (Some e) filtered language magic_args = Ok metadata.
Proof.
  unfold base_metadata, ext_endswith.
  destruct (str_truthy language), (str_truthy magic_args); eauto.
Qed.

(** With an extension in the format dict, the base constructor returns. *)
Lemma base_exporter_ok (d : dialect) (sf : option loc) (c : Cell.t) (md : dict)
    (f : Fmt.t) (dl : option string) (e : string) :
  Fmt.extension f = Some e ->
  exists self,
    base_exporter d sf c md f dl = Ok self /\
    class_of self = d /\ fmt self = sf /\ ext self = Some e /\
    cell_type self = Cell.cell_type c /\
    unfiltered_metadata self = Cell.metadata c /\
    cell_marker_start self = None /\ cell_marker_end self = None.
Proof.
  intros He. unfold base_exporter. rewrite He.
  destruct (detected d c) as [[language magic_args] src].
  destruct (base_metadata_ok e
              (filter_metadata md (Fmt.cell_metadata_filter f) _IGNORE_CELL_METADATA)
              language magic_args) as [metadata ->].
  eexists. split; [reflexivity|]. cbn. repeat split; reflexivity.
Qed.

(** C6.  For every format dict that holds an extension and in which [rst2md]
    is set, constructing the Sphinx Gallery exporter raises [ValueError] with
    the message that names the ['rst2md'] option; the error comes from the
    constructor, so that exporting a cell produces no line, and the store is
    as it was. *)
Theorem sphinx_rst2md_is_refused (cell : loc) (default_language : option string)
    (l : loc) (s : store) (c : Cell.t) (md : dict) (f : Fmt.t) (e : string) :
  cells s !! cell = Some c ->
  dicts s !! Cell.metadata c = Some md ->
  fmts s !! l = Some f ->
  Fmt.extension f = Some e ->
  Fmt.rst2md f = Some true ->
  init SphinxGalleryCellExporter cell default_language (Some l) s
    = (Err (ValueError rst2md_read_only), s) /\
  export SphinxGalleryCellExporter cell default_language (Some l) s
    = (Err (ValueError rst2md_read_only), s) /\
  String.index 0 "'rst2md'" rst2md_read_only = Some 4.
Proof.
  intros Hc Hmd Hf He Hrst.
  assert (init SphinxGalleryCellExporter cell default_language (Some l) s
          = (Err (ValueError rst2md_read_only), s)) as Hinit.
  { unfold init, SphinxGalleryCellExporter_init, SphinxGalleryCellExporter_setup.
    rewrite bind_run, (BaseCellExporter_init_run _ _ _ _ _ c md f) by assumption.
    destruct (base_exporter_ok SphinxGalleryCellExporter
                (if Fmt.nonempty f then Some l else None) c md f default_language e He)
      as (self & -> & _ & Hfmt & _ & _ & Hun & _).
    cbv beta iota. fields. rewrite Hun. run_store.
    destruct (dict_get md "cell_marker"); fields; rewrite Hfmt; run_store;
      rewrite Hrst; reflexivity. }
  split; [exact Hinit|]. split; [|reflexivity].
  unfold export. rewrite bind_run, Hinit. reflexivity.
Qed.

End ConstructorFacts.

Lemma sphinx_rst2md_is_refused_witness :
  init (H:=Ref.collaborators) SphinxGalleryCellExporter 1%positive (Some "python")
      (Some 3%positive) (one_cell code "1 + 1" [] rst2md_fmt)
    = (Err (ValueError rst2md_read_only), one_cell code "1 + 1" [] rst2md_fmt) /\
  export (H:=Ref.collaborators) SphinxGalleryCellExporter 1%positive (Some "python")
      (Some 3%positive) (one_cell code "1 + 1" [] rst2md_fmt)
    = (Err (ValueError rst2md_read_only), one_cell code "1 + 1" [] rst2md_fmt) /\
  String.index 0 "'rst2md'" rst2md_read_only = Some 4.
Proof.
  apply (sphinx_rst2md_is_refused (H:=Ref.collaborators) 1%positive (Some "python")
           3%positive (one_cell code "1 + 1" [] rst2md_fmt)
           (Cell.Make code "1 + 1" 2%positive) [] rst2md_fmt ".py");
    reflexivity.
Defined.

Section DictFacts.

Lemma dict_get_set_eq (d : dict) (k : string) (v : json) :
  dict_get (dict_set d k v) k = Some v.
Proof.
  induction d as [|[k' w] d IH]; cbn.
  - rewrite String.eqb_refl. reflexivity.
  - destruct (String.eqb k' k) eqn:E; cbn; rewrite E; [reflexivity | exact IH].
Qed.

Lemma dict_get_set_ne (d : dict) (k k' : string) (v : json) :
  k <> k' -> dict_get (dict_set d k v) k' = dict_get d k'.
Proof.
  intros Hne. induction d as [|[k0 w] d IH]; cbn.
  - destruct (String.eqb k k') eqn:E; [|reflexivity].
    apply String.eqb_eq in E. contradiction.
  - destruct (String.eqb k0 k) eqn:E; cbn.
    + apply String.eqb_eq in E. subst k0.
      destruct (String.eqb k k') eqn:E'; [|reflexivity].
      apply String.eqb_eq in E'. contradiction.
    + rewrite IH. reflexivity.
Qed.

Lemma dict_set_nonempty (d : dict) (k : string) (v : json) :
  dict_nonempty (dict_set d k v) = true.
Proof. destruct d as [|[k' w] d]; cbn; [reflexivity|]. destruct (String.eqb k' k); reflexivity. Qed.

End DictFacts.

Section ConstructorInversion.
Context `{Collaborators}.

(** The base constructor, as a function of the store. *)
Lemma BaseCellExporter_init_eq (d : dialect) (cell : loc) (dl : option string)
    (given_fmt : option loc) (s : store) :
  BaseCellExporter_init d cell dl given_fmt s =
  match get_fmt given_fmt s with
  | (Ok f, _) =>
      match cells s !! cell with
      | Some c =>
          match dicts s !! Cell.metadata c with
          | Some md =>
              (base_exporter d (if Fmt.nonempty f then given_fmt else None) c md f dl, s)
          | None => (Err Unmodelled, s)
          end
      | None => (Err Unmodelled, s)
      end
  | (Err e, _) => (Err e, s)
  end.
Proof.
  unfold BaseCellExporter_init. rewrite bind_run.
  destruct (get_fmt given_fmt s) as [[f|e] s1] eqn:Hgf.
  - assert (s1 = s) as ->.
    { unfold get_fmt in Hgf. destruct given_fmt as [l|]; [|congruence].
      destruct (fmts s !! l); congruence. }
    assert (get_fmt (if Fmt.nonempty f then given_fmt else None) s = (Ok f, s)) as Hf.
    { destruct (Fmt.nonempty f) eqn:N; [exact Hgf|].
      apply nonempty_empty in N. subst f. reflexivity. }
    rewrite bind_run, Hf. cbv beta iota. rewrite bind_run.
    unfold get_cell at 1. destruct (cells s !! cell) as [c|] eqn:Hc; [|reflexivity].
    cbv beta iota. unfold cell_source. rewrite !bind_run. unfold get_cell.
    rewrite Hc. run_store.
    unfold get_dict at 1. destruct (dicts s !! Cell.metadata c) as [md|] eqn:Hmd;
      [|reflexivity].
    cbv beta iota. unfold base_exporter, detected.
    destruct (if parse_cell_language d then _ else _) as [[language magic_args] src].
    unfold base_metadata.
    destruct (str_truthy language); [|run_store; reflexivity].
    destruct (str_truthy magic_args);
      destruct (ext_endswith (Fmt.extension f) ".Rmd") as [[]|e];
      run_store; reflexivity.
  - assert (s1 = s) as ->; [|reflexivity].
    unfold get_fmt in Hgf. destruct given_fmt as [l|]; [|congruence].
    destruct (fmts s !! l); congruence.
Qed.

Lemma get_fmt_store (given_fmt : option loc) (s s1 : store) (r : result Fmt.t) :
  get_fmt given_fmt s = (r, s1) -> s1 = s.
Proof.
  unfold get_fmt. destruct given_fmt as [l|]; [|congruence].
  destruct (fmts s !! l); congruence.
Qed.

Lemma get_fmt_self (given_fmt : option loc) (s : store) (f : Fmt.t) :
  get_fmt given_fmt s = (Ok f, s) ->
  get_fmt (if Fmt.nonempty f then given_fmt else None) s = (Ok f, s).
Proof.
  intros Hgf. destruct (Fmt.nonempty f) eqn:N; [exact Hgf|].
  apply nonempty_empty in N. subst f. reflexivity.
Qed.

(** The fields of the exporter that the base constructor builds. *)
Lemma base_exporter_fields (d : dialect) (sf : option loc) (c : Cell.t) (md : dict)
    (f : Fmt.t) (dl : option string) (self : exporter) :
  base_exporter d sf c md f dl = Ok self ->
  class_of self = d /\ fmt self = sf /\ ext self = Fmt.extension f /\
  cell_type self = Cell.cell_type c /\
  unfiltered_metadata self = Cell.metadata c /\
  default_language self = dl /\
  lines_to_next_cell self = dict_get md "lines_to_next_cell" /\
  lines_to_end_of_cell_marker self = dict_get md "lines_to_end_of_cell_marker" /\
  cell_marker_start self = None /\ cell_marker_end self = None /\
  cell_markers self = None.
Proof.
  unfold base_exporter. destruct (detected d c) as [[language magic_args] src].
  destruct (base_metadata _ _ _ _); [|discriminate].
  intros E. inversion E; subst. cbn. repeat split; reflexivity.
Qed.

Lemma extends_refl self : extends self self.
Proof. unfold extends. repeat split; auto. Qed.

Lemma extends_set_metadata self0 self k v :
  extends self0 self -> (k = "endofcell" \/ k = "cell_marker") ->
  extends self0 (set_metadata self (dict_set (metadata self) k v)).
Proof.
  unfold extends. intros (?&?&?&?&?&?&?&?&?&?&Hget&Hne) Hk. fields.
  repeat split; try assumption.
  - intros k' Hk1 Hk2. rewrite dict_get_set_ne; [apply Hget; assumption|].
    destruct Hk; subst; congruence.
  - intros _. apply dict_set_nonempty.
Qed.

Lemma init_eq (d : dialect) (cell : loc) (dl : option string)
    (given_fmt : option loc) (s : store) :
  init d cell dl given_fmt s =
  match BaseCellExporter_init d cell dl given_fmt s with
  | (Ok self0, s1) => setup d self0 s1
  | (Err e, s1) => (Err e, s1)
  end.
Proof.
  destruct d; cbn [init setup];
    unfold RMarkdownCellExporter_init, MarkdownCellExporter_init,
      LightScriptCellExporter_init, RScriptCellExporter_init,
      DoublePercentCellExporter_init, SphinxGalleryCellExporter_init;
    rewrite ?bind_run;
    destruct (BaseCellExporter_init _ cell dl given_fmt s) as [[self0|e] s1];
    reflexivity.
Qed.

Lemma set_fmt_run (l : loc) (f : Fmt.t) (s : store) :
  set_fmt l f s = (Ok tt, Store (cells s) (dicts s) (<[l := f]> (fmts s)) (warnings s)).
Proof. reflexivity. Qed.

Lemma warn_run (msg : string) (s : store) :
  warn msg s = (Ok tt, Store (cells s) (dicts s) (fmts s) (warnings s ++ [msg])).
Proof. reflexivity. Qed.

Lemma get_dict_inv (l : loc) (s s1 : store) (d : dict) :
  get_dict l s = (Ok d, s1) -> s1 = s /\ dicts s !! l = Some d.
Proof.
  unfold get_dict. destruct (dicts s !! l); intros E; inversion E; auto.
Qed.

Lemma extends_endofcell self0 self (unfiltered : dict) :
  extends self0 self ->
  extends self0
    match dict_get unfiltered "endofcell" with
    | Some v => set_metadata self (dict_set (metadata self) "endofcell" v)
    | None => self
    end.
Proof.
  intros E. destruct (dict_get unfiltered "endofcell"); [|exact E].
  apply extends_set_metadata; auto.
Qed.

Lemma extends_markers self0 a b :
  extends self0 (set_cell_marker_start_end self0 a b).
Proof. unfold extends; fields. repeat split; auto. Qed.

Lemma LightScriptCellExporter_setup_inv (self0 self : exporter) (s s' : store) :
  LightScriptCellExporter_setup self0 s = (Ok self, s') ->
  extends self0 self /\ cells s' = cells s /\ dicts s' = dicts s.
Proof.
  unfold LightScriptCellExporter_setup. run_store.
  destruct (get_fmt (fmt self0) s) as [[f|e] s1] eqn:Hf; [|discriminate].
  apply get_fmt_store in Hf as ->. run_store.
  assert (forall (self1 : exporter) (s1 : store),
            extends self0 self1 -> cells s1 = cells s -> dicts s1 = dicts s ->
            (let (r, s2) := get_dict (unfiltered_metadata self1) s1 in
             match r with
             | Ok unfiltered =>
                 (Ok match dict_get unfiltered "endofcell" with
                     | Some v =>
                         set_metadata self1 (dict_set (metadata self1) "endofcell" v)
                     | None => self1
                     end, s2)
             | Err e => (Err e, s2)
             end) = (Ok self, s') ->
            extends self0 self /\ cells s' = cells s /\ dicts s' = dicts s) as Hend.
  { intros self1 s1 Hext Hcells Hdicts.
    destruct (get_dict (unfiltered_metadata self1) s1) as [[unfiltered|e] s2] eqn:Hd;
      [|discriminate].
    apply get_dict_inv in Hd as [-> _].
    intros E; inversion E; subst. split; [|auto].
    apply extends_endofcell, Hext. }
  destruct (Fmt.cell_markers f) as [markers|]; run_store.
  - destruct (negb (Str.contains "," markers)); run_store.
    + destruct (fmt self0) as [l|]; run_store;
        rewrite ?set_fmt_run, ?warn_run; run_store;
        apply Hend; auto using extends_refl.
    + destruct (negb (String.eqb markers "+,-")); run_store.
      * destruct (split_comma markers) as [a b]. run_store.
        apply Hend; auto using extends_markers.
      * apply Hend; auto using extends_refl.
  - apply Hend; auto using extends_refl.
Qed.

(** The statements of a subclass constructor keep the fields of the base
    exporter, add only the keys [endofcell] and [cell_marker] to its
    metadata, and write neither cells nor dicts. *)
Lemma setup_extends (d : dialect) (self0 self : exporter) (s s' : store) :
  setup d self0 s = (Ok self, s') ->
  extends self0 self /\ cells s' = cells s /\ dicts s' = dicts s.
Proof.
  destruct d; cbn [setup]; try apply LightScriptCellExporter_setup_inv;
    unfold MarkdownCellExporter_setup, RMarkdownCellExporter_setup,
      RScriptCellExporter_setup,
      DoublePercentCellExporter_setup, SphinxGalleryCellExporter_setup;
    run_store.
  - intros E; inversion E; subst. split; [|auto]. unfold extends; fields.
    repeat split; auto.
  - intros E; inversion E; subst. split; [|auto]. unfold extends; fields.
    repeat split; auto.
  - intros E; inversion E; subst. split; [|auto]. unfold extends; fields.
    repeat split; auto.
  - destruct (get_fmt (fmt self0) s) as [[f|e] s1] eqn:Hf; [|discriminate].
    apply get_fmt_store in Hf as ->. run_store.
    intros E; inversion E; subst. split; [|auto]. unfold extends; fields.
    repeat split; auto.
  - destruct (get_fmt (fmt self0) s) as [[f|e] s1] eqn:Hf; [|discriminate].
    apply get_fmt_store in Hf as ->. run_store.
    intros E; inversion E; subst. split; [|auto]. unfold extends; fields.
    repeat split; auto.
  - fields.
    destruct (get_dict (unfiltered_metadata self0) s) as [[unfiltered|e] s1] eqn:Hd;
      [|discriminate].
    apply get_dict_inv in Hd as [-> _]. run_store.
    assert (extends self0
              match dict_get unfiltered "cell_marker" with
              | Some v =>
                  set_metadata (set_comment self0 "#")
                    (dict_set (metadata (set_comment self0 "#")) "cell_marker" v)
              | None => set_comment self0 "#"
              end) as Hext.
    { destruct (dict_get unfiltered "cell_marker").
      - apply extends_set_metadata; [|auto].
        unfold extends; fields. repeat split; auto.
      - unfold extends; fields. repeat split; auto. }
    match goal with
    | |- context [get_fmt ?x s] =>
        destruct (get_fmt x s) as [[f|e] s1] eqn:Hf; [|discriminate]
    end.
    apply get_fmt_store in Hf as ->. run_store.
    destruct (default false (Fmt.rst2md f)); [discriminate|].
    intros E; inversion E; subst. auto.
Qed.

(** A constructor that returns has run the base constructor on the cell, its
    metadata and the format dict; it writes neither cells nor dicts. *)
Lemma init_inv (d : dialect) (cell : loc) (dl : option string)
    (given_fmt : option loc) (s s' : store) (self : exporter) :
  init d cell dl given_fmt s = (Ok self, s') ->
  exists c md f self0,
    cells s !! cell = Some c /\ dicts s !! Cell.metadata c = Some md /\
    get_fmt given_fmt s = (Ok f, s) /\
    base_exporter d (if Fmt.nonempty f then given_fmt else None) c md f dl = Ok self0 /\
    setup d self0 s = (Ok self, s') /\
    extends self0 self /\
    cells s' = cells s /\ dicts s' = dicts s.
Proof.
  rewrite init_eq, BaseCellExporter_init_eq.
  destruct (get_fmt given_fmt s) as [[f|e] s1] eqn:Hgf; [|discriminate].
  apply get_fmt_store in Hgf as Hs. subst s1.
  destruct (cells s !! cell) as [c|] eqn:Hc; [|discriminate].
  destruct (dicts s !! Cell.metadata c) as [md|] eqn:Hmd; [|discriminate].
  destruct (base_exporter _ _ c md f dl) as [self0|e] eqn:Hb; [|discriminate].
  intros Hsetup. exists c, md, f, self0.
  destruct (setup_extends _ _ _ _ _ Hsetup) as (Hext & Hcells & Hdicts).
  split; [reflexivity|]. split; [exact Hmd|]. split; [reflexivity|].
  split; [exact Hb|]. split; [exact Hsetup|]. auto.
Qed.

End ConstructorInversion.

Section Language.
Context `{Collaborators}.

Lemma dict_get_raw_active (t : cell_kind) (metadata : dict) (k : string) :
  k <> "active" ->
  dict_get (if cell_type_eqb t raw && negb (dict_mem metadata "active")
            then dict_set metadata "active" (JStr "")
            else metadata) k
  = dict_get metadata k.
Proof.
  intros Hk. destruct (_ && _); [|reflexivity].
  apply dict_get_set_ne. congruence.
Qed.

(** C5, amended.  For every exporter that a constructor returns: when
    language detection is on for the class (every class but Hydrogen) and
    [cell_language] finds a language in the source, the language of the
    exporter is that language, and it is written in the metadata under
    [language] unless the extension ends with [.Rmd], also when it is the
    default language; otherwise the language of the exporter is the default
    language and the key [language] is as the metadata filter left it. *)
Theorem effective_language (d : dialect) (cell : loc) (dl : option string)
    (given_fmt : option loc) (s s' : store) (self : exporter) :
  init d cell dl given_fmt s = (Ok self, s') ->
  exists c md f,
    cells s !! cell = Some c /\ dicts s !! Cell.metadata c = Some md /\
    get_fmt given_fmt s = (Ok f, s) /\
    let filtered :=
      filter_metadata md (Fmt.cell_metadata_filter f) _IGNORE_CELL_METADATA in
    let found := fst (fst (detected d c)) in
    if str_truthy found then
      language self = found /\
      exists e, Fmt.extension f = Some e /\
        dict_get (metadata self) "language" =
        if Str.endswith e ".Rmd" then dict_get filtered "language"
        else Some (JStr (default "" found))
    else
      language self = dl /\
      dict_get (metadata self) "language" = dict_get filtered "language".
Proof.
  intros Hinit.
  destruct (init_inv _ _ _ _ _ _ _ Hinit)
    as (c & md & f & self0 & Hc & Hmd & Hf & Hb & _ & Hext & _).
  exists c, md, f. do 3 (split; [assumption|]).
  destruct Hext as (_ & _ & _ & _ & _ & Hlang & _ & _ & _ & _ & Hget & _).
  rewrite Hlang, (Hget "language") by discriminate.
  unfold base_exporter in Hb.
  destruct (detected d c) as [[found magic_args] src]. cbn [fst].
  unfold base_metadata in Hb.
  destruct (str_truthy found) eqn:Hfound.
  - destruct (Fmt.extension f) as [e|] eqn:He; cbn [ext_endswith] in Hb.
    + destruct (str_truthy magic_args);
        inversion Hb; subst self0; cbn [language metadata];
        (split; [reflexivity|]); exists e; (split; [reflexivity|]);
        rewrite dict_get_raw_active by discriminate;
        destruct (Str.endswith e ".Rmd");
        rewrite ?dict_get_set_eq, ?dict_get_set_ne by discriminate; reflexivity.
    + destruct (str_truthy magic_args); discriminate.
  - inversion Hb; subst self0; cbn [language metadata].
    split; [reflexivity|]. apply dict_get_raw_active. discriminate.
Qed.

End Language.

Lemma effective_language_witness :
  init (H:=Ref.collaborators) LightScriptCellExporter 1%positive (Some "python")
    (Some 3%positive) (one_cell code ("%%R" +:+ newline +:+ "ls()") [] (fmt_of ".py"))
  = (Ok (exporter_of LightScriptCellExporter ".py" "#" code ["ls()"]
           [("language", JStr "R")] "R" None None),
     one_cell code ("%%R" +:+ newline +:+ "ls()") [] (fmt_of ".py")) /\
  exists c md f,
    cells (one_cell code ("%%R" +:+ newline +:+ "ls()") [] (fmt_of ".py")) !! 1%positive
      = Some c /\
    dicts (one_cell code ("%%R" +:+ newline +:+ "ls()") [] (fmt_of ".py"))
      !! Cell.metadata c = Some md /\
    get_fmt (Some 3%positive)
      (one_cell code ("%%R" +:+ newline +:+ "ls()") [] (fmt_of ".py"))
      = (Ok f, one_cell code ("%%R" +:+ newline +:+ "ls()") [] (fmt_of ".py")) /\
    let filtered :=
      Ref.filter_metadata md (Fmt.cell_metadata_filter f) Ref._IGNORE_CELL_METADATA in
    let found := fst (fst (detected (H:=Ref.collaborators) LightScriptCellExporter c)) in
    if str_truthy found then
      language (exporter_of LightScriptCellExporter ".py" "#" code ["ls()"]
                  [("language", JStr "R")] "R" None None) = found /\
      exists e, Fmt.extension f = Some e /\
        dict_get (metadata (exporter_of LightScriptCellExporter ".py" "#" code ["ls()"]
                              [("language", JStr "R")] "R" None None)) "language" =
        if Str.endswith e ".Rmd" then dict_get filtered "language"
        else Some (JStr (default "" found))
    else
      language (exporter_of LightScriptCellExporter ".py" "#" code ["ls()"]
                  [("language", JStr "R")] "R" None None) = Some "python" /\
      dict_get (metadata (exporter_of LightScriptCellExporter ".py" "#" code ["ls()"]
                            [("language", JStr "R")] "R" None None)) "language"
      = dict_get filtered "language".
Proof.
  split; [reflexivity|].
  apply (effective_language (H:=Ref.collaborators) LightScriptCellExporter 1%positive
           (Some "python") (Some 3%positive)
           (one_cell code ("%%R" +:+ newline +:+ "ls()") [] (fmt_of ".py"))
           (one_cell code ("%%R" +:+ newline +:+ "ls()") [] (fmt_of ".py"))
           (exporter_of LightScriptCellExporter ".py" "#" code ["ls()"]
              [("language", JStr "R")] "R" None None)).
  reflexivity.
Defined.

(** C5 as stated fails: a language that is detected is written in the
    metadata also when it is the default language.  In a Python notebook the
    cell [%%python] / [2 + 2] gets the metadata [language = python]. *)
Lemma language_written_when_default :
  exists self s',
    init (H:=Ref.collaborators) LightScriptCellExporter 1%positive (Some "python")
      (Some 3%positive)
      (one_cell code ("%%python" +:+ newline +:+ "2 + 2") [] (fmt_of ".py"))
      = (Ok self, s') /\
    language self = Some "python" /\
    default_language self = Some "python" /\
    dict_get (metadata self) "language" = Some (JStr "python").
Proof.
  eexists _, _. split; [vm_compute; reflexivity|]. repeat split.
Qed.

Section Eval.
Context `{Collaborators}.

(** C8.  For every cell that is not active for the target format ([Rmd] for
    the R Markdown exporter, [R] for the R script exporter), [code_to_text]
    sets [metadata['eval']] to [False], whatever the metadata held under
    [eval], and encodes the chunk options from the metadata so changed. *)
Theorem inactive_cells_are_not_evaluated (self : exporter) (s : store) :
  let forced := dict_set (metadata self) "eval" (JBool false) in
  dict_get forced "eval" = Some (JBool false) /\
  (is_active (Some "Rmd") (metadata self) = false ->
   exists body,
     RMarkdownCellExporter_code_to_text self s =
       (Ok (("```{" +:+ metadata_to_rmd_options (language self) forced +:+ "}")
              :: body ++ ["```"],
            set_metadata self forced), s)) /\
  (is_active (Some "R") (metadata self) = false ->
   exists body,
     RScriptCellExporter_code_to_text self s =
       (Ok ((if String.eqb (metadata_to_rmd_options None forced) "" then []
             else ["#+ " +:+ metadata_to_rmd_options None forced]) ++ body,
            set_metadata self forced), s)).
Proof.
  cbv zeta. split; [apply dict_get_set_eq|]. split; intros Hinactive.
  - unfold RMarkdownCellExporter_code_to_text. rewrite Hinactive. cbn [negb].
    fields. eexists. reflexivity.
  - unfold RScriptCellExporter_code_to_text. rewrite Hinactive. cbn [negb].
    fields. eexists. reflexivity.
Qed.

End Eval.

Lemma inactive_cells_are_not_evaluated_witness :
  Ref.is_active (Some "Rmd") [("active", JStr "ipynb"); ("eval", JBool true)] = false /\
  exists body,
    RMarkdownCellExporter_code_to_text (H:=Ref.collaborators)
      (exporter_of RMarkdownCellExporter ".Rmd" "" code ["1 + 1"]
         [("active", JStr "ipynb"); ("eval", JBool true)] "python" None None)
      (one_cell code "1 + 1" [("active", JStr "ipynb"); ("eval", JBool true)]
         (fmt_of ".Rmd"))
    = (Ok (("```{" +:+ Ref.metadata_to_rmd_options (Some "python")
                         [("active", JStr "ipynb"); ("eval", JBool false)] +:+ "}")
             :: body ++ ["```"],
           exporter_of RMarkdownCellExporter ".Rmd" "" code ["1 + 1"]
             [("active", JStr "ipynb"); ("eval", JBool false)] "python" None None),
       one_cell code "1 + 1" [("active", JStr "ipynb"); ("eval", JBool true)]
         (fmt_of ".Rmd")).
Proof.
  split; [reflexivity|].
  apply (proj1 (proj2 (inactive_cells_are_not_evaluated (H:=Ref.collaborators)
                         (exporter_of RMarkdownCellExporter ".Rmd" "" code ["1 + 1"]
                            [("active", JStr "ipynb"); ("eval", JBool true)]
                            "python" None None)
                         (one_cell code "1 + 1"
                            [("active", JStr "ipynb"); ("eval", JBool true)]
                            (fmt_of ".Rmd"))))).
  reflexivity.
Defined.

Section EndOfCell.
Context `{Collaborators}.

Lemma last_line_snoc (body : list string) (line : string) :
  last_line (body ++ [line]) = Ok line.
Proof.
  destruct body as [|a body]; [reflexivity|].
  cbn [app last_line]. f_equal. apply last_last.
Qed.

Lemma removelast_snoc (body : list string) (line : string) :
  removelast (body ++ [line]) = body.
Proof. apply removelast_last. Qed.

Lemma set_lines_to_next_cell_same (self : exporter) :
  set_lines_to_next_cell self (lines_to_next_cell self) = self.
Proof. destruct self; reflexivity. Qed.

Lemma is_code_code (self : exporter) :
  cell_type self = code -> is_code self = (true, self).
Proof.
  intros Hc. unfold is_code, BaseCellExporter_is_code. rewrite Hc.
  destruct (class_of self); reflexivity.
Qed.

(** C4.  For a code cell of a light script without a custom start marker,
    whose text ends with the end-of-cell marker line (the comment string and
    [ -]), when the next text is empty or opens with an explicit start marker
    and both blank-line counts are recorded, [remove_eoc_marker] returns the
    text without its last line and sets [lines_to_next_cell] to the maximum
    of [lines_to_end_of_cell_marker] and [lines_to_next_cell]. *)
Theorem remove_eoc_marker_keeps_the_larger_count (self : exporter)
    (body next_text : list string) (to_end to_next : Z) (s : store) :
  light (class_of self) = true ->
  cell_type self = code ->
  str_truthy (cell_marker_start self) = false ->
  opens_with_marker self next_text = true ->
  lines_to_end_of_cell_marker self = Some (JNum to_end) ->
  lines_to_next_cell self = Some (JNum to_next) ->
  (0 <= to_end)%Z ->
  (0 <= to_next)%Z ->
  remove_eoc_marker self (body ++ [comment self +:+ " -"]) next_text s =
    (Ok (body, set_lines_to_next_cell self (Some (JNum (Z.max to_end to_next)))), s).
Proof.
  intros Hlight Hcode Hstart Hnext Hend Hto_next Hpos_end Hpos_next.
  assert (remove_eoc_marker self = LightScriptCellExporter_remove_eoc_marker self) as ->
    by (unfold remove_eoc_marker; destruct (class_of self); try discriminate; reflexivity).
  unfold LightScriptCellExporter_remove_eoc_marker.
  rewrite Hstart, (is_code_code self Hcode). cbv beta iota.
  rewrite bind_run, lift_run, last_line_snoc. cbv beta iota.
  rewrite String.eqb_refl. unfold opens_with_marker in Hnext. rewrite Hnext.
  rewrite removelast_snoc, Hend. run_store. cbn [as_count]. run_store.
  destruct (Z.eqb_spec to_end 0) as [->|Hne].
  - run_store. rewrite Z.max_r by lia. rewrite <- Hto_next.
    rewrite set_lines_to_next_cell_same. reflexivity.
  - rewrite Hto_next. cbn [as_count]. run_store.
    destruct (Z.gtb_spec to_end to_next) as [Hgt|Hle]; run_store.
    + rewrite Z.max_l by lia. reflexivity.
    + rewrite Z.max_r by lia. rewrite <- Hto_next.
      rewrite set_lines_to_next_cell_same. reflexivity.
Qed.

(** When only one of the two counts is recorded: a positive count at the end
    of the cell becomes the count to the next cell; a count of zero does
    not. *)
Lemma remove_eoc_marker_unrecorded_count (self : exporter)
    (body next_text : list string) (to_end : Z) (s : store) :
  light (class_of self) = true ->
  cell_type self = code ->
  str_truthy (cell_marker_start self) = false ->
  opens_with_marker self next_text = true ->
  lines_to_end_of_cell_marker self = Some (JNum to_end) ->
  lines_to_next_cell self = None ->
  remove_eoc_marker self (body ++ [comment self +:+ " -"]) next_text s =
    (Ok (body, if (to_end =? 0)%Z then self
               else set_lines_to_next_cell self (Some (JNum to_end))), s).
Proof.
  intros Hlight Hcode Hstart Hnext Hend Hto_next.
  assert (remove_eoc_marker self = LightScriptCellExporter_remove_eoc_marker self) as ->
    by (unfold remove_eoc_marker; destruct (class_of self); try discriminate; reflexivity).
  unfold LightScriptCellExporter_remove_eoc_marker.
  rewrite Hstart, (is_code_code self Hcode). cbv beta iota.
  rewrite bind_run, lift_run, last_line_snoc. cbv beta iota.
  rewrite String.eqb_refl. unfold opens_with_marker in Hnext. rewrite Hnext.
  rewrite removelast_snoc, Hend. run_store. cbn [as_count]. run_store.
  destruct (to_end =? 0)%Z; run_store; [reflexivity|].
  rewrite Hto_next. cbn [as_count]. run_store. reflexivity.
Qed.

End EndOfCell.

Lemma remove_eoc_marker_keeps_the_larger_count_witness :
  remove_eoc_marker (H:=Ref.collaborators)
    (exporter_of LightScriptCellExporter ".py" "#" code ["1 + 1"; ""; "2 + 2"] []
       "python" (Some (JNum 1)) (Some (JNum 2)))
    (["# + {}"; "1 + 1"; ""; "2 + 2"] ++ ["# -"]) ["# + {}"; "3 + 3"]
    (one_cell code "1 + 1" [] (fmt_of ".py"))
  = (Ok (["# + {}"; "1 + 1"; ""; "2 + 2"],
         exporter_of LightScriptCellExporter ".py" "#" code ["1 + 1"; ""; "2 + 2"] []
           "python" (Some (JNum 2)) (Some (JNum 2))),
     one_cell code "1 + 1" [] (fmt_of ".py")).
Proof.
  apply (remove_eoc_marker_keeps_the_larger_count (H:=Ref.collaborators)
           (exporter_of LightScriptCellExporter ".py" "#" code ["1 + 1"; ""; "2 + 2"] []
              "python" (Some (JNum 1)) (Some (JNum 2)))
           ["# + {}"; "1 + 1"; ""; "2 + 2"] ["# + {}"; "3 + 3"] 2%Z 1%Z
           (one_cell code "1 + 1" [] (fmt_of ".py")));
    first [reflexivity | lia].
Defined.

Section MarkdownAsCode.
Context `{Collaborators}.

Lemma base_exporter_metadata_nonempty (d : dialect) (sf : option loc) (c : Cell.t)
    (md : dict) (f : Fmt.t) (dl : option string) (self0 : exporter) :
  base_exporter d sf c md f dl = Ok self0 ->
  dict_nonempty
    (filter_metadata md (Fmt.cell_metadata_filter f) _IGNORE_CELL_METADATA) = true ->
  dict_nonempty (metadata self0) = true.
Proof.
  unfold base_exporter. destruct (detected d c) as [[found magic_args] src].
  intros Hb Hne.
  assert (forall m,
            base_metadata (Fmt.extension f)
              (filter_metadata md (Fmt.cell_metadata_filter f) _IGNORE_CELL_METADATA)
              found magic_args = Ok m ->
            dict_nonempty m = true) as Hmeta.
  { unfold base_metadata. intros m.
    destruct (str_truthy found); [|intros E; inversion E; subst; exact Hne].
    destruct (str_truthy magic_args);
      destruct (ext_endswith (Fmt.extension f) ".Rmd") as [[]|e];
      intros E; inversion E; subst; auto using dict_set_nonempty. }
  destruct (base_metadata _ _ _ _) as [m|e]; [|discriminate].
  inversion Hb; subst self0. cbn [metadata].
  destruct (_ && _); [apply dict_set_nonempty | apply Hmeta; reflexivity].
Qed.

(** C10.  For every markdown cell whose filtered metadata is not empty, the
    exporter that a light-script constructor returns treats the cell as a
    code cell: [is_code] answers [True], stores [cell_type = markdown] in the
    metadata, and replaces the source by [comment_lines] of it, every line
    of which starts with the comment string when [comment_lines] prefixes
    lines; [cell_to_text] then renders the cell with [code_to_text] from
    that source. *)
Theorem markdown_with_metadata_is_code (d : dialect) (cell : loc) (dl : option string)
    (given_fmt : option loc) (s s' : store) (self : exporter)
    (c : Cell.t) (md : dict) (f : Fmt.t) :
  light d = true ->
  init d cell dl given_fmt s = (Ok self, s') ->
  cells s !! cell = Some c ->
  dicts s !! Cell.metadata c = Some md ->
  get_fmt given_fmt s = (Ok f, s) ->
  Cell.cell_type c = markdown ->
  dict_nonempty
    (filter_metadata md (Fmt.cell_metadata_filter f) _IGNORE_CELL_METADATA) = true ->
  (forall lines prefix,
     Forall (fun line => Str.startswith line prefix = true) (comment_lines lines prefix)) ->
  exists self',
    is_code self = (true, self') /\
    dict_get (metadata self') "cell_type" = Some (JStr "markdown") /\
    source self' = comment_lines (source self) (comment self) /\
    Forall (fun line => Str.startswith line (comment self) = true) (source self') /\
    cell_to_text self s' = LightScriptCellExporter_code_to_text self' s'.
Proof.
  intros Hd Hinit Hc Hmd Hf Hmarkdown Hne Hprefix.
  destruct (init_inv _ _ _ _ _ _ _ Hinit)
    as (c' & md' & f' & self0 & Hc' & Hmd' & Hf' & Hb & _ & Hext & _).
  rewrite Hc in Hc'. inversion Hc'; subst c'.
  rewrite Hmd in Hmd'. inversion Hmd'; subst md'.
  rewrite Hf in Hf'. inversion Hf'; subst f'.
  destruct (base_exporter_fields _ _ _ _ _ _ _ Hb) as (Hclass0 & _ & _ & Htype0 & _).
  destruct Hext as (Hclass & _ & Htype & _ & _ & _ & _ & _ & _ & _ & _ & Hnonempty).
  assert (dict_nonempty (metadata self) = true) as Hmeta
    by eauto using base_exporter_metadata_nonempty.
  assert (cell_type self = markdown) as Hkind by congruence.
  assert (light (class_of self) = true) as Hlight by congruence.
  assert (is_code self =
          (true,
           set_source
             (set_metadata self (dict_set (metadata self) "cell_type" (JStr "markdown")))
             (comment_lines (source self) (comment self)))) as Hcode.
  { unfold is_code. rewrite Hkind, Hmeta.
    destruct (class_of self); try discriminate; reflexivity. }
  eexists. split; [exact Hcode|]. fields.
  split; [apply dict_get_set_eq|]. split; [reflexivity|]. split; [apply Hprefix|].
  unfold cell_to_text, BaseCellExporter_cell_to_text, code_to_text.
  destruct (class_of self) eqn:Hk; try discriminate; rewrite Hcode; fields;
    rewrite Hk; reflexivity.
Qed.

End MarkdownAsCode.

(** The reference [comment_lines] prefixes lines. *)
Lemma startswith_app (p x : string) : Str.startswith (p +:+ x) p = true.
Proof.
  induction p as [|c p IH]; [destruct x; reflexivity|].
  rewrite app_String. cbn. rewrite Ascii.eqb_refl. exact IH.
Qed.

Lemma startswith_self (p : string) : Str.startswith p p = true.
Proof.
  induction p as [|c p IH]; [reflexivity|]. cbn. rewrite Ascii.eqb_refl. exact IH.
Qed.

Lemma comment_lines_prefixed (lines : list string) (prefix : string) :
  Forall (fun line => Str.startswith line prefix = true)
    (Ref.comment_lines lines prefix).
Proof.
  unfold Ref.comment_lines. destruct (String.eqb_spec prefix "") as [->|_].
  - apply Forall_forall. intros line _. destruct line; reflexivity.
  - unfold commented. apply Forall_map, Forall_forall. intros line _. cbn beta.
    destruct (String.eqb line ""); [apply startswith_self | apply startswith_app].
Qed.

Lemma markdown_with_metadata_is_code_witness :
  exists self',
    is_code (H:=Ref.collaborators)
      (exporter_of LightScriptCellExporter ".py" "#" markdown ["A title"; ""; "Some text"]
         [("tags", JArr [JStr "intro"])] "python" None None) = (true, self') /\
    dict_get (metadata self') "cell_type" = Some (JStr "markdown") /\
    source self' = ["# A title"; "#"; "# Some text"].
Proof.
  destruct (markdown_with_metadata_is_code (H:=Ref.collaborators)
              LightScriptCellExporter 1%positive (Some "python") (Some 3%positive)
              (one_cell markdown ("A title" +:+ newline +:+ newline +:+ "Some text")
                 [("tags", JArr [JStr "intro"])] (fmt_of ".py"))
              (one_cell markdown ("A title" +:+ newline +:+ newline +:+ "Some text")
                 [("tags", JArr [JStr "intro"])] (fmt_of ".py"))
              (exporter_of LightScriptCellExporter ".py" "#" markdown
                 ["A title"; ""; "Some text"] [("tags", JArr [JStr "intro"])]
                 "python" None None)
              (Cell.Make markdown ("A title" +:+ newline +:+ newline +:+ "Some text")
                 2%positive)
              [("tags", JArr [JStr "intro"])] (fmt_of ".py")
              eq_refl eq_refl eq_refl eq_refl eq_refl eq_refl eq_refl
              comment_lines_prefixed)
    as (self' & Hcode & Hkind & Hsource & _).
  exists self'. split; [exact Hcode|]. split; [exact Hkind|]. exact Hsource.
Defined.

(** * The cell of the caller *)

Section Frame.

Variable s0 : store.

Lemma keeps_refl (s : store) : keeps s s.
Proof. split; [reflexivity | auto]. Qed.

Lemma safe_ret {A} (a : A) (post : A -> Prop) :
  post a -> safe s0 (mret a : M A) post.
Proof. intros Ha s Hs. split; [exact Hs|]. intros a' E. inversion E; subst. exact Ha. Qed.

Lemma safe_raise {A} (e : exn) (post : A -> Prop) : safe s0 (raise (A:=A) e) post.
Proof. intros s Hs. split; [exact Hs|]. intros a E. discriminate. Qed.

Lemma safe_lift {A} (r : result A) : safe s0 (lift r) (fun _ => True).
Proof. intros s Hs. split; [exact Hs | auto]. Qed.

Lemma safe_weaken {A} (m : M A) (post post' : A -> Prop) :
  safe s0 m post -> (forall a, post a -> post' a) -> safe s0 m post'.
Proof.
  intros Hm Hpost s Hs. destruct (Hm s Hs) as [Hk Hp]. split; [exact Hk | auto].
Qed.

Lemma safe_bind {A B} (m : M A) (k : A -> M B) (post : A -> Prop) (post' : B -> Prop) :
  safe s0 m post -> (forall a, post a -> safe s0 (k a) post') ->
  safe s0 (m ≫= k) post'.
Proof.
  intros Hm Hk s Hs. rewrite bind_run.
  destruct (Hm s Hs) as [Hkeeps Hpost].
  destruct (m s) as [[a|e] s1]; cbn [fst snd] in *.
  - apply Hk; auto.
  - split; [exact Hkeeps|]. intros b E. discriminate.
Qed.

Lemma safe_then {A B} (m : M A) (k : A -> M B) (post' : B -> Prop) :
  safe s0 m (fun _ => True) -> (forall a, safe s0 (k a) post') ->
  safe s0 (m ≫= k) post'.
Proof. intros Hm Hk. eapply safe_bind; [exact Hm | auto]. Qed.

Lemma safe_get_cell (l : loc) : safe s0 (get_cell l) (fun _ => True).
Proof.
  intros s Hs. unfold get_cell. destruct (cells s !! l); split; auto.
Qed.

Lemma safe_get_dict (l : loc) : safe s0 (get_dict l) (fun _ => True).
Proof.
  intros s Hs. unfold get_dict. destruct (dicts s !! l); split; auto.
Qed.

Lemma safe_get_fmt (l : option loc) : safe s0 (get_fmt l) (fun _ => True).
Proof.
  intros s Hs. unfold get_fmt. destruct l as [l|]; [|split; auto].
  destruct (fmts s !! l); split; auto.
Qed.

Lemma safe_set_fmt (l : loc) (f : Fmt.t) : safe s0 (set_fmt l f) (fun _ => True).
Proof. intros s Hs. split; [exact Hs | auto]. Qed.

Lemma safe_warn (msg : string) : safe s0 (warn msg) (fun _ => True).
Proof. intros s Hs. split; [exact Hs | auto]. Qed.

(** A new dict is none of the dicts of the caller. *)
Lemma safe_new_dict (d : dict) : safe s0 (Heap.new_dict d) (outside s0).
Proof.
  intros s [Hcells Hdicts]. unfold Heap.new_dict. cbn [fst snd].
  assert (outside s0 (fresh (dom (dicts s)))) as Hfresh.
  { unfold outside. destruct (dicts s0 !! fresh (dom (dicts s))) as [d'|] eqn:E;
      [|reflexivity].
    exfalso. apply (is_fresh (dom (dicts s))).
    apply elem_of_dom. exists d'. apply Hdicts, E. }
  split.
  - split; [exact Hcells|]. cbn [dicts]. intros l d' E.
    rewrite lookup_insert_ne; [apply Hdicts, E|].
    intros Heq. subst l. unfold outside in Hfresh. congruence.
  - intros l E. inversion E; subst l. exact Hfresh.
Qed.

(** Writing a dict that is none of the caller's keeps the caller's. *)
Lemma safe_put_dict (l : loc) (d : dict) :
  outside s0 l -> safe s0 (Heap.put_dict l d) (fun _ => True).
Proof.
  intros Hl s [Hcells Hdicts]. unfold Heap.put_dict. cbn [fst snd].
  split; [|auto]. split; [exact Hcells|]. cbn [dicts]. intros l' d' E.
  rewrite lookup_insert_ne; [apply Hdicts, E|].
  intros ->. unfold outside in Hl. congruence.
Qed.

Lemma safe_set_item (l : loc) (key : string) (v : json) :
  outside s0 l -> safe s0 (Heap.set_item l key v) (fun _ => True).
Proof.
  intros Hl. unfold Heap.set_item.
  apply safe_then; [apply safe_get_dict|]. intros d. apply safe_put_dict, Hl.
Qed.

Lemma safe_del_item (l : loc) (key : string) :
  outside s0 l -> safe s0 (Heap.del_item l key) (fun _ => True).
Proof.
  intros Hl. unfold Heap.del_item.
  apply safe_then; [apply safe_get_dict|]. intros d.
  destruct (dict_mem d key); [apply safe_put_dict, Hl | apply safe_raise].
Qed.

Lemma safe_pop_item (l : loc) (key : string) :
  outside s0 l -> safe s0 (Heap.pop_item l key) (fun _ => True).
Proof.
  intros Hl. unfold Heap.pop_item.
  apply safe_then; [apply safe_get_dict|]. intros d.
  destruct (dict_get d key); [|apply safe_raise].
  apply safe_then; [apply safe_put_dict, Hl|]. intros _. apply safe_ret. exact I.
Qed.

End Frame.

(** The calls of a method, one after the other: what is read is kept, what is
    written is a dict that is none of the caller's. *)
Ltac framed :=
  repeat first
    [ assumption
    | exact I
    | apply safe_raise
    | apply safe_lift
    | apply safe_get_cell
    | apply safe_get_dict
    | apply safe_get_fmt
    | apply safe_set_fmt
    | apply safe_warn
    | apply safe_put_dict
    | apply safe_set_item
    | apply safe_del_item
    | apply safe_pop_item
    | apply safe_ret
    | eapply safe_bind; [apply safe_new_dict | intros ? ?]
    | apply safe_then; [|intros ?]
    | progress cbv zeta
    | progress cbn [Heap.metadata Heap.set_source Heap.set_comment Heap.set_ext
                    Heap.set_lines_to_next_cell Heap.set_cell_marker_start_end
                    Heap.set_cell_markers snd fst]
    | match goal with
      | |- safe _ (match ?x with _ => _ end) _ => destruct x
      | |- safe _ (if ?b then _ else _) _ => destruct b
      | |- safe _ (let (_, _) := ?x in _) _ => destruct x
      end ].

Section FrameOfMethods.
Context `{Collaborators}.

Variable s0 : store.

(** The exporter that a method returns keeps its dict away from the
    caller's. *)
Definition own_dict {A} (r : A * Heap.exporter) : Prop :=
  outside s0 (Heap.metadata r.2).

Lemma safe_cell_source (cell : loc) : safe s0 (cell_source cell) (fun _ => True).
Proof. unfold cell_source. framed. Qed.

(** The base constructor copies the metadata of the cell: the dict of the
    exporter is a new one. *)
Lemma safe_BaseCellExporter_init d cell dl gf :
  safe s0 (Heap.BaseCellExporter_init d cell dl gf)
    (fun self => outside s0 (Heap.metadata self)).
Proof.
  unfold Heap.BaseCellExporter_init.
  apply safe_then; [framed|]. intros given. cbv zeta.
  apply safe_then; [framed|]. intros f.
  apply safe_then; [framed|]. intros c.
  apply safe_then; [apply safe_cell_source|]. intros src.
  apply safe_then; [framed|]. intros cell_metadata.
  eapply safe_bind; [apply safe_new_dict|]. intros l Hl.
  framed.
Qed.

Lemma safe_setup d self :
  outside s0 (Heap.metadata self) ->
  safe s0 (Heap.setup d self) (fun self' => outside s0 (Heap.metadata self')).
Proof.
  intros Hl.
  destruct d; cbn [Heap.setup];
    unfold Heap.MarkdownCellExporter_setup, Heap.RMarkdownCellExporter_setup,
      Heap.LightScriptCellExporter_setup, Heap.RScriptCellExporter_setup,
      Heap.DoublePercentCellExporter_setup, Heap.SphinxGalleryCellExporter_setup.
  all: try (framed; fail).
  all: try (eapply safe_bind; [apply safe_ret; exact Hl | intros a Ha; framed]; fail).
  all: apply safe_then; [framed|]; intros f.
  all: eapply (safe_bind _ _ _ (fun self' => outside s0 (Heap.metadata self')));
    [framed | intros self' Hself'; framed].
Qed.

Lemma safe_init d cell dl gf :
  safe s0 (Heap.init d cell dl gf) (fun self => outside s0 (Heap.metadata self)).
Proof.
  unfold Heap.init.
  eapply safe_bind; [apply safe_BaseCellExporter_init|]. intros self Hself.
  apply safe_setup, Hself.
Qed.

Lemma safe_BaseCellExporter_is_code self :
  safe s0 (Heap.BaseCellExporter_is_code self) (fun _ => True).
Proof. unfold Heap.BaseCellExporter_is_code. framed. Qed.

Lemma safe_is_code self :
  outside s0 (Heap.metadata self) -> safe s0 (Heap.is_code self) own_dict.
Proof.
  intros Hl. unfold Heap.is_code, own_dict.
  destruct (Heap.class_of self); framed;
    try (apply safe_BaseCellExporter_is_code); framed.
Qed.

Lemma safe_html_comment self (l : loc) code :
  outside s0 l -> safe s0 (Heap.html_comment self l code) (fun _ => True).
Proof. intros Hl. unfold Heap.html_comment. framed. Qed.

Lemma safe_explicit_start_marker self src :
  safe s0 (Heap.explicit_start_marker self src) (fun _ => True).
Proof. unfold Heap.explicit_start_marker. framed. Qed.

Lemma safe_code_to_text self :
  outside s0 (Heap.metadata self) -> safe s0 (Heap.code_to_text self) own_dict.
Proof.
  intros Hl.
  unfold Heap.code_to_text, Heap.MarkdownCellExporter_code_to_text,
    Heap.RMarkdownCellExporter_code_to_text, Heap.LightScriptCellExporter_code_to_text,
    Heap.RScriptCellExporter_code_to_text, own_dict.
  destruct (Heap.class_of self); framed;
    try (apply safe_html_comment); try (apply safe_explicit_start_marker); framed.
Qed.

Lemma safe_cell_to_text self :
  outside s0 (Heap.metadata self) -> safe s0 (Heap.cell_to_text self) own_dict.
Proof.
  intros Hl.
  unfold Heap.cell_to_text, Heap.MarkdownCellExporter_cell_to_text,
    Heap.BaseCellExporter_cell_to_text, Heap.DoublePercentCellExporter_cell_to_text,
    Heap.SphinxGalleryCellExporter_cell_to_text.
  destruct (Heap.class_of self).
  1-2: destruct (cell_type_eqb (Heap.cell_type self) markdown);
    [|apply safe_code_to_text, Hl];
    unfold own_dict; framed; try (apply safe_html_comment); framed.
  1-3: eapply safe_bind; [apply safe_is_code, Hl|]; intros [code_cell self'] Hself';
    unfold own_dict in Hself'; cbn [snd] in Hself';
    destruct code_cell; [apply safe_code_to_text, Hself' | unfold own_dict; framed].
  all: unfold own_dict; framed.
Qed.

Lemma safe_remove_eoc_marker self text next_text :
  outside s0 (Heap.metadata self) ->
  safe s0 (Heap.remove_eoc_marker self text next_text) own_dict.
Proof.
  intros Hl.
  unfold Heap.remove_eoc_marker, Heap.LightScriptCellExporter_remove_eoc_marker.
  destruct (Heap.class_of self); try (unfold own_dict; framed; fail).
  all: destruct (str_truthy (Heap.cell_marker_start self));
    [unfold own_dict; framed|].
  all: eapply safe_bind; [apply safe_is_code, Hl|]; intros [code_cell self'] Hself';
    unfold own_dict in *; cbn [snd] in Hself'; framed.
Qed.

Lemma safe_simplify_soc_marker self text prev_text :
  outside s0 (Heap.metadata self) ->
  safe s0 (Heap.simplify_soc_marker self text prev_text) own_dict.
Proof.
  intros Hl.
  unfold Heap.simplify_soc_marker, Heap.LightScriptCellExporter_simplify_soc_marker.
  destruct (Heap.class_of self); try (unfold own_dict; framed; fail).
  all: destruct (str_truthy (Heap.cell_marker_start self));
    [unfold own_dict; framed|].
  all: eapply safe_bind; [apply safe_is_code, Hl|]; intros [code_cell self'] Hself';
    unfold own_dict in *; cbn [snd] in Hself'; framed.
Qed.

(** The calls for one cell keep the objects of the caller, and the exporter
    that they return has a dict of its own. *)
Lemma safe_cell_text d cell dl gf next_text prev_text :
  safe s0 (Heap.cell_text d cell dl gf next_text prev_text) own_dict.
Proof.
  unfold Heap.cell_text.
  eapply safe_bind; [apply safe_init|]. intros self Hself.
  eapply safe_bind; [apply safe_cell_to_text, Hself|]. intros [text1 self1] H1.
  eapply safe_bind; [apply safe_remove_eoc_marker, H1|]. intros [text2 self2] H2.
  eapply safe_bind; [apply safe_simplify_soc_marker, H2|]. intros [text3 self3] H3.
  apply safe_ret. exact H3.
Qed.

End FrameOfMethods.

Section TheCell.
Context `{Collaborators}.

(** C9.  For every class of exporter, every cell and every store, the
    constructor followed by [cell_to_text], [remove_eoc_marker] and
    [simplify_soc_marker] leaves every cell object as it was and every dict
    that the store held with the content that it had, whether the calls
    return or raise; so the type, the source and the metadata of the cell of
    the caller are the same before and after.  The dict that the exporter
    writes is a copy: the metadata of the exporter that the calls return is at
    a location where the store held no dict before. *)
Theorem exporting_leaves_the_cell (d : dialect) (cell : loc) (dl : option string)
    (given_fmt : option loc) (next_text prev_text : list string) (s : store) :
  let calls := Heap.cell_text d cell dl given_fmt next_text prev_text in
  cells (snd (calls s)) = cells s /\
  (forall (l : loc) (md : dict),
     dicts s !! l = Some md -> dicts (snd (calls s)) !! l = Some md) /\
  (forall (c : Cell.t) (md : dict),
     cells s !! cell = Some c -> dicts s !! Cell.metadata c = Some md ->
     cells (snd (calls s)) !! cell = Some c /\
     dicts (snd (calls s)) !! Cell.metadata c = Some md) /\
  (forall (text : list string) (self : Heap.exporter),
     fst (calls s) = Ok (text, self) -> dicts s !! Heap.metadata self = None).
Proof.
  intros calls.
  destruct (safe_cell_text s d cell dl given_fmt next_text prev_text s (keeps_refl s))
    as [[Hcells Hdicts] Hown].
  fold calls in Hcells, Hdicts, Hown.
  split; [exact Hcells|]. split; [exact Hdicts|]. split.
  - intros c md Hc Hmd. split; [rewrite Hcells; exact Hc | apply Hdicts, Hmd].
  - intros text self Hret. apply (Hown _ Hret).
Qed.

End TheCell.

(** The proof rests on the copy: a write to a dict of the caller is not
    safe. *)
Lemma writing_a_dict_of_the_caller_is_not_safe :
  let s := one_cell code "1 + 1" [] (fmt_of ".py") in
  ~ safe s (Heap.set_item 2%positive "language" (JStr "python")) (fun _ => True).
Proof.
  intros s Hsafe. destruct (Hsafe s (keeps_refl s)) as [[_ Hdicts] _].
  specialize (Hdicts 2%positive [] eq_refl). vm_compute in Hdicts. discriminate.
Qed.

(** A run in which the exporter writes: the token [--] goes into the dict
    of the exporter, a new dict at location 3, and the dict of the cell, at
    location 2, is as it was. *)
Example the_exporter_writes_its_copy :
  let tags := [("tags", JArr [JStr "a"])] in
  let s := one_cell code "# -" tags (fmt_of ".py") in
  let calls :=
    Heap.cell_text (H:=Ref.collaborators) LightScriptCellExporter 1%positive
      (Some "python") (Some 3%positive) [] ["x = 1"] in
  (exists self,
     fst (calls s)
     = Ok (["# + {" +:+ dquote +:+ "tags" +:+ dquote +:+ ": [" +:+ dquote +:+ "a"
              +:+ dquote +:+ "], " +:+ dquote +:+ "endofcell" +:+ dquote +:+ ": "
              +:+ dquote +:+ "--" +:+ dquote +:+ "}"; "# -"; "# --"], self) /\
     Heap.metadata self = 3%positive /\
     Heap.unfiltered_metadata self = 2%positive) /\
  dicts (snd (calls s)) !! 2%positive = Some tags /\
  dicts (snd (calls s)) !! 3%positive = Some (tags ++ [("endofcell", JStr "--")]).
Proof.
  cbv zeta. split; [|split].
  - eexists. split; [vm_compute; reflexivity|]. split; reflexivity.
  - vm_compute. reflexivity.
  - vm_compute. reflexivity.
Qed.

Section Escalation.
Context `{Collaborators}.

Lemma dashes_not_single n : String.eqb (dashes (S (S n))) "-" = false.
Proof. reflexivity. Qed.

Lemma endofcell_token_plain (source : list string) (comment : string) :
  Re.plain comment = true ->
  exists n,
    endofcell_token source comment = Ok (dashes (S n)) /\
    Forall (fun line => is_endofcell_line comment (dashes (S n)) line = false) source /\
    (In (comment +:+ " -") source -> 1 <= n).
Proof.
  intros Hc.
  destruct (endofcell_marker_first_free_token source comment Hc)
    as (n & Hret & Hall & _ & Hin).
  exists n. unfold endofcell_token. rewrite Hret. auto.
Qed.

(** A cell of a light script with the default markers, whose rendered source
    holds the line made of the comment string and [ -] and which needs an
    explicit start marker, is exported between a start marker and an end
    marker of two dashes or more, which no line of the rendered source
    matches. *)
Lemma code_to_text_escalates (self : exporter) (s : store) :
  class_of self = LightScriptCellExporter ->
  cell_marker_start self = None ->
  cell_marker_end self = None ->
  Re.plain (comment self) = true ->
  In (comment self +:+ " -") (rendered_source self) ->
  explicit_start_marker self (rendered_source self) s = (Ok true, s) ->
  exists n,
    1 <= n /\
    Forall (fun line => is_endofcell_line (comment self) (dashes (S n)) line = false)
      (rendered_source self) /\
    let self' :=
      set_metadata self (dict_set (metadata self) "endofcell" (JStr (dashes (S n)))) in
    code_to_text self s =
      (Ok (Str.join " " [comment self; "+"; metadata_to_json_options (metadata self')]
             :: rendered_source self ++ [comment self +:+ " " +:+ dashes (S n)],
           self'), s).
Proof.
  intros Hclass Hstart Hend Hplain Hin Hexplicit.
  destruct (endofcell_token_plain (rendered_source self) (comment self) Hplain)
    as (n & Htoken & Hall & Hn).
  specialize (Hn Hin). exists n. split; [exact Hn|]. split; [exact Hall|].
  cbv zeta. unfold code_to_text. rewrite Hclass.
  unfold LightScriptCellExporter_code_to_text.
  change (if (if bool_decide (language self ≠ default_language self)
                    && negb (dict_mem (metadata self) "active")
              then false else is_active (ext self) (metadata self))
          then comment_magic (escape_code_start (source self) (ext self) (language self))
                 (language self) (comment_magics self)
          else commented (comment self)
                 (escape_code_start (source self) (ext self) (language self)))
    with (rendered_source self).
  rewrite bind_run, Hexplicit. cbv beta iota.
  rewrite Hend. cbn [str_truthy]. run_store. rewrite Htoken. run_store.
  destruct n as [|n]; [lia|].
  fields. rewrite dict_set_nonempty, Hclass. cbn [negb orb use_cell_markers].
  rewrite dict_get_set_eq. run_store. cbn [is_str]. rewrite dashes_not_single.
  fields. rewrite Hend. cbn [str_truthy orb]. cbv iota. fields. rewrite Hstart.
  cbn [str_truthy orb negb]. cbv zeta. run_store.
  cbn [format_str]. run_store. reflexivity.
Qed.

(** C2, amended.  For every list of source lines and every comment string in
    which no character is a regular-expression operator, [endofcell_marker]
    returns a token [-], [--], [---], ... that no source line matches as an
    end-marker line (the comment string, one space, the token, optional
    trailing whitespace), and it is the first such token.  In particular a
    cell of a [LightScriptCellExporter] with no custom cell markers, for which
    [explicit_start_marker] answers [True] and whose rendered source holds the
    line made of the comment string and [ -], is exported with an end marker
    of two dashes or more, which no line of the rendered source matches. *)
Theorem endofcell_marker_avoids_source (source : list string) (comment_string : string) :
  Re.plain comment_string = true ->
  (exists n,
     endofcell_marker (S (longest source)) source comment_string = Returned (dashes (S n)) /\
     Forall (fun line => is_endofcell_line comment_string (dashes (S n)) line = false) source /\
     (forall k, k < n ->
        Exists (fun line => is_endofcell_line comment_string (dashes (S k)) line = true)
          source) /\
     (In (comment_string +:+ " -") source -> 1 <= n)) /\
  (forall (self : exporter) (s : store),
     class_of self = LightScriptCellExporter ->
     cell_marker_start self = None ->
     cell_marker_end self = None ->
     comment self = comment_string ->
     rendered_source self = source ->
     In (comment_string +:+ " -") source ->
     explicit_start_marker self source s = (Ok true, s) ->
     exists n,
       1 <= n /\
       Forall (fun line => is_endofcell_line comment_string (dashes (S n)) line = false)
         source /\
       let self' :=
         set_metadata self (dict_set (metadata self) "endofcell" (JStr (dashes (S n)))) in
       code_to_text self s =
         (Ok (Str.join " " [comment_string; "+"; metadata_to_json_options (metadata self')]
                :: source ++ [comment_string +:+ " " +:+ dashes (S n)],
              self'), s)).
Proof.
  intros Hplain. split; [apply endofcell_marker_first_free_token, Hplain|].
  intros self s Hclass Hstart Hend Hcomment Hsource Hin Hexplicit. subst comment_string source.
  apply code_to_text_escalates; assumption.
Qed.

End Escalation.

Lemma endofcell_marker_avoids_source_witness :
  let tags := [("tags", JArr [JStr "a"])] in
  let self :=
    exporter_of LightScriptCellExporter ".py" "#" code ["# -"] tags "python" None None in
  Re.plain "#" = true /\
  (exists n,
     endofcell_marker (S (longest ["# -"; "x = 1"; "# --  "])) ["# -"; "x = 1"; "# --  "] "#"
       = Returned (dashes (S n)) /\
     Forall (fun line => is_endofcell_line "#" (dashes (S n)) line = false)
       ["# -"; "x = 1"; "# --  "] /\
     (forall k, k < n ->
        Exists (fun line => is_endofcell_line "#" (dashes (S k)) line = true)
          ["# -"; "x = 1"; "# --  "]) /\
     (In ("#" +:+ " -") ["# -"; "x = 1"; "# --  "] -> 1 <= n)) /\
  (exists n,
     1 <= n /\
     Forall (fun line => is_endofcell_line "#" (dashes (S n)) line = false) ["# -"] /\
     let self' :=
       set_metadata self (dict_set (metadata self) "endofcell" (JStr (dashes (S n)))) in
     code_to_text (H:=Ref.collaborators) self (one_cell code "# -" tags (fmt_of ".py"))
     = (Ok (Str.join " "
              ["#"; "+"; Ref.metadata_to_json_options (metadata self')]
              :: ["# -"] ++ ["#" +:+ " " +:+ dashes (S n)],
            self'),
        one_cell code "# -" tags (fmt_of ".py"))).
Proof.
  intros tags self.
  split; [reflexivity|].
  destruct (endofcell_marker_avoids_source (H:=Ref.collaborators)
              ["# -"; "x = 1"; "# --  "] "#" eq_refl) as [Hfirst _].
  destruct (endofcell_marker_avoids_source (H:=Ref.collaborators) ["# -"] "#" eq_refl)
    as [_ Hsecond].
  split; [exact Hfirst|].
  apply (Hsecond self (one_cell code "# -" tags (fmt_of ".py")));
    first [reflexivity | left; reflexivity].
Defined.

(** X25.  The token that [endofcell_marker] returns can collide when the
    comment string holds a regular-expression operator: with the comment
    string [#*] the pattern reads [*] as a repetition and does not match the
    line [#* -], so that the token [-] is returned although that line is the
    comment string, a space and the token. *)
Lemma endofcell_marker_collides :
  (forall fuel, endofcell_marker (S fuel) ["#* -"] "#*" = Returned "-") /\
  is_endofcell_line "#*" "-" "#* -" = true /\
  ~ (forall (source : list string) (comment : string),
       exists fuel n,
         endofcell_marker fuel source comment = Returned (dashes (S n)) /\
         Forall (fun line => is_endofcell_line comment (dashes (S n)) line = false)
           source).
Proof.
  assert (forall fuel, endofcell_marker (S fuel) ["#* -"] "#*" = Returned "-") as Hret.
  { intros fuel. reflexivity. }
  split; [exact Hret|]. split; [reflexivity|].
  intros Hall. destruct (Hall ["#* -"] "#*") as (fuel & n & Hn & Hlines).
  destruct fuel as [|fuel]; [discriminate|].
  rewrite Hret in Hn. destruct n as [|n]; [|discriminate].
  inversion Hlines as [|? ? Hline _]. discriminate.
Qed.

(** C2 as stated fails in its second part: a code cell whose rendered source
    is the line [# -] is exported by a light script with the cell markers
    [region,endregion] between [# region ...] and [# endregion], and by a bare
    script as that line alone; neither text ends with a marker of two dashes
    or more. *)
Lemma end_marker_is_not_always_escalated :
  let tags := [("tags", JArr [JStr "a"])] in
  let quote := String.String (ascii_of_nat 34) EmptyString in
  (exists self self',
     init (H:=Ref.collaborators) LightScriptCellExporter 1%positive (Some "python")
       (Some 3%positive) (one_cell code "# -" tags (markers_fmt "region,endregion"))
     = (Ok self, one_cell code "# -" tags (markers_fmt "region,endregion")) /\
     rendered_source (H:=Ref.collaborators) self = ["# -"] /\
     cell_to_text (H:=Ref.collaborators) self
       (one_cell code "# -" tags (markers_fmt "region,endregion"))
     = (Ok (["# region {" +:+ quote +:+ "tags" +:+ quote +:+ ": [" +:+ quote +:+ "a"
               +:+ quote +:+ "]}"; "# -"; "# endregion"], self'),
        one_cell code "# -" tags (markers_fmt "region,endregion"))) /\
  (exists self,
     init (H:=Ref.collaborators) BareScriptCellExporter 1%positive (Some "python")
       (Some 3%positive) (one_cell code "# -" tags (fmt_of ".py"))
     = (Ok self, one_cell code "# -" tags (fmt_of ".py")) /\
     rendered_source (H:=Ref.collaborators) self = ["# -"] /\
     cell_to_text (H:=Ref.collaborators) self (one_cell code "# -" tags (fmt_of ".py"))
     = (Ok (["# -"], self), one_cell code "# -" tags (fmt_of ".py"))) /\
  ~ (forall (d : dialect) (given_fmt : Fmt.t) (self self' : exporter) (text : list string),
       let s := one_cell code "# -" tags given_fmt in
       init (H:=Ref.collaborators) d 1%positive (Some "python") (Some 3%positive) s
       = (Ok self, s) ->
       In "# -" (rendered_source (H:=Ref.collaborators) self) ->
       cell_to_text (H:=Ref.collaborators) self s = (Ok (text, self'), s) ->
       exists n, last text = Some ("# " +:+ dashes (S (S n)))).
Proof.
  intros tags quote.
  split; [|split].
  - eexists _, _. split; [reflexivity|]. split; reflexivity.
  - eexists. split; [reflexivity|]. split; reflexivity.
  - intros Hall.
    assert (exists self,
              init (H:=Ref.collaborators) BareScriptCellExporter 1%positive
                (Some "python") (Some 3%positive) (one_cell code "# -" tags (fmt_of ".py"))
              = (Ok self, one_cell code "# -" tags (fmt_of ".py")) /\
              rendered_source (H:=Ref.collaborators) self = ["# -"] /\
              cell_to_text (H:=Ref.collaborators) self
                (one_cell code "# -" tags (fmt_of ".py"))
              = (Ok (["# -"], self), one_cell code "# -" tags (fmt_of ".py")))
      as (self & Hinit & Hsrc & Htext).
    { eexists. split; [reflexivity|]. split; reflexivity. }
    destruct (Hall BareScriptCellExporter (fmt_of ".py") self self ["# -"] Hinit)
      as (n & Hlast); [rewrite Hsrc; left; reflexivity | exact Htext |].
    discriminate.
Qed.


(** * The text of a light-script cell with the default markers *)

Section DefaultMarkers.
Context `{Collaborators}.

Lemma rendered_source_eq (self : exporter) :
  (if (if bool_decide (language self ≠ default_language self)
            && negb (dict_mem (metadata self) "active")
       then false else is_active (ext self) (metadata self))
   then comment_magic (escape_code_start (source self) (ext self) (language self))
          (language self) (comment_magics self)
   else commented (comment self)
          (escape_code_start (source self) (ext self) (language self)))
  = rendered_source self.
Proof. reflexivity. Qed.

(** A light script with cell markers asks for a start marker whenever the
    metadata is not empty. *)
Lemma explicit_start_marker_metadata self src :
  use_cell_markers (class_of self) = true ->
  dict_nonempty (metadata self) = true ->
  explicit_start_marker self src = mret true.
Proof.
  intros Huse Hmeta. unfold explicit_start_marker. rewrite Huse, Hmeta. reflexivity.
Qed.

(** Without cell markers, or without metadata and a need for markers, the
    text of a cell is its rendered source. *)
Lemma code_to_text_without_markers (self : exporter) (s : store) :
  light (class_of self) = true ->
  explicit_start_marker self (rendered_source self) s = (Ok false, s) ->
  code_to_text self s = (Ok (rendered_source self, self), s).
Proof.
  intros Hlight Hexplicit.
  assert (code_to_text self = LightScriptCellExporter_code_to_text self) as ->
    by (unfold code_to_text; destruct (class_of self); try discriminate; reflexivity).
  unfold LightScriptCellExporter_code_to_text. cbv zeta.
  rewrite rendered_source_eq, bind_run, Hexplicit. cbv beta iota.
  rewrite bind_run, ret_run. cbv beta iota.
  destruct (use_cell_markers (class_of self)) eqn:Huse;
    [|rewrite orb_true_r; reflexivity].
  destruct (dict_nonempty (metadata self)) eqn:Hmeta; [|reflexivity].
  rewrite (explicit_start_marker_metadata self _ Huse Hmeta) in Hexplicit.
  discriminate.
Qed.

(** The text of a cell of a light script with the default markers that
    needs an explicit start marker: the start line of the comment string,
    [+] and the options, the rendered source, and the end line of the
    comment string and the token of [endofcell_marker].  The token is
    written in the options unless it is [-]. *)
Lemma code_to_text_with_token (self : exporter) (s : store) (n : nat) :
  class_of self = LightScriptCellExporter ->
  cell_marker_start self = None ->
  cell_marker_end self = None ->
  explicit_start_marker self (rendered_source self) s = (Ok true, s) ->
  endofcell_token (rendered_source self) (comment self) = Ok (dashes (S n)) ->
  let recorded := dict_set (metadata self) "endofcell" (JStr (dashes (S n))) in
  let options := if n =? 0 then dict_del recorded "endofcell" else recorded in
  code_to_text self s =
    (Ok (Str.join " " [comment self; "+"; metadata_to_json_options options]
           :: rendered_source self ++ [comment self +:+ " " +:+ dashes (S n)],
         set_metadata self options), s).
Proof.
  intros Hclass Hstart Hend Hexplicit Htoken. cbv zeta.
  unfold code_to_text. rewrite Hclass.
  unfold LightScriptCellExporter_code_to_text. cbv zeta.
  rewrite rendered_source_eq.
  rewrite bind_run, Hexplicit. cbv beta iota.
  rewrite Hend. cbn [str_truthy]. run_store. rewrite Htoken. run_store.
  fields. rewrite dict_set_nonempty, Hclass. cbn [negb orb use_cell_markers].
  rewrite dict_get_set_eq. run_store.
  destruct n as [|n].
  - cbn [is_str dashes Str.repeat String.eqb Ascii.eqb Bool.eqb Nat.eqb orb].
    cbv iota. fields. rewrite Hstart.
    cbn [str_truthy orb negb]. cbv zeta. run_store.
    cbn [format_str]. run_store. reflexivity.
  - cbn [is_str]. rewrite dashes_not_single.
    rewrite Hend. cbn [str_truthy orb Nat.eqb]. cbv iota. fields. rewrite Hstart.
    cbn [str_truthy orb negb]. cbv zeta. run_store.
    cbn [format_str]. run_store. reflexivity.
Qed.

End DefaultMarkers.

(** * Malformed cell markers *)

Section CellMarkers.
Context `{Collaborators}.

Lemma base_exporter_without_cell_markers (d : dialect) (sf : option loc) (c : Cell.t)
    (md : dict) (f : Fmt.t) (dl : option string) :
  base_exporter d sf c md (Fmt.without_cell_markers f) dl = base_exporter d sf c md f dl.
Proof. reflexivity. Qed.

Lemma nonempty_extension (f : Fmt.t) (e : string) :
  Fmt.extension f = Some e -> Fmt.nonempty f = true.
Proof. destruct f as [[]]; cbn; intros E; [reflexivity | discriminate]. Qed.

(** What the constructor of a light script does with a [cell_markers] value
    without a comma. *)
Lemma init_with_malformed_cell_markers (d : dialect) (cell : loc)
    (dl : option string) (l : loc) (s : store) (c : Cell.t) (md : dict) (f : Fmt.t)
    (e markers : string) :
  light d = true ->
  cells s !! cell = Some c ->
  dicts s !! Cell.metadata c = Some md ->
  fmts s !! l = Some f ->
  Fmt.extension f = Some e ->
  Fmt.cell_markers f = Some markers ->
  Str.contains "," markers = false ->
  exists self,
    init d cell dl (Some l) s =
      (Ok self,
       Store (cells s) (dicts s) (<[l := Fmt.without_cell_markers f]> (fmts s))
         (warnings s ++ [ignored_cell_markers markers])) /\
    class_of self = d /\ cell_type self = Cell.cell_type c /\
    cell_marker_start self = None /\ cell_marker_end self = None /\
    init d cell dl (Some l)
      (Store (cells s) (dicts s) (<[l := Fmt.without_cell_markers f]> (fmts s))
         (warnings s)) =
      (Ok self,
       Store (cells s) (dicts s) (<[l := Fmt.without_cell_markers f]> (fmts s))
         (warnings s)).
Proof.
  intros Hd Hc Hmd Hf He Hm Hcomma.
  destruct (base_exporter_ok d (Some l) c md f dl e He)
    as (self0 & Hb & _ & Hfmt & _ & _ & Hun & Hstart & Hend).
  destruct (base_exporter_fields _ _ _ _ _ _ _ Hb) as (Hclass & _ & _ & Hkind & _).
  exists match dict_get md "endofcell" with
         | Some v => set_metadata self0 (dict_set (metadata self0) "endofcell" v)
         | None => self0
         end.
  assert (Fmt.nonempty f = true) as Hne by eauto using nonempty_extension.
  split; [|split; [|split; [|split; [|split]]]].
  - rewrite init_eq, BaseCellExporter_init_eq.
    erewrite get_fmt_run by eassumption. rewrite Hc, Hmd, Hne, Hb.
    assert (setup d self0 = LightScriptCellExporter_setup self0) as ->
      by (destruct d; try discriminate; reflexivity).
    unfold LightScriptCellExporter_setup. rewrite Hfmt.
    run_store. rewrite Hm, Hcomma. cbn [negb]. run_store.
    rewrite set_fmt_run. run_store. rewrite warn_run. run_store.
    rewrite Hun. unfold get_dict. cbn [dicts]. rewrite Hmd. reflexivity.
  - destruct (dict_get md "endofcell"); fields; assumption.
  - destruct (dict_get md "endofcell"); fields; assumption.
  - destruct (dict_get md "endofcell"); fields; assumption.
  - destruct (dict_get md "endofcell"); fields; assumption.
  - rewrite init_eq, BaseCellExporter_init_eq.
    assert (Fmt.extension (Fmt.without_cell_markers f) = Some e) as He' by exact He.
    unfold get_fmt at 1. cbn [fmts cells dicts].
    rewrite lookup_insert_eq, Hc, Hmd.
    rewrite (nonempty_extension _ _ He'), base_exporter_without_cell_markers, Hb.
    assert (setup d self0 = LightScriptCellExporter_setup self0) as ->
      by (destruct d; try discriminate; reflexivity).
    unfold LightScriptCellExporter_setup. rewrite Hfmt.
    rewrite bind_run. unfold get_fmt at 1. cbn [fmts].
    rewrite lookup_insert_eq. run_store. cbn [Fmt.cell_markers Fmt.without_cell_markers].
    run_store. rewrite Hun. unfold get_dict. cbn [dicts]. rewrite Hmd. reflexivity.
Qed.

(** C7.  For every format dict of a light script that holds an extension and
    a [cell_markers] value without a comma, the constructor returns an
    exporter, issues one warning, whose text quotes the value, and takes the
    key off the format dict.  The exporter has no custom marker: it is the
    exporter that the constructor returns, with no warning, when the key is
    not there.  The export then continues with the default markers: the text
    of a code cell that needs no explicit marker is its rendered source, and
    the text of one that needs them starts with the line of the comment
    string, [+] and the options, and ends with the line of the comment string
    and a token [-], [--], ... *)
Theorem malformed_cell_markers_are_ignored (d : dialect) (cell : loc)
    (dl : option string) (l : loc) (s : store) (c : Cell.t) (md : dict) (f : Fmt.t)
    (e markers : string) :
  light d = true ->
  cells s !! cell = Some c ->
  dicts s !! Cell.metadata c = Some md ->
  fmts s !! l = Some f ->
  Fmt.extension f = Some e ->
  Fmt.cell_markers f = Some markers ->
  Str.contains "," markers = false ->
  let popped := <[l := Fmt.without_cell_markers f]> (fmts s) in
  let warned :=
    Store (cells s) (dicts s) popped
      (warnings s
         ++ ["Ignored cell markers '" +:+ markers
               +:+ "' as it does not match the expected 'start,end' pattern"]) in
  exists self,
    init d cell dl (Some l) s = (Ok self, warned) /\
    cell_marker_start self = None /\ cell_marker_end self = None /\
    init d cell dl (Some l) (Store (cells s) (dicts s) popped (warnings s))
    = (Ok self, Store (cells s) (dicts s) popped (warnings s)) /\
    (Cell.cell_type c = code ->
     explicit_start_marker self (rendered_source self) warned = (Ok false, warned) ->
     cell_to_text self warned = (Ok (rendered_source self, self), warned)) /\
    (Cell.cell_type c = code ->
     d = LightScriptCellExporter ->
     Re.plain (comment self) = true ->
     explicit_start_marker self (rendered_source self) warned = (Ok true, warned) ->
     exists n,
       endofcell_token (rendered_source self) (comment self) = Ok (dashes (S n)) /\
       let recorded := dict_set (metadata self) "endofcell" (JStr (dashes (S n))) in
       let options := if n =? 0 then dict_del recorded "endofcell" else recorded in
       cell_to_text self warned =
         (Ok (Str.join " " [comment self; "+"; metadata_to_json_options options]
                :: rendered_source self ++ [comment self +:+ " " +:+ dashes (S n)],
              set_metadata self options), warned)).
Proof.
  intros Hd Hc Hmd Hf He Hm Hcomma popped warned.
  destruct (init_with_malformed_cell_markers d cell dl l s c md f e markers
              Hd Hc Hmd Hf He Hm Hcomma)
    as (self & Hinit & Hclass & Hkind & Hstart & Hend & Hagain).
  exists self. split; [exact Hinit|]. split; [exact Hstart|]. split; [exact Hend|].
  split; [exact Hagain|].
  assert (Cell.cell_type c = code ->
          forall s1, cell_to_text self s1 = code_to_text self s1) as Hcode.
  { intros Hcell s1.
    unfold cell_to_text, BaseCellExporter_cell_to_text.
    rewrite Hclass. rewrite is_code_code by congruence.
    destruct d; try discriminate; reflexivity. }
  split.
  - intros Hcell Hexplicit. rewrite (Hcode Hcell).
    apply code_to_text_without_markers; [rewrite Hclass; exact Hd | exact Hexplicit].
  - intros Hcell Hlight Hplain Hexplicit. rewrite (Hcode Hcell).
    destruct (endofcell_token_plain (rendered_source self) (comment self) Hplain)
      as (n & Htoken & _).
    exists n. split; [exact Htoken|].
    apply (code_to_text_with_token self warned n); try assumption. congruence.
Qed.

End CellMarkers.

Lemma malformed_cell_markers_are_ignored_witness :
  let warned :=
    Store {[ 1%positive := Cell.Make code "1 + 1" 2%positive ]}
      {[ 2%positive := [("tags", JArr [JStr "a"])] ]}
      {[ 3%positive := fmt_of ".py" ]}
      ["Ignored cell markers 'region' as it does not match the expected "
         +:+ "'start,end' pattern"] in
  exists self,
    init (H:=Ref.collaborators) LightScriptCellExporter 1%positive (Some "python")
      (Some 3%positive)
      (one_cell code "1 + 1" [("tags", JArr [JStr "a"])] (markers_fmt "region"))
    = (Ok self, warned) /\
    cell_marker_start self = None /\ cell_marker_end self = None /\
    exists self',
      cell_to_text (H:=Ref.collaborators) self warned
      = (Ok (["# + {" +:+ String.String (ascii_of_nat 34) "tags" +:+
                String.String (ascii_of_nat 34) ": [" +:+
                String.String (ascii_of_nat 34) "a" +:+
                String.String (ascii_of_nat 34) "]}"; "1 + 1"; "# -"], self'), warned).
Proof.
  intros warned.
  destruct (malformed_cell_markers_are_ignored (H:=Ref.collaborators)
              LightScriptCellExporter 1%positive (Some "python") 3%positive
              (one_cell code "1 + 1" [("tags", JArr [JStr "a"])] (markers_fmt "region"))
              (Cell.Make code "1 + 1" 2%positive) [("tags", JArr [JStr "a"])]
              (markers_fmt "region") ".py" "region"
              eq_refl eq_refl eq_refl eq_refl eq_refl eq_refl eq_refl)
    as (self & Hinit & Hstart & Hend & _ & _ & Hgo).
  exists self. split; [exact Hinit|]. split; [exact Hstart|]. split; [exact Hend|].
  assert (Hself := f_equal fst Hinit).
  match type of Hself with
  | fst ?m = _ =>
      let v := eval vm_compute in (fst m) in
      assert (fst m = v) as Hv by (vm_compute; reflexivity)
  end.
  rewrite Hself in Hv. cbn [fst] in Hv. injection Hv as ->.
  destruct (Hgo eq_refl eq_refl eq_refl eq_refl) as (n & Htoken & Htext).
  assert (n = 0) as -> by (vm_compute in Htoken; injection Htoken as Htoken;
                           destruct n as [|[|]]; [reflexivity | discriminate..]).
  eexists. exact Htext.
Defined.

Section MarkdownRoundTrip.
Context `{Collaborators}.

Lemma one_cell_cell kind source metadata f :
  cells (one_cell kind source metadata f) !! 1%positive
  = Some (Cell.Make kind source 2%positive).
Proof. reflexivity. Qed.

Lemma one_cell_dict kind source metadata f :
  dicts (one_cell kind source metadata f) !! 2%positive = Some metadata.
Proof. reflexivity. Qed.

Lemma one_cell_fmt kind source metadata f :
  fmts (one_cell kind source metadata f) !! 3%positive = Some f.
Proof. reflexivity. Qed.

(** The text of a Markdown code cell in which no language is detected. *)
Lemma markdown_code_export (source : string) (md : dict) (f : Fmt.t)
    (dl : option string) :
  cell_language (source_lines source) = (None, None, source_lines source) ->
  export MarkdownCellExporter 1%positive dl (Some 3%positive)
    (one_cell code source md f)
  = (Ok (("```" +:+ Str.join " " (fence_options f dl md))
           :: comment_magic (source_lines source) dl (markdown_comment_magics f)
           ++ ["```"]),
     one_cell code source md f).
Proof.
  intros Hnone. unfold export. rewrite bind_run, init_eq, BaseCellExporter_init_eq.
  unfold get_fmt. rewrite one_cell_fmt, one_cell_cell. cbn [Cell.metadata].
  rewrite one_cell_dict. unfold base_exporter, detected.
  cbn [parse_cell_language Cell.source]. rewrite Hnone.
  cbn [base_metadata str_truthy Cell.cell_type cell_type_eqb andb].
  cbn [setup]. unfold MarkdownCellExporter_setup. run_store. fields.
  unfold cell_to_text. fields. unfold MarkdownCellExporter_cell_to_text. fields.
  cbn [cell_type_eqb]. unfold code_to_text. fields.
  unfold MarkdownCellExporter_code_to_text. fields. cbn [cell_type_eqb andb].
  run_store. unfold fence_options, fenced_metadata, markdown_comment_magics.
  cbn [default_comment_magics].
  destruct (str_truthy dl), (dict_nonempty _); reflexivity.
Qed.

Lemma app_empty_r (a : string) : a +:+ "" = a.
Proof. induction a as [|c a IH]; [reflexivity|]. rewrite app_String, IH. reflexivity. Qed.

Lemma app_inv_l (a x y : string) : a +:+ x = a +:+ y -> x = y.
Proof. apply (inj (String.append a)). Qed.

Lemma app_eq_self (a x : string) : a +:+ x = a -> x = "".
Proof. intros E. apply (app_inv_l a). rewrite app_empty_r. exact E. Qed.

(** The options of a fence give back the encoded metadata. *)
Lemma fence_options_inj (f : Fmt.t) (dl : option string) (md1 md2 : dict) :
  (dict_nonempty (fenced_metadata f md1) = true ->
   metadata_to_md_options (fenced_metadata f md1) <> "") ->
  (dict_nonempty (fenced_metadata f md2) = true ->
   metadata_to_md_options (fenced_metadata f md2) <> "") ->
  (metadata_to_md_options (fenced_metadata f md1)
   = metadata_to_md_options (fenced_metadata f md2) ->
   fenced_metadata f md1 = fenced_metadata f md2) ->
  Str.join " " (fence_options f dl md1) = Str.join " " (fence_options f dl md2) ->
  fenced_metadata f md1 = fenced_metadata f md2.
Proof.
  intros Hne1 Hne2 Hinj. unfold fence_options, Str.join.
  destruct (dict_nonempty (fenced_metadata f md1)) eqn:N1,
           (dict_nonempty (fenced_metadata f md2)) eqn:N2.
  - destruct (str_truthy dl); cbn [app String.concat]; intros E.
    + apply Hinj. apply (app_inv_l " "), (app_inv_l (default "" dl)). exact E.
    + apply Hinj. exact E.
  - destruct (str_truthy dl); cbn [app String.concat]; intros E; exfalso.
    + apply app_eq_self in E. discriminate.
    + apply Hne1; [reflexivity | exact E].
  - destruct (str_truthy dl); cbn [app String.concat]; intros E; exfalso.
    + symmetry in E. apply app_eq_self in E. discriminate.
    + apply Hne2; [reflexivity | symmetry; exact E].
  - intros _. destruct (fenced_metadata f md1), (fenced_metadata f md2);
      try discriminate. reflexivity.
Qed.

(** X24.  For the Markdown dialect and two code cells of one export context
    in which no magic-cell directive is detected: when the exporter writes
    the same lines for both, the cells have the same source lines and the
    same metadata up to the keys that the filter drops and the keys [active]
    and [language], provided that the magic escaper tells the two sources
    apart, that the options encoder tells the two encoded dicts apart, and
    that it writes no empty string for a dict that is not empty. *)
Theorem markdown_code_cells_are_determined (source1 source2 : string)
    (md1 md2 : dict) (f : Fmt.t) (dl : option string) (lines : list string)
    (s1 s2 : store) :
  export MarkdownCellExporter 1%positive dl (Some 3%positive)
    (one_cell code source1 md1 f) = (Ok lines, s1) ->
  export MarkdownCellExporter 1%positive dl (Some 3%positive)
    (one_cell code source2 md2 f) = (Ok lines, s2) ->
  cell_language (source_lines source1) = (None, None, source_lines source1) ->
  cell_language (source_lines source2) = (None, None, source_lines source2) ->
  (comment_magic (source_lines source1) dl (markdown_comment_magics f)
   = comment_magic (source_lines source2) dl (markdown_comment_magics f) ->
   source_lines source1 = source_lines source2) ->
  (metadata_to_md_options (fenced_metadata f md1)
   = metadata_to_md_options (fenced_metadata f md2) ->
   fenced_metadata f md1 = fenced_metadata f md2) ->
  (dict_nonempty (fenced_metadata f md1) = true ->
   metadata_to_md_options (fenced_metadata f md1) <> "") ->
  (dict_nonempty (fenced_metadata f md2) = true ->
   metadata_to_md_options (fenced_metadata f md2) <> "") ->
  source_lines source1 = source_lines source2 /\
  fenced_metadata f md1 = fenced_metadata f md2.
Proof.
  intros Hx1 Hx2 Hnone1 Hnone2 Hmagic Hinj Hne1 Hne2.
  rewrite (markdown_code_export source1 md1 f dl Hnone1) in Hx1.
  rewrite (markdown_code_export source2 md2 f dl Hnone2) in Hx2.
  inversion Hx1 as [[Hl1 Hs1]]. inversion Hx2 as [[Hl2 Hs2]].
  rewrite <- Hl1 in Hl2. injection Hl2 as Hfence Hbody.
  apply app_inv_l in Hfence. apply app_inv_tail in Hbody. split.
  - apply Hmagic. symmetry. exact Hbody.
  - apply (fence_options_inj f dl md1 md2 Hne1 Hne2 Hinj).
    symmetry. exact Hfence.
Qed.

(** X23.  The Markdown exporter writes a code cell and a raw cell without
    the keys [active] and [language] of the exporter metadata: when
    [cell_to_text] returns, it returns the same lines, and leaves the same
    store, for any other metadata that differs in those two keys only. *)
Theorem markdown_leaves_out_active_and_language (self self' : exporter)
    (other : dict) (lines : list string) (s s' : store) :
  class_of self = MarkdownCellExporter ->
  cell_type self <> markdown ->
  dict_without other ["active"; "language"]
  = dict_without (metadata self) ["active"; "language"] ->
  cell_to_text self s = (Ok (lines, self'), s') ->
  exists self'',
    cell_to_text (set_metadata self other) s = (Ok (lines, self''), s').
Proof.
  intros Hclass Hkind Hother.
  unfold cell_to_text. fields. rewrite Hclass.
  unfold MarkdownCellExporter_cell_to_text. fields.
  destruct (cell_type_eqb (cell_type self) markdown) eqn:Hmd;
    [destruct (cell_type self); try discriminate; congruence|].
  unfold code_to_text. fields. rewrite Hclass.
  unfold MarkdownCellExporter_code_to_text. fields. rewrite Hother.
  destruct (cell_type_eqb (cell_type self) raw).
  - rewrite !bind_run, !lift_run.
    change (html_comment (set_metadata self other)) with (html_comment self).
    destruct (html_comment self _ "raw") as [[region left_over]|e];
      [|discriminate].
    rewrite !ret_run. intros E. inversion E; subst. eexists. reflexivity.
  - rewrite !ret_run. intros E. inversion E; subst. eexists. reflexivity.
Qed.

End MarkdownRoundTrip.

Lemma markdown_leaves_out_active_and_language_witness :
  exists self'',
    cell_to_text (H:=Ref.collaborators)
      (set_metadata
         (exporter_of MarkdownCellExporter ".md" "" code ["1 + 1"] [] "python" None None)
         [("active", JStr "ipynb")])
      (one_cell code "1 + 1" [] (fmt_of ".md"))
    = (Ok (["```python"; "1 + 1"; "```"], self''),
       one_cell code "1 + 1" [] (fmt_of ".md")).
Proof.
  apply (markdown_leaves_out_active_and_language (H:=Ref.collaborators)
           (exporter_of MarkdownCellExporter ".md" "" code ["1 + 1"] [] "python" None None)
           (exporter_of MarkdownCellExporter ".md" "" code ["1 + 1"] [] "python" None None)
           [("active", JStr "ipynb")] ["```python"; "1 + 1"; "```"]
           (one_cell code "1 + 1" [] (fmt_of ".md"))
           (one_cell code "1 + 1" [] (fmt_of ".md")));
    [reflexivity | discriminate | reflexivity | reflexivity].
Defined.

Lemma markdown_code_cells_are_determined_witness :
  export (H:=Ref.collaborators) MarkdownCellExporter 1%positive (Some "python")
    (Some 3%positive)
    (one_cell code "1 + 1"
       [("active", JStr "ipynb"); ("tags", JArr [JStr "parameters"])] (fmt_of ".md"))
  = (Ok ["```python tags=[" +:+ dquote +:+ "parameters" +:+ dquote +:+ "]";
         "1 + 1"; "```"],
     one_cell code "1 + 1"
       [("active", JStr "ipynb"); ("tags", JArr [JStr "parameters"])] (fmt_of ".md")) /\
  source_lines "1 + 1" = source_lines "1 + 1" /\
  fenced_metadata (H:=Ref.collaborators) (fmt_of ".md")
    [("active", JStr "ipynb"); ("tags", JArr [JStr "parameters"])]
  = fenced_metadata (H:=Ref.collaborators) (fmt_of ".md")
      [("tags", JArr [JStr "parameters"])].
Proof.
  split; [reflexivity|].
  apply (markdown_code_cells_are_determined (H:=Ref.collaborators) "1 + 1" "1 + 1"
           [("active", JStr "ipynb"); ("tags", JArr [JStr "parameters"])]
           [("tags", JArr [JStr "parameters"])] (fmt_of ".md") (Some "python")
           ["```python tags=[" +:+ dquote +:+ "parameters" +:+ dquote +:+ "]";
            "1 + 1"; "```"]
           (one_cell code "1 + 1"
              [("active", JStr "ipynb"); ("tags", JArr [JStr "parameters"])]
              (fmt_of ".md"))
           (one_cell code "1 + 1" [("tags", JArr [JStr "parameters"])] (fmt_of ".md")));
    first [reflexivity | intros _; reflexivity | intros _; discriminate].
Defined.

(** With the reference collaborators no Reader gives back every cell of a
    Markdown text up to the keys that the filter drops: the code cells
    [1 + 1] with the metadata [active = ipynb] and with no metadata are
    written as the same lines, and the filter keeps the key [active]. *)
Lemma markdown_drops_active :
  export (H:=Ref.collaborators) MarkdownCellExporter 1%positive (Some "python")
    (Some 3%positive) (one_cell code "1 + 1" [("active", JStr "ipynb")] (fmt_of ".md"))
  = (Ok ["```python"; "1 + 1"; "```"],
     one_cell code "1 + 1" [("active", JStr "ipynb")] (fmt_of ".md")) /\
  export (H:=Ref.collaborators) MarkdownCellExporter 1%positive (Some "python")
    (Some 3%positive) (one_cell code "1 + 1" [] (fmt_of ".md"))
  = (Ok ["```python"; "1 + 1"; "```"], one_cell code "1 + 1" [] (fmt_of ".md")) /\
  Ref.filter_metadata [("active", JStr "ipynb")] None Ref._IGNORE_CELL_METADATA
  = [("active", JStr "ipynb")] /\
  Ref.filter_metadata [] None Ref._IGNORE_CELL_METADATA = [] /\
  ~ exists read, round_trip (H:=Ref.collaborators) MarkdownCellExporter read.
Proof.
  split; [reflexivity|]. split; [reflexivity|]. split; [reflexivity|].
  split; [reflexivity|].
  intros [read Hread].
  pose proof (Hread code "1 + 1" [("active", JStr "ipynb")] (fmt_of ".md")
                (Some "python") ["```python"; "1 + 1"; "```"] _ eq_refl)
    as (_ & _ & Hactive).
  pose proof (Hread code "1 + 1" [] (fmt_of ".md")
                (Some "python") ["```python"; "1 + 1"; "```"] _ eq_refl)
    as (_ & _ & Hnone).
  cbn [value_metadata] in Hactive, Hnone. rewrite <- Hnone in Hactive.
  vm_compute in Hactive. discriminate.
Qed.

(** * The lines of a source *)

Section SourceLines.
Context `{Collaborators}.

Lemma append_assoc (a b c : string) : (a +:+ b) +:+ c = a +:+ (b +:+ c).
Proof. induction a as [|x a IH]; [reflexivity|]. rewrite !app_String, IH. reflexivity. Qed.

Lemma append_nonempty (a : string) (c : ascii) : a +:+ String c "" <> "".
Proof. destruct a; [|rewrite app_String]; discriminate. Qed.

Lemma rev_app_app (s : string) : forall acc : string,
  String.rev_app s acc = String.rev_app s "" +:+ acc.
Proof.
  induction s as [|a s IH]; intros acc; [reflexivity|].
  cbn [String.rev_app]. rewrite (IH (String a acc)), (IH (String a "")).
  rewrite append_assoc. reflexivity.
Qed.

Lemma rev_cons (a : ascii) (s : string) :
  String.rev (String a s) = String.rev s +:+ String a "".
Proof. unfold String.rev. cbn [String.rev_app]. apply rev_app_app. Qed.

Lemma startswith_app_nonempty (x y : string) (c : ascii) :
  x <> "" -> Str.startswith (x +:+ y) (String c "") = Str.startswith x (String c "").
Proof.
  destruct x as [|a x]; [congruence|]. intros _. rewrite app_String. cbn.
  destruct (Ascii.eqb c a); [|reflexivity].
  destruct x, y; reflexivity.
Qed.

(** Whether a source of two characters or more ends with a line feed does
    not depend on its first character. *)
Lemma endswith_newline_cons (a b : ascii) (s : string) :
  Str.endswith (String a (String b s)) newline = Str.endswith (String b s) newline.
Proof.
  unfold Str.endswith. change (String.rev newline) with newline.
  rewrite (rev_cons a). apply startswith_app_nonempty.
  rewrite rev_cons. apply append_nonempty.
Qed.

Lemma endswith_newline_single (a : ascii) :
  Str.endswith (String a "") newline = Ascii.eqb "010" a.
Proof. unfold Str.endswith. cbn. apply andb_true_r. Qed.

Lemma splitlines_go_started (cur s : string) : Str.splitlines_go (Some cur) s <> [].
Proof.
  revert cur. induction s as [|a s IH]; intros cur; cbn; [discriminate|].
  destruct (Str.is_linebreak a); [discriminate | apply IH].
Qed.

Lemma splitlines_go_nonempty (cur : option string) (a : ascii) (s : string) :
  Str.splitlines_go cur (String a s) <> [].
Proof.
  cbn. destruct (Str.is_linebreak a); [discriminate | apply splitlines_go_started].
Qed.

Lemma join_cons (sep x : string) (l : list string) :
  l <> [] -> Str.join sep (x :: l) = x +:+ sep +:+ Str.join sep l.
Proof. destruct l; [congruence | reflexivity]. Qed.

Lemma is_linebreak_newline : Str.is_linebreak "010" = true.
Proof. reflexivity. Qed.

(** The lines that [splitlines] reads, and an empty line more when the text
    ends with a line feed, joined by line feeds, are the text. *)
Lemma join_splitlines_go (s : string) : forall cur : option string,
  unix_lines s = true ->
  Str.join newline
    (Str.splitlines_go cur s ++ (if Str.endswith s newline then [""] else []))
  = String.rev (default "" cur) +:+ s.
Proof.
  induction s as [|a s IH]; intros cur Hunix.
  - destruct cur as [cur|]; cbn; [|reflexivity].
    symmetry. apply app_empty_r.
  - cbn [unix_lines] in Hunix. apply andb_true_iff in Hunix as [Ha Hunix].
    cbn [Str.splitlines_go]. destruct (Str.is_linebreak a) eqn:Hbreak.
    + cbn [negb orb] in Ha. apply Ascii.eqb_eq in Ha. subst a.
      destruct s as [|b s].
      * rewrite endswith_newline_single. cbn. reflexivity.
      * change (Ascii.eqb "010" "013") with false. cbn [andb].
        rewrite endswith_newline_cons. rewrite <- app_comm_cons.
        rewrite join_cons.
        2:{ intros E. apply app_eq_nil in E as [E _].
            exact (splitlines_go_nonempty None b s E). }
        rewrite (IH None Hunix). reflexivity.
    + assert (Str.endswith (String a s) newline = Str.endswith s newline) as ->.
      { destruct s as [|b s]; [|apply endswith_newline_cons].
        rewrite endswith_newline_single.
        destruct (Ascii.eqb_spec "010" a) as [<-|_]; [|reflexivity].
        rewrite is_linebreak_newline in Hbreak. discriminate. }
      rewrite (IH _ Hunix).
      change (default "" (Some (String a (default "" cur))))
        with (String a (default "" cur)).
      rewrite rev_cons, append_assoc. reflexivity.
Qed.

Lemma source_lines_nonempty (src : string) : source_lines src <> [].
Proof.
  unfold source_lines. destruct (String.eqb_spec src "") as [->|Hne]; [discriminate|].
  destruct src as [|a src]; [congruence|].
  destruct (Str.endswith _ _).
  - intros E. apply app_eq_nil in E as [_ E]. discriminate.
  - apply splitlines_go_nonempty.
Qed.

(** X1.  [cell_source] loses nothing of a source whose lines end with line
    feeds: joining the lines it returns with line feeds gives the source
    back. *)
Theorem cell_source_joins_back (cell : loc) (c : Cell.t) (s : store) :
  cells s !! cell = Some c ->
  unix_lines (Cell.source c) = true ->
  exists lines,
    cell_source cell s = (Ok lines, s) /\
    Str.join newline lines = Cell.source c.
Proof.
  intros Hc Hunix. exists (source_lines (Cell.source c)). split.
  - unfold cell_source. run_store. reflexivity.
  - unfold source_lines. destruct (String.eqb_spec (Cell.source c) "") as [->|Hne].
    + reflexivity.
    + pose proof (join_splitlines_go (Cell.source c) None Hunix) as Hjoin.
      unfold Str.splitlines. destruct (Str.endswith _ _).
      * exact Hjoin.
      * rewrite app_nil_r in Hjoin. exact Hjoin.
Qed.

(** X2.  [cell_source] never returns an empty list, whatever the line
    boundaries of the source: an empty source has the one line [''], and a
    source that ends with a line feed has the empty line as its last
    line. *)
Theorem cell_source_has_a_line (cell : loc) (c : Cell.t) (s : store) :
  cells s !! cell = Some c ->
  exists line lines,
    cell_source cell s = (Ok (lines ++ [line]), s) /\
    (Cell.source c = "" -> lines = [] /\ line = "") /\
    (Str.endswith (Cell.source c) newline = true -> line = "").
Proof.
  intros Hc.
  destruct (exists_last (source_lines_nonempty (Cell.source c))) as (lines & line & E).
  exists line, lines. split; [|split].
  - unfold cell_source. run_store. rewrite E. reflexivity.
  - intros Hempty. rewrite Hempty in E. cbn in E.
    destruct lines as [|x [|y lines]]; try discriminate.
    inversion E. split; reflexivity.
  - intros Hend. unfold source_lines in E. rewrite Hend in E.
    destruct (String.eqb (Cell.source c) "").
    + destruct lines as [|x [|y lines]]; try discriminate. inversion E. reflexivity.
    + apply app_inj_tail in E as [_ E]. symmetry. exact E.
Qed.

End SourceLines.

Lemma cell_source_joins_back_witness :
  exists lines,
    cell_source 1%positive
      (one_cell code ("x = 1" +:+ newline +:+ newline +:+ "y = 2" +:+ newline) []
         (fmt_of ".py"))
    = (Ok lines,
       one_cell code ("x = 1" +:+ newline +:+ newline +:+ "y = 2" +:+ newline) []
         (fmt_of ".py")) /\
    Str.join newline lines = "x = 1" +:+ newline +:+ newline +:+ "y = 2" +:+ newline.
Proof.
  apply (cell_source_joins_back 1%positive
           (Cell.Make code ("x = 1" +:+ newline +:+ newline +:+ "y = 2" +:+ newline)
              2%positive)
           (one_cell code ("x = 1" +:+ newline +:+ newline +:+ "y = 2" +:+ newline) []
              (fmt_of ".py")));
    reflexivity.
Defined.

Lemma cell_source_has_a_line_witness :
  exists line lines,
    cell_source 1%positive (one_cell code ("x = 1" +:+ newline) [] (fmt_of ".py"))
    = (Ok (lines ++ [line]), one_cell code ("x = 1" +:+ newline) [] (fmt_of ".py")) /\
    line = "".
Proof.
  destruct (cell_source_has_a_line 1%positive
              (Cell.Make code ("x = 1" +:+ newline) 2%positive)
              (one_cell code ("x = 1" +:+ newline) [] (fmt_of ".py")) eq_refl)
    as (line & lines & Hrun & _ & Hend).
  exists line, lines. split; [exact Hrun | apply Hend; reflexivity].
Defined.

(** * Which cells are code cells *)

Section CodeCells.
Context `{Collaborators}.

Lemma dict_set_set (d : dict) (k : string) (v : json) :
  dict_set (dict_set d k v) k v = dict_set d k v.
Proof.
  induction d as [|[k' w] d IH]; cbn.
  - rewrite String.eqb_refl. reflexivity.
  - destruct (String.eqb k' k) eqn:E; cbn; rewrite E; [reflexivity|].
    rewrite IH. reflexivity.
Qed.

Lemma dict_mem_set_eq (d : dict) (k : string) (v : json) :
  dict_mem (dict_set d k v) k = true.
Proof. unfold dict_mem. rewrite dict_get_set_eq. reflexivity. Qed.

(** X3.  Asking [is_code] twice gives the same answer and the same metadata
    as asking once, for every class.  The source is not stable for the
    markdown cells that a light script treats as code: each call comments
    the lines once more. *)
Theorem is_code_is_stable (self : exporter) :
  fst (is_code (snd (is_code self))) = fst (is_code self) /\
  metadata (snd (is_code (snd (is_code self)))) = metadata (snd (is_code self)) /\
  (cell_type self = markdown -> fst (is_code self) = true ->
   source (snd (is_code (snd (is_code self))))
   = comment_lines (comment_lines (source self) (comment self)) (comment self)).
Proof.
  unfold is_code, BaseCellExporter_is_code.
  destruct (class_of self) eqn:Hclass, (cell_type self) eqn:Hkind;
    cbn [cell_type_eqb andb fst snd]; fields; rewrite ?Hclass, ?Hkind;
    cbn [cell_type_eqb andb fst snd];
    try (split; [reflexivity|split; [reflexivity|]]; intros; try discriminate;
         destruct (dict_mem _ _); reflexivity || discriminate).
  all: destruct (dict_nonempty (metadata self)) eqn:Hmeta;
    cbn [fst snd]; fields; rewrite ?Hclass, ?Hkind; cbn [cell_type_eqb andb fst snd];
    rewrite ?dict_set_nonempty, ?Hmeta; cbn [fst snd]; fields;
    (split; [reflexivity|split; [|intros; reflexivity || discriminate]]).
  all: first [apply dict_set_set | reflexivity].
Qed.

(** The base constructor gives every raw cell the key [active]. *)
Lemma base_exporter_raw_active (d : dialect) (sf : option loc) (c : Cell.t)
    (md : dict) (f : Fmt.t) (dl : option string) (self0 : exporter) :
  base_exporter d sf c md f dl = Ok self0 ->
  Cell.cell_type c = raw ->
  dict_mem (metadata self0) "active" = true.
Proof.
  unfold base_exporter. destruct (detected d c) as [[found magic_args] src].
  destruct (base_metadata _ _ _ _) as [m|e]; [|discriminate].
  intros E Hraw. inversion E; subst self0. cbn [metadata]. rewrite Hraw.
  cbn [cell_type_eqb andb]. destruct (dict_mem m "active") eqn:Hm; cbn [negb].
  - exact Hm.
  - apply dict_mem_set_eq.
Qed.

(** X4.  After construction, [is_code] answers [True] for every code cell
    and every raw cell, which always has the key [active] by then; for a
    markdown cell it answers [True] only in a light script and only when the
    metadata of the exporter is not empty. *)
Theorem cells_that_are_code (d : dialect) (cell : loc) (dl : option string)
    (given_fmt : option loc) (s s' : store) (self : exporter) (c : Cell.t) :
  init d cell dl given_fmt s = (Ok self, s') ->
  cells s !! cell = Some c ->
  fst (is_code self) =
    match Cell.cell_type c with
    | markdown => light d && dict_nonempty (metadata self)
    | _ => true
    end /\
  (Cell.cell_type c = raw -> dict_mem (metadata self) "active" = true).
Proof.
  intros Hinit Hc.
  destruct (init_inv _ _ _ _ _ _ _ Hinit)
    as (c' & md & f & self0 & Hc' & Hmd & Hf & Hb & _ & Hext & _).
  rewrite Hc in Hc'. inversion Hc'; subst c'.
  destruct (base_exporter_fields _ _ _ _ _ _ _ Hb) as (Hclass0 & _ & _ & Htype0 & _).
  destruct Hext as (Hclass & _ & Htype & _ & _ & _ & _ & _ & _ & _ & Hkeys & _).
  assert (Cell.cell_type c = raw -> dict_mem (metadata self) "active" = true) as Hraw.
  { intros Hkind. unfold dict_mem. rewrite Hkeys by discriminate.
    exact (base_exporter_raw_active _ _ _ _ _ _ _ Hb Hkind). }
  split; [|exact Hraw].
  rewrite Hclass0 in Hclass. rewrite Htype0 in Htype.
  unfold is_code, BaseCellExporter_is_code. rewrite Hclass, Htype.
  destruct (Cell.cell_type c) eqn:Hkind; cbn [cell_type_eqb andb].
  - destruct d; reflexivity.
  - destruct d; cbn [light andb]; try reflexivity;
      destruct (dict_nonempty (metadata self)); reflexivity.
  - rewrite (Hraw eq_refl). destruct d; reflexivity.
Qed.

End CodeCells.

Lemma cells_that_are_code_witness :
  fst (is_code (H:=Ref.collaborators)
         (exporter_of LightScriptCellExporter ".py" "#" raw ["<b>bold</b>"]
            [("active", JStr "")] "python" None None))
  = match Cell.cell_type (Cell.Make raw "<b>bold</b>" 2%positive) with
    | markdown =>
        light LightScriptCellExporter
        && dict_nonempty
             (metadata (exporter_of LightScriptCellExporter ".py" "#" raw ["<b>bold</b>"]
                          [("active", JStr "")] "python" None None))
    | _ => true
    end /\
  (Cell.cell_type (Cell.Make raw "<b>bold</b>" 2%positive) = raw ->
   dict_mem
     (metadata (exporter_of LightScriptCellExporter ".py" "#" raw ["<b>bold</b>"]
                  [("active", JStr "")] "python" None None)) "active" = true).
Proof.
  apply (cells_that_are_code (H:=Ref.collaborators) LightScriptCellExporter 1%positive
           (Some "python") (Some 3%positive)
           (one_cell raw "<b>bold</b>" [] (fmt_of ".py"))
           (one_cell raw "<b>bold</b>" [] (fmt_of ".py"))
           (exporter_of LightScriptCellExporter ".py" "#" raw ["<b>bold</b>"]
              [("active", JStr "")] "python" None None)
           (Cell.Make raw "<b>bold</b>" 2%positive));
    reflexivity.
Defined.

(** * What an export writes in the store *)

Section Unchanged.
Context `{Collaborators}.

Lemma unchanged_ret {A} (a : A) : unchanged (mret a : M A).
Proof. intros s. reflexivity. Qed.

Lemma unchanged_raise {A} (e : exn) : unchanged (raise (A:=A) e).
Proof. intros s. reflexivity. Qed.

Lemma unchanged_lift {A} (r : result A) : unchanged (lift r).
Proof. intros s. reflexivity. Qed.

Lemma unchanged_bind {A B} (m : M A) (k : A -> M B) :
  unchanged m -> (forall a, unchanged (k a)) -> unchanged (m ≫= k).
Proof.
  intros Hm Hk s. rewrite bind_run. specialize (Hm s).
  destruct (m s) as [[a|e] s1]; cbn [snd] in *; subst s1; [apply Hk | reflexivity].
Qed.

Lemma unchanged_get_cell (l : loc) : unchanged (get_cell l).
Proof. intros s. unfold get_cell. destruct (cells s !! l); reflexivity. Qed.

Lemma unchanged_get_dict (l : loc) : unchanged (get_dict l).
Proof. intros s. unfold get_dict. destruct (dicts s !! l); reflexivity. Qed.

Lemma unchanged_get_fmt (l : option loc) : unchanged (get_fmt l).
Proof.
  intros s. unfold get_fmt. destruct l as [l|]; [|reflexivity].
  destruct (fmts s !! l); reflexivity.
Qed.

End Unchanged.

Ltac still :=
  repeat first
    [ apply unchanged_ret
    | apply unchanged_raise
    | apply unchanged_lift
    | apply unchanged_get_cell
    | apply unchanged_get_dict
    | apply unchanged_get_fmt
    | apply unchanged_bind; [|intros ?]
    | progress cbv zeta
    | match goal with
      | |- unchanged (match ?x with _ => _ end) => destruct x
      | |- unchanged (if ?b then _ else _) => destruct b
      | |- unchanged (let (_, _) := ?x in _) => destruct x
      end ].

Section StoreOfMethods.
Context `{Collaborators}.

Lemma unchanged_BaseCellExporter_init d cell dl gf :
  unchanged (BaseCellExporter_init d cell dl gf).
Proof. unfold BaseCellExporter_init, cell_source. still. Qed.

Lemma unchanged_explicit_start_marker self src :
  unchanged (explicit_start_marker self src).
Proof. unfold explicit_start_marker. still. Qed.

Lemma unchanged_code_to_text self : unchanged (code_to_text self).
Proof.
  unfold code_to_text, MarkdownCellExporter_code_to_text,
    RMarkdownCellExporter_code_to_text, LightScriptCellExporter_code_to_text,
    RScriptCellExporter_code_to_text.
  destruct (class_of self); still; apply unchanged_explicit_start_marker.
Qed.

Lemma unchanged_cell_to_text self : unchanged (cell_to_text self).
Proof.
  unfold cell_to_text, MarkdownCellExporter_cell_to_text,
    BaseCellExporter_cell_to_text, DoublePercentCellExporter_cell_to_text,
    SphinxGalleryCellExporter_cell_to_text.
  destruct (class_of self); still; try apply unchanged_code_to_text.
Qed.

Lemma unchanged_remove_eoc_marker self text next_text :
  unchanged (remove_eoc_marker self text next_text).
Proof.
  unfold remove_eoc_marker, LightScriptCellExporter_remove_eoc_marker.
  destruct (class_of self); still.
Qed.

Lemma unchanged_simplify_soc_marker self text prev_text :
  unchanged (simplify_soc_marker self text prev_text).
Proof.
  unfold simplify_soc_marker, LightScriptCellExporter_simplify_soc_marker.
  destruct (class_of self); still.
Qed.

End StoreOfMethods.

(** ** The format dict and the warnings *)

Section Silent.

Lemma silent_ret {A} (a : A) : silent (mret a : M A).
Proof. intros s. split; reflexivity. Qed.

Lemma silent_raise {A} (e : exn) : silent (raise (A:=A) e).
Proof. intros s. split; reflexivity. Qed.

Lemma silent_lift {A} (r : result A) : silent (lift r).
Proof. intros s. split; reflexivity. Qed.

Lemma silent_bind {A B} (m : M A) (k : A -> M B) :
  silent m -> (forall a, silent (k a)) -> silent (m ≫= k).
Proof.
  intros Hm Hk s. rewrite bind_run. destruct (Hm s) as [Hf Hw].
  destruct (m s) as [[a|e] s1]; cbn [snd] in *.
  - destruct (Hk a s1) as [Hf' Hw']. split; congruence.
  - split; assumption.
Qed.

Lemma silent_get_cell (l : loc) : silent (get_cell l).
Proof. intros s. unfold get_cell. destruct (cells s !! l); split; reflexivity. Qed.

Lemma silent_get_dict (l : loc) : silent (get_dict l).
Proof. intros s. unfold get_dict. destruct (dicts s !! l); split; reflexivity. Qed.

Lemma silent_get_fmt (l : option loc) : silent (get_fmt l).
Proof.
  intros s. unfold get_fmt. destruct l as [l|]; [|split; reflexivity].
  destruct (fmts s !! l); split; reflexivity.
Qed.

Lemma silent_new_dict (d : dict) : silent (Heap.new_dict d).
Proof. intros s. split; reflexivity. Qed.

Lemma silent_put_dict (l : loc) (d : dict) : silent (Heap.put_dict l d).
Proof. intros s. split; reflexivity. Qed.

End Silent.

Ltac hushed :=
  repeat first
    [ apply silent_ret
    | apply silent_raise
    | apply silent_lift
    | apply silent_get_cell
    | apply silent_get_dict
    | apply silent_get_fmt
    | apply silent_new_dict
    | apply silent_put_dict
    | apply silent_bind; [|intros ?]
    | progress cbv zeta
    | progress unfold Heap.set_item, Heap.del_item, Heap.pop_item, cell_source
    | match goal with
      | |- silent (match ?x with _ => _ end) => destruct x
      | |- silent (if ?b then _ else _) => destruct b
      | |- silent (let (_, _) := ?x in _) => destruct x
      end ].

Section FormatOfMethods.
Context `{Collaborators}.

Lemma silent_BaseCellExporter_init d cell dl gf :
  silent (Heap.BaseCellExporter_init d cell dl gf).
Proof. unfold Heap.BaseCellExporter_init. hushed. Qed.

(** [self.fmt] is the format dict of the caller, or a dict of the exporter
    when the caller gave none or an empty one. *)
Lemma BaseCellExporter_init_fmt d cell dl gf (s s1 : store) (self : Heap.exporter) :
  Heap.BaseCellExporter_init d cell dl gf s = (Ok self, s1) ->
  Heap.class_of self = d /\ (Heap.fmt self = gf \/ Heap.fmt self = None).
Proof.
  unfold Heap.BaseCellExporter_init. intros Hrun.
  repeat match type of Hrun with
  | (_ ≫= _) _ = _ => rewrite bind_run in Hrun
  | (let (_, _) := ?x in _) _ = _ => destruct x
  | match ?m ?s with _ => _ end = _ =>
      let a := fresh "a" in destruct (m s) as [[a|?] ?]; [|discriminate]
  | _ => progress cbv zeta in Hrun
  end.
  rewrite ret_run in Hrun. inversion Hrun; subst self. cbn [Heap.class_of Heap.fmt].
  split; [reflexivity|]. destruct (Fmt.nonempty _); auto.
Qed.

Lemma silent_is_code self : silent (Heap.is_code self).
Proof.
  unfold Heap.is_code, Heap.BaseCellExporter_is_code.
  destruct (Heap.class_of self); hushed.
Qed.

Lemma silent_html_comment self l code : silent (Heap.html_comment self l code).
Proof. unfold Heap.html_comment. hushed. Qed.

Lemma silent_explicit_start_marker self src :
  silent (Heap.explicit_start_marker self src).
Proof. unfold Heap.explicit_start_marker. hushed. Qed.

Lemma silent_code_to_text self : silent (Heap.code_to_text self).
Proof.
  unfold Heap.code_to_text, Heap.MarkdownCellExporter_code_to_text,
    Heap.RMarkdownCellExporter_code_to_text, Heap.LightScriptCellExporter_code_to_text,
    Heap.RScriptCellExporter_code_to_text.
  destruct (Heap.class_of self); hushed;
    try apply silent_html_comment; try apply silent_explicit_start_marker; hushed.
Qed.

Lemma silent_cell_to_text self : silent (Heap.cell_to_text self).
Proof.
  unfold Heap.cell_to_text, Heap.MarkdownCellExporter_cell_to_text,
    Heap.BaseCellExporter_cell_to_text, Heap.DoublePercentCellExporter_cell_to_text,
    Heap.SphinxGalleryCellExporter_cell_to_text.
  destruct (Heap.class_of self); hushed;
    try apply silent_html_comment; try apply silent_code_to_text;
    try apply silent_is_code; hushed; try apply silent_code_to_text.
Qed.

Lemma silent_remove_eoc_marker self text next_text :
  silent (Heap.remove_eoc_marker self text next_text).
Proof.
  unfold Heap.remove_eoc_marker, Heap.LightScriptCellExporter_remove_eoc_marker.
  destruct (Heap.class_of self); hushed; try apply silent_is_code; hushed.
Qed.

Lemma silent_simplify_soc_marker self text prev_text :
  silent (Heap.simplify_soc_marker self text prev_text).
Proof.
  unfold Heap.simplify_soc_marker, Heap.LightScriptCellExporter_simplify_soc_marker.
  destruct (Heap.class_of self); hushed; try apply silent_is_code; hushed.
Qed.

(** The constructors of the classes that are not light scripts write neither
    a format dict nor a warning. *)
Lemma silent_setup (d : dialect) (self : Heap.exporter) :
  light d = false -> silent (Heap.setup d self).
Proof.
  intros Hd. destruct d; try discriminate; cbn [Heap.setup];
    unfold Heap.MarkdownCellExporter_setup, Heap.RMarkdownCellExporter_setup,
      Heap.RScriptCellExporter_setup, Heap.DoublePercentCellExporter_setup,
      Heap.SphinxGalleryCellExporter_setup; hushed.
Qed.

(** The constructor of a light script writes the format dict in one case
    only: it takes a value of [cell_markers] without a comma out of the dict
    and warns about it. *)
Lemma LightScriptCellExporter_setup_format (self0 : Heap.exporter) (s : store) :
  let after := snd (Heap.LightScriptCellExporter_setup self0 s) in
  (fmts after = fmts s /\ warnings after = warnings s) \/
  exists l f markers,
    Heap.fmt self0 = Some l /\ fmts s !! l = Some f /\
    Fmt.cell_markers f = Some markers /\ Str.contains "," markers = false /\
    fmts after = <[l := Fmt.without_cell_markers f]> (fmts s) /\
    warnings after = warnings s ++ [ignored_cell_markers markers].
Proof.
  cbv zeta. unfold Heap.LightScriptCellExporter_setup. rewrite bind_run.
  assert (forall (self : Heap.exporter), silent
            (unfiltered ← get_dict (Heap.unfiltered_metadata self);
             _ ← match dict_get unfiltered "endofcell" with
                 | Some v => Heap.set_item (Heap.metadata self) "endofcell" v
                 | None => mret tt
                 end;
             mret self : M Heap.exporter)) as Hrest by (intros self; hushed).
  destruct (get_fmt (Heap.fmt self0) s) as [[f|e] s1] eqn:Hf.
  2:{ left. pose proof (silent_get_fmt (Heap.fmt self0) s) as Hs.
      rewrite Hf in Hs. exact Hs. }
  assert (s1 = s) as ->.
  { unfold get_fmt in Hf. destruct (Heap.fmt self0) as [l|]; [|congruence].
    destruct (fmts s !! l); congruence. }
  destruct (Fmt.cell_markers f) as [markers|] eqn:Hmarkers.
  2:{ left. rewrite bind_run, ret_run. apply Hrest. }
  destruct (Str.contains "," markers) eqn:Hcomma; cbn [negb].
  { left. rewrite bind_run.
    destruct (negb (String.eqb markers "+,-")); [destruct (split_comma markers)|];
      rewrite ret_run; apply Hrest. }
  destruct (Heap.fmt self0) as [l|] eqn:Hl.
  - right. exists l, f, markers.
    unfold get_fmt in Hf. destruct (fmts s !! l) as [f'|] eqn:Hlook; [|discriminate].
    inversion Hf; subst f'.
    split; [reflexivity|]. split; [reflexivity|]. split; [exact Hmarkers|].
    split; [exact Hcomma|].
    rewrite !bind_run, set_fmt_run. cbv beta iota.
    rewrite bind_run, warn_run. cbv beta iota. rewrite ret_run. cbv beta iota.
    match goal with
    | |- context [snd (?m ?s2)] =>
        destruct (Hrest self0 s2) as [Hfmts Hwarnings];
        change (snd (m s2)) with (snd (m s2)) in *;
        rewrite Hfmts, Hwarnings
    end.
    split; reflexivity.
  - cbn in Hf. inversion Hf; subst f. discriminate.
Qed.

(** X5.  The calls for one cell keep the cells and the dicts of the caller,
    and write the format dicts and the warnings in one case only: the
    constructor of a light script that is given a format whose [cell_markers]
    holds no comma takes that key out of the format dict and issues one
    warning, which quotes the value.  In every other case, for every class,
    and whether the calls return or raise, the format dicts and the warnings
    are left as they were. *)
Theorem exporting_writes_the_format_only (d : dialect) (cell : loc)
    (dl : option string) (given_fmt : option loc) (next_text prev_text : list string)
    (s : store) :
  let after := snd (Heap.cell_text d cell dl given_fmt next_text prev_text s) in
  cells after = cells s /\
  (forall (l : loc) (md : dict), dicts s !! l = Some md -> dicts after !! l = Some md) /\
  ((fmts after = fmts s /\ warnings after = warnings s) \/
   exists l f markers,
     light d = true /\ given_fmt = Some l /\ fmts s !! l = Some f /\
     Fmt.cell_markers f = Some markers /\ Str.contains "," markers = false /\
     fmts after = <[l := Fmt.without_cell_markers f]> (fmts s) /\
     warnings after
     = warnings s ++ ["Ignored cell markers '" +:+ markers
                        +:+ "' as it does not match the expected 'start,end' pattern"]).
Proof.
  intros after.
  destruct (safe_cell_text s d cell dl given_fmt next_text prev_text s (keeps_refl s))
    as [[Hcells Hdicts] _].
  split; [exact Hcells|]. split; [exact Hdicts|]. clear Hcells Hdicts.
  assert (forall self : Heap.exporter, silent
            ('(text, self) ← Heap.cell_to_text self;
             '(text, self) ← Heap.remove_eoc_marker self text next_text;
             '(text, self) ← Heap.simplify_soc_marker self text prev_text;
             mret (text, self) : M (list string * Heap.exporter))) as Hrest.
  { intros self. apply silent_bind; [apply silent_cell_to_text|]. intros [t1 s1].
    apply silent_bind; [apply silent_remove_eoc_marker|]. intros [t2 s2].
    apply silent_bind; [apply silent_simplify_soc_marker|]. intros [t3 s3].
    apply silent_ret. }
  subst after. unfold Heap.cell_text, Heap.init. rewrite !bind_run.
  destruct (silent_BaseCellExporter_init d cell dl given_fmt s) as [Hf0 Hw0].
  destruct (Heap.BaseCellExporter_init d cell dl given_fmt s) as [[self0|e] s1] eqn:Hinit;
    cbn [snd] in Hf0, Hw0; [|left; split; assumption].
  destruct (BaseCellExporter_init_fmt _ _ _ _ _ _ _ Hinit) as [Hclass Hfmt].
  destruct (light d) eqn:Hd.
  - assert (Heap.setup d self0 = Heap.LightScriptCellExporter_setup self0) as ->
      by (destruct d; try discriminate; reflexivity).
    destruct (LightScriptCellExporter_setup_format self0 s1)
      as [[Hf1 Hw1]|(l & f & markers & Hl & Hf & Hmarkers & Hcomma & Hf1 & Hw1)].
    + left. destruct (Heap.LightScriptCellExporter_setup self0 s1) as [[self|e] s2];
        cbn [snd] in Hf1, Hw1.
      * destruct (Hrest self s2) as [Hf2 Hw2]. split; congruence.
      * cbn [snd]. split; congruence.
    + right. exists l, f, markers. split; [reflexivity|].
      split; [destruct Hfmt; congruence|]. split; [congruence|].
      split; [exact Hmarkers|]. split; [exact Hcomma|].
      destruct (Heap.LightScriptCellExporter_setup self0 s1) as [[self|e] s2];
        cbn [snd] in Hf1, Hw1.
      * destruct (Hrest self s2) as [Hf2 Hw2]. rewrite Hf2, Hw2, Hf1, Hw1, Hf0, Hw0.
        split; reflexivity.
      * cbn [snd]. rewrite Hf1, Hw1, Hf0, Hw0. split; reflexivity.
  - left. destruct (silent_setup d self0 Hd s1) as [Hf1 Hw1].
    destruct (Heap.setup d self0 s1) as [[self|e] s2]; cbn [snd] in Hf1, Hw1.
    + destruct (Hrest self s2) as [Hf2 Hw2]. split; congruence.
    + cbn [snd]. split; congruence.
Qed.

End FormatOfMethods.

(** * The exceptions of an export *)

Section Raises.
Context `{Collaborators}.

Lemma never_ret {A} (a : A) : never_raises unexpected (mret a : M A).
Proof. intros s. exact I. Qed.

Lemma never_raise {A} (e : exn) :
  unexpected e = false -> never_raises unexpected (raise (A:=A) e).
Proof. intros He s. exact He. Qed.

Lemma never_lift {A} (r : result A) :
  quiet unexpected r -> never_raises unexpected (lift r).
Proof. intros Hr s. exact Hr. Qed.

Lemma quiet_bind {A B} (m : M A) (k : A -> M B) (s : store) :
  quiet unexpected (fst (m s)) ->
  (forall a s1, m s = (Ok a, s1) -> quiet unexpected (fst (k a s1))) ->
  quiet unexpected (fst ((m ≫= k) s)).
Proof.
  intros Hm Hk. rewrite bind_run.
  destruct (m s) as [[a|e] s1]; [apply Hk; reflexivity | exact Hm].
Qed.

Lemma never_bind {A B} (m : M A) (k : A -> M B) :
  never_raises unexpected m -> (forall a, never_raises unexpected (k a)) ->
  never_raises unexpected (m ≫= k).
Proof. intros Hm Hk s. apply quiet_bind; [apply Hm | intros a s1 _; apply Hk]. Qed.

Lemma never_get_cell (l : loc) : never_raises unexpected (get_cell l).
Proof. intros s. unfold get_cell. destruct (cells s !! l); [exact I | reflexivity]. Qed.

Lemma never_get_dict (l : loc) : never_raises unexpected (get_dict l).
Proof. intros s. unfold get_dict. destruct (dicts s !! l); [exact I | reflexivity]. Qed.

Lemma never_get_fmt (l : option loc) : never_raises unexpected (get_fmt l).
Proof.
  intros s. unfold get_fmt. destruct l as [l|]; [|exact I].
  destruct (fmts s !! l); [exact I | reflexivity].
Qed.

Lemma never_set_fmt (l : loc) (f : Fmt.t) : never_raises unexpected (set_fmt l f).
Proof. intros s. exact I. Qed.

Lemma never_warn (msg : string) : never_raises unexpected (warn msg).
Proof. intros s. exact I. Qed.

(** The loop of [endofcell_marker] raises nothing but the error of
    [re.compile], or meets a pattern outside the fragment. *)
Lemma endofcell_marker_loop_raises (fuel : nat) (src : list string)
    (comment_string : string) : forall token e,
  endofcell_marker_loop fuel src comment_string token = Raised e ->
  e = ReError \/ e = Unmodelled.
Proof.
  induction fuel as [|fuel IH]; intros token e; cbn [endofcell_marker_loop];
    [discriminate|].
  destruct (endofcell_re comment_string token) as [r| |];
    [|intros E; inversion E; auto..].
  destruct (existsb _ _); [apply IH | discriminate].
Qed.

Lemma quiet_endofcell_token (src : list string) (comment_string : string) :
  quiet unexpected (endofcell_token src comment_string).
Proof.
  unfold endofcell_token, endofcell_marker.
  destruct (endofcell_marker_loop _ _ _ _) as [token|e|] eqn:E; cbn; try reflexivity.
  apply endofcell_marker_loop_raises in E. destruct E; subst e; reflexivity.
Qed.

Lemma quiet_html_comment (self : exporter) (md : dict) (kind : string) :
  quiet unexpected (html_comment self md kind).
Proof.
  unfold html_comment, without_brace, as_text.
  destruct (dict_nonempty md); [|exact I].
  destruct (dict_get md "title") as [[]|]; cbn; try reflexivity;
    repeat match goal with
           | |- context [if ?b then _ else _] => destruct b
           end; cbn; reflexivity.
Qed.

End Raises.

Ltac quiet_result :=
  first
    [ apply quiet_endofcell_token
    | apply quiet_html_comment
    | unfold quiet, first_line, last_line, as_text, as_count, as_line, format_str,
        marker_text, compile, ext_endswith;
      repeat match goal with
             | |- context [match ?x with _ => _ end] =>
                 lazymatch x with
                 | context [match _ with _ => _ end] => fail
                 | _ => destruct x
                 end
             end;
      first [exact I | reflexivity] ].

Ltac quietly :=
  repeat first
    [ apply never_ret
    | apply never_raise; reflexivity
    | apply never_lift; quiet_result
    | apply never_get_cell
    | apply never_get_dict
    | apply never_get_fmt
    | apply never_set_fmt
    | apply never_warn
    | apply never_bind; [|intros ?]
    | progress cbv zeta
    | match goal with
      | |- never_raises _ (match ?x with _ => _ end) => destruct x
      | |- never_raises _ (if ?b then _ else _) => destruct b
      | |- never_raises _ (let (_, _) := ?x in _) => destruct x
      end ].

Section RaisesOfMethods.
Context `{Collaborators}.

Lemma never_BaseCellExporter_init d cell dl gf :
  never_raises unexpected (BaseCellExporter_init d cell dl gf).
Proof. unfold BaseCellExporter_init, cell_source. quietly. Qed.

Lemma never_init d cell dl gf : never_raises unexpected (init d cell dl gf).
Proof.
  destruct d; cbn [init];
    unfold RMarkdownCellExporter_init, MarkdownCellExporter_init,
      LightScriptCellExporter_init, RScriptCellExporter_init,
      DoublePercentCellExporter_init, SphinxGalleryCellExporter_init,
      MarkdownCellExporter_setup, RMarkdownCellExporter_setup,
      LightScriptCellExporter_setup, RScriptCellExporter_setup,
      DoublePercentCellExporter_setup, SphinxGalleryCellExporter_setup;
    repeat (apply never_bind; [try apply never_BaseCellExporter_init|intros ?]);
    quietly.
Qed.

Lemma never_explicit_start_marker self src :
  never_raises unexpected (explicit_start_marker self src).
Proof. unfold explicit_start_marker. quietly. Qed.

Lemma quiet_never {A} (m : M A) (s : store) :
  never_raises unexpected m -> quiet unexpected (fst (m s)).
Proof. intros Hm. apply Hm. Qed.

(** The key [endofcell] is in the metadata whenever [code_to_text] reads
    it: the metadata is not empty there, and [explicit_start_marker], which
    answers [True] for metadata that is not empty, has had the key set. *)
Lemma never_LightScriptCellExporter_code_to_text self :
  never_raises unexpected (LightScriptCellExporter_code_to_text self).
Proof.
  unfold LightScriptCellExporter_code_to_text. cbv zeta.
  match goal with
  | |- never_raises _ (explicit_start_marker _ ?x ≫= _) => generalize x; intros src
  end.
  intros s. apply quiet_bind; [apply never_explicit_start_marker|].
  intros explicit s1 Hexplicit. destruct explicit.
  - apply quiet_bind.
    { apply quiet_never. quietly. }
    intros self1 s2 Hself1.
    assert (dict_get (metadata self1) "endofcell" <> None) as Hkey.
    { rewrite bind_run in Hself1.
      match type of Hself1 with
      | context [?m s1] => destruct (m s1) as [[token|e] s3]; [|discriminate]
      end.
      rewrite ret_run in Hself1. inversion Hself1; subst self1. fields.
      rewrite dict_get_set_eq. discriminate. }
    destruct (negb (dict_nonempty (metadata self1))
              || negb (use_cell_markers (class_of self1))); [exact I|].
    destruct (dict_get (metadata self1) "endofcell") as [v|]; [|congruence].
    apply quiet_never. quietly.
  - rewrite bind_run, ret_run. cbv beta iota.
    destruct (dict_nonempty (metadata self)) eqn:Hmeta; [|exact I].
    destruct (use_cell_markers (class_of self)) eqn:Huse; [|exact I].
    rewrite (explicit_start_marker_metadata self src Huse Hmeta) in Hexplicit.
    discriminate.
Qed.

Lemma is_code_class (self : exporter) : class_of (snd (is_code self)) = class_of self.
Proof.
  unfold is_code. destruct (class_of self) eqn:E; try exact E;
    destruct (_ && _); exact E.
Qed.

(** [code_to_text], for the classes that define it. *)
Lemma never_code_to_text self :
  match class_of self with
  | DoublePercentCellExporter | HydrogenCellExporter | SphinxGalleryCellExporter => False
  | _ => True
  end ->
  never_raises unexpected (code_to_text self).
Proof.
  unfold code_to_text. destruct (class_of self); intros Hclass; try contradiction;
    try apply never_LightScriptCellExporter_code_to_text;
    unfold MarkdownCellExporter_code_to_text, RMarkdownCellExporter_code_to_text,
      RScriptCellExporter_code_to_text; quietly.
Qed.

Lemma never_cell_to_text self : never_raises unexpected (cell_to_text self).
Proof.
  unfold cell_to_text.
  destruct (class_of self) eqn:Hclass;
    unfold MarkdownCellExporter_cell_to_text, BaseCellExporter_cell_to_text,
      DoublePercentCellExporter_cell_to_text, SphinxGalleryCellExporter_cell_to_text.
  1, 2: quietly; apply never_code_to_text; rewrite Hclass; exact I.
  1, 2, 3: pose proof (is_code_class self) as Hsame;
    destruct (is_code self) as [code_cell self1]; cbn [snd] in Hsame;
    destruct code_cell; [|quietly];
    apply never_code_to_text; rewrite Hsame, Hclass; exact I.
  all: quietly.
Qed.

Lemma never_remove_eoc_marker self text next_text :
  never_raises unexpected (remove_eoc_marker self text next_text).
Proof.
  unfold remove_eoc_marker, LightScriptCellExporter_remove_eoc_marker.
  destruct (class_of self); quietly.
Qed.

Lemma never_simplify_soc_marker self text prev_text :
  never_raises unexpected (simplify_soc_marker self text prev_text).
Proof.
  unfold simplify_soc_marker, LightScriptCellExporter_simplify_soc_marker.
  destruct (class_of self); quietly.
Qed.

Lemma never_cell_text d cell dl gf next_text prev_text :
  never_raises unexpected (cell_text d cell dl gf next_text prev_text).
Proof.
  unfold cell_text.
  apply never_bind; [apply never_init|]. intros self.
  apply never_bind; [apply never_cell_to_text|]. intros [text self1].
  apply never_bind; [apply never_remove_eoc_marker|]. intros [text1 self2].
  apply never_bind; [apply never_simplify_soc_marker|]. intros [text2 self3].
  apply never_ret.
Qed.

(** X6.  The calls for one cell raise neither [KeyError] nor
    [NotImplementedError], for every class, cell and format: every key that
    the exporters read with [d[key]] is in the dict when it is read (for
    [self.metadata['endofcell']], because the metadata is only read when it
    is not empty, and [explicit_start_marker] has then had the key set), and
    the classes that do not define [code_to_text] define a [cell_to_text]
    that does not call it. *)
Theorem exporting_finds_its_keys_and_methods (d : dialect) (cell : loc)
    (dl : option string) (given_fmt : option loc) (next_text prev_text : list string)
    (s s' : store) :
  (forall key, cell_text d cell dl given_fmt next_text prev_text s
               <> (Err (KeyError key), s')) /\
  (forall msg, cell_text d cell dl given_fmt next_text prev_text s
               <> (Err (NotImplementedError msg), s')).
Proof.
  pose proof (never_cell_text d cell dl given_fmt next_text prev_text s) as Hquiet.
  split; intros x E; rewrite E in Hquiet; discriminate.
Qed.

End RaisesOfMethods.

(** * The markers of a light script *)

Section LightMarkers.
Context `{Collaborators}.

(** X7.  A script without cell markers ([BareScriptCellExporter]) writes a
    code cell as the lines of its rendered source and nothing else: no
    start marker, no end marker, and none of the metadata, which the
    exporter leaves as it was. *)
Theorem bare_scripts_write_the_source_only (self : exporter) (s : store) :
  class_of self = BareScriptCellExporter ->
  cell_type self = code ->
  cell_to_text self s = (Ok (rendered_source self, self), s).
Proof.
  intros Hclass Hcode. unfold cell_to_text, BaseCellExporter_cell_to_text.
  rewrite Hclass, (is_code_code self Hcode). cbv beta iota.
  unfold code_to_text. rewrite Hclass.
  unfold LightScriptCellExporter_code_to_text. cbv zeta.
  rewrite rendered_source_eq.
  unfold explicit_start_marker. rewrite Hclass. cbn [use_cell_markers negb].
  run_store. rewrite Hclass. cbn [use_cell_markers negb].
  rewrite orb_true_r. run_store. reflexivity.
Qed.

(** A key that is set in a dict that did not hold it, and deleted again,
    leaves the dict as it was. *)
Lemma dict_del_set_fresh (d : dict) (k : string) (v : json) :
  dict_get d k = None -> dict_del (dict_set d k v) k = d.
Proof.
  induction d as [|[k' w] d IH]; cbn; intros Hget.
  - rewrite String.eqb_refl. reflexivity.
  - destruct (String.eqb k' k) eqn:E; [discriminate|]. cbn. rewrite E.
    rewrite (IH Hget). reflexivity.
Qed.

(** The first free token is [-] when no line is the end-marker line of
    [-]. *)
Lemma endofcell_token_single (src : list string) (comment_string : string) :
  Re.plain comment_string = true ->
  Forall (fun line => is_endofcell_line comment_string "-" line = false) src ->
  endofcell_token src comment_string = Ok "-".
Proof.
  intros Hplain Hfree.
  destruct (endofcell_marker_first_free_token src comment_string Hplain)
    as (n & Hret & _ & Hfirst & _).
  unfold endofcell_token. rewrite Hret. destruct n as [|n]; [reflexivity|].
  exfalso. specialize (Hfirst 0 ltac:(lia)).
  apply Exists_exists in Hfirst as (line & Hin & Hline).
  rewrite Forall_forall in Hfree. specialize (Hfree line Hin).
  change (dashes 1) with "-" in Hline. congruence.
Qed.

(** The text of a cell that needs an explicit start marker and none of
    whose rendered lines is the end-marker line of [-]. *)
Lemma code_to_text_default_markers (self : exporter) (s : store) :
  class_of self = LightScriptCellExporter ->
  cell_marker_start self = None ->
  cell_marker_end self = None ->
  Re.plain (comment self) = true ->
  Forall (fun line => is_endofcell_line (comment self) "-" line = false)
    (rendered_source self) ->
  explicit_start_marker self (rendered_source self) s = (Ok true, s) ->
  let options := dict_del (dict_set (metadata self) "endofcell" (JStr "-")) "endofcell" in
  code_to_text self s =
    (Ok (Str.join " " [comment self; "+"; metadata_to_json_options options]
           :: rendered_source self ++ [comment self +:+ " -"],
         set_metadata self options), s).
Proof.
  intros Hclass Hstart Hend Hplain Hfree Hexplicit. cbv zeta.
  unfold code_to_text. rewrite Hclass.
  unfold LightScriptCellExporter_code_to_text. cbv zeta.
  rewrite rendered_source_eq.
  rewrite bind_run, Hexplicit. cbv beta iota.
  rewrite Hend. cbn [str_truthy]. run_store.
  rewrite (endofcell_token_single _ _ Hplain Hfree). run_store.
  fields. rewrite dict_set_nonempty, Hclass. cbn [negb orb use_cell_markers].
  rewrite dict_get_set_eq. run_store. cbn [is_str String.eqb Ascii.eqb Bool.eqb].
  cbn [orb]. cbv iota. fields. rewrite Hstart.
  cbn [str_truthy orb negb]. cbv zeta. run_store.
  cbn [format_str]. run_store. reflexivity.
Qed.

(** X8.  A cell of a light script with the default markers that needs an
    explicit start marker, and none of whose rendered lines is the end-marker
    line of [-], is written between the start line of the comment string,
    [+] and the metadata, and the end line of the comment string and [-];
    the token [-] is the default and is not written in the metadata.  When
    the metadata did not hold [endofcell] the exporter is left as it
    was. *)
Theorem default_end_marker_is_not_recorded (self : exporter) (s : store) :
  class_of self = LightScriptCellExporter ->
  cell_marker_start self = None ->
  cell_marker_end self = None ->
  Re.plain (comment self) = true ->
  Forall (fun line => is_endofcell_line (comment self) "-" line = false)
    (rendered_source self) ->
  explicit_start_marker self (rendered_source self) s = (Ok true, s) ->
  let options := dict_del (dict_set (metadata self) "endofcell" (JStr "-")) "endofcell" in
  code_to_text self s =
    (Ok (Str.join " " [comment self; "+"; metadata_to_json_options options]
           :: rendered_source self ++ [comment self +:+ " -"],
         set_metadata self options), s) /\
  (dict_get (metadata self) "endofcell" = None ->
   options = metadata self /\ set_metadata self options = self).
Proof.
  intros Hclass Hstart Hend Hplain Hfree Hexplicit. cbv zeta. split.
  - apply code_to_text_default_markers; assumption.
  - intros Hfresh. rewrite (dict_del_set_fresh _ _ _ Hfresh).
    split; [reflexivity | destruct self; reflexivity].
Qed.

(** X9.  [code_to_text] of a [LightScriptCellExporter] with no custom cell
    markers, whose comment string holds no regular-expression operator,
    whose metadata is empty, all of whose source lines start with the comment
    string and none of whose rendered lines is an end-marker line for [-],
    writes the cell between explicit markers, so that the text does not read
    as a markdown cell: the start line of the comment string and [+] with the
    options of the empty dict, the rendered source, and the end line of the
    comment string and [-]; the exporter is left as it was. *)
Theorem comment_only_cells_get_markers (self : exporter) (s : store) :
  class_of self = LightScriptCellExporter ->
  metadata self = [] ->
  cell_marker_start self = None ->
  cell_marker_end self = None ->
  Re.plain (comment self) = true ->
  all_startwith (source self) (comment self) = true ->
  Forall (fun line => is_endofcell_line (comment self) "-" line = false)
    (rendered_source self) ->
  code_to_text self s =
    (Ok (Str.join " " [comment self; "+"; metadata_to_json_options []]
           :: rendered_source self ++ [comment self +:+ " -"],
         self), s).
Proof.
  intros Hclass Hmeta Hstart Hend Hplain Hcomments Hfree.
  assert (explicit_start_marker self (rendered_source self) s = (Ok true, s))
    as Hexplicit.
  { unfold explicit_start_marker.
    rewrite Hclass, Hmeta, Hstart, Hcomments. reflexivity. }
  rewrite (code_to_text_default_markers self s Hclass Hstart Hend Hplain Hfree Hexplicit).
  rewrite Hmeta. cbn [dict_set dict_del String.eqb Ascii.eqb Bool.eqb].
  rewrite <- Hmeta. destruct self; reflexivity.
Qed.

(** X10.  A markdown cell that a script does not treat as code (in a light
    script, one without metadata) is written as its source commented by
    [comment_lines], and the exporter is left as it was.  Magic commands in
    its lines are escaped first, except in an R script, whose comment string
    is [#']. *)
Theorem markdown_cells_of_scripts_are_commented (self : exporter) (s : store) :
  match class_of self with
  | LightScriptCellExporter | BareScriptCellExporter =>
      dict_nonempty (metadata self) = false
  | RScriptCellExporter => True
  | _ => False
  end ->
  cell_type self = markdown ->
  comment self <> "" ->
  cell_to_text self s =
    (Ok (comment_lines
           (if String.eqb (comment self) "#'" then source self
            else comment_magic (source self) (language self) (comment_magics self))
           (comment self),
         self), s).
Proof.
  intros Hclass Hkind Hcomment.
  assert (String.eqb (comment self) "" = false) as Hne
    by (destruct (String.eqb_spec (comment self) ""); [contradiction | reflexivity]).
  unfold cell_to_text, BaseCellExporter_cell_to_text, is_code, BaseCellExporter_is_code.
  destruct (class_of self); try contradiction;
    rewrite ?Hclass, Hkind; cbn [cell_type_eqb andb];
    rewrite Hne; unfold markdown_to_text; rewrite Hne; cbn [negb andb];
    destruct (String.eqb (comment self) "#'"); reflexivity.
Qed.

End LightMarkers.

Lemma bare_scripts_write_the_source_only_witness :
  cell_to_text (H:=Ref.collaborators)
    (exporter_of BareScriptCellExporter ".py" "#" code ["x = 1"; ""; "y = 2"]
       [("tags", JArr [JStr "keep"])] "python" None None)
    (one_cell code "x = 1" [] (fmt_of ".py"))
  = (Ok (["x = 1"; ""; "y = 2"],
         exporter_of BareScriptCellExporter ".py" "#" code ["x = 1"; ""; "y = 2"]
           [("tags", JArr [JStr "keep"])] "python" None None),
     one_cell code "x = 1" [] (fmt_of ".py")).
Proof.
  apply (bare_scripts_write_the_source_only (H:=Ref.collaborators)
           (exporter_of BareScriptCellExporter ".py" "#" code ["x = 1"; ""; "y = 2"]
              [("tags", JArr [JStr "keep"])] "python" None None)
           (one_cell code "x = 1" [] (fmt_of ".py")));
    reflexivity.
Defined.

Lemma default_end_marker_is_not_recorded_witness :
  code_to_text (H:=Ref.collaborators)
    (exporter_of LightScriptCellExporter ".py" "#" code ["x = 1"; ""; "y = 2"]
       [] "python" None None)
    (one_cell code "x = 1" [] (fmt_of ".py"))
  = (Ok (["# + {}"; "x = 1"; ""; "y = 2"; "# -"],
         exporter_of LightScriptCellExporter ".py" "#" code ["x = 1"; ""; "y = 2"]
           [] "python" None None),
     one_cell code "x = 1" [] (fmt_of ".py")).
Proof.
  apply (proj1 (default_end_marker_is_not_recorded (H:=Ref.collaborators)
                  (exporter_of LightScriptCellExporter ".py" "#" code
                     ["x = 1"; ""; "y = 2"] [] "python" None None)
                  (one_cell code "x = 1" [] (fmt_of ".py"))
                  eq_refl eq_refl eq_refl eq_refl
                  ltac:(repeat constructor) eq_refl)).
Defined.

Lemma comment_only_cells_get_markers_witness :
  code_to_text (H:=Ref.collaborators)
    (exporter_of LightScriptCellExporter ".py" "#" code ["# only a comment"]
       [] "python" None None)
    (one_cell code "# only a comment" [] (fmt_of ".py"))
  = (Ok (["# + {}"; "# only a comment"; "# -"],
         exporter_of LightScriptCellExporter ".py" "#" code ["# only a comment"]
           [] "python" None None),
     one_cell code "# only a comment" [] (fmt_of ".py")).
Proof.
  apply (comment_only_cells_get_markers (H:=Ref.collaborators)
           (exporter_of LightScriptCellExporter ".py" "#" code ["# only a comment"]
              [] "python" None None)
           (one_cell code "# only a comment" [] (fmt_of ".py"))
           eq_refl eq_refl eq_refl eq_refl eq_refl eq_refl ltac:(repeat constructor)).
Defined.

Lemma markdown_cells_of_scripts_are_commented_witness :
  cell_to_text (H:=Ref.collaborators)
    (exporter_of RScriptCellExporter ".R" "#'" markdown ["A title"; ""; "Some text"]
       [] "R" None None)
    (one_cell markdown "A title" [] (fmt_of ".R"))
  = (Ok (["#' A title"; "#'"; "#' Some text"],
         exporter_of RScriptCellExporter ".R" "#'" markdown ["A title"; ""; "Some text"]
           [] "R" None None),
     one_cell markdown "A title" [] (fmt_of ".R")).
Proof.
  apply (markdown_cells_of_scripts_are_commented (H:=Ref.collaborators)
           (exporter_of RScriptCellExporter ".R" "#'" markdown
              ["A title"; ""; "Some text"] [] "R" None None)
           (one_cell markdown "A title" [] (fmt_of ".R")));
    [exact I | reflexivity | discriminate].
Defined.

(** * Custom markers, and the markers between two cells *)

Section CustomMarkers.
Context `{Collaborators}.

Lemma dict_get_del_ne (d : dict) (k k' : string) :
  k <> k' -> dict_get (dict_del d k) k' = dict_get d k'.
Proof.
  intros Hne. induction d as [|[k0 w] d IH]; [reflexivity|]. cbn.
  destruct (String.eqb_spec k0 k) as [->|Hk].
  - destruct (String.eqb_spec k k'); [contradiction | reflexivity].
  - cbn. rewrite IH. reflexivity.
Qed.

Lemma str_truthy_Some (a : string) : a <> "" -> str_truthy (Some a) = true.
Proof.
  intros Ha. cbn. destruct (String.eqb_spec a ""); [contradiction | reflexivity].
Qed.

(** A line that is joined from the comment string, a marker and more starts
    with the comment string, a space and the marker. *)
Lemma join_startswith (c a : string) (rest : list string) :
  Str.startswith (Str.join " " (c :: a :: rest)) (c +:+ " " +:+ a) = true.
Proof.
  rewrite join_cons by discriminate.
  destruct rest as [|b rest].
  - change (Str.join " " [a]) with a. apply startswith_self.
  - rewrite join_cons by discriminate.
    rewrite <- (append_assoc " " a), <- (append_assoc c).
    apply startswith_app.
Qed.

(** X11.  A cell of a light script with custom cell markers and metadata is
    written between a line that starts with the comment string, a space and
    the start marker, and the line of the comment string, a space and the
    end marker: no token of dashes is computed for it.  A title of the
    metadata has to be a string. *)
Theorem custom_markers_enclose_the_cell (self : exporter) (s : store)
    (marker_start marker_end : string) :
  class_of self = LightScriptCellExporter ->
  cell_marker_start self = Some marker_start -> marker_start <> "" ->
  cell_marker_end self = Some marker_end -> marker_end <> "" ->
  dict_nonempty (metadata self) = true ->
  (forall v, dict_get (metadata self) "title" = Some v -> exists t, v = JStr t) ->
  exists first self',
    code_to_text self s =
      (Ok (first :: rendered_source self ++ [comment self +:+ " " +:+ marker_end],
           self'), s) /\
    Str.startswith first (comment self +:+ " " +:+ marker_start) = true.
Proof.
  intros Hclass Hstart Hstart_ne Hend Hend_ne Hmeta Htitle.
  unfold code_to_text. rewrite Hclass.
  unfold LightScriptCellExporter_code_to_text. cbv zeta.
  rewrite rendered_source_eq.
  rewrite explicit_start_marker_metadata by (rewrite ?Hclass; auto).
  run_store. rewrite Hend, (str_truthy_Some _ Hend_ne). run_store.
  fields. rewrite dict_set_nonempty, Hclass. cbn [negb orb use_cell_markers].
  rewrite dict_get_set_eq. run_store.
  rewrite Hend, (str_truthy_Some _ Hend_ne), orb_true_r. cbv iota. fields.
  rewrite Hstart, (str_truthy_Some _ Hstart_ne). cbn [negb default]. cbv iota.
  cbv beta delta [id].
  set (options := dict_del (dict_set (metadata self) "endofcell" (JStr marker_end))
                    "endofcell").
  assert (dict_get options "title" = dict_get (metadata self) "title") as Hsame.
  { unfold options. rewrite dict_get_del_ne, dict_get_set_ne by discriminate.
    reflexivity. }
  destruct (dict_nonempty options) eqn:Hoptions.
  - rewrite Hsame. destruct (dict_get (metadata self) "title") as [v|] eqn:Hv.
    + destruct (Htitle v eq_refl) as [t ->]. run_store. cbn [as_text]. run_store.
      fields. cbn [format_str default].
      destruct (dict_nonempty (dict_del options "title")); run_store; fields;
        (eexists _, _; split; [reflexivity | apply join_startswith]).
    + run_store. fields. rewrite Hoptions. cbn [format_str default]. run_store. fields.
      eexists _, _. split; [reflexivity | apply join_startswith].
  - run_store. cbn [format_str default]. run_store. fields.
    eexists _, _. split; [reflexivity | apply join_startswith].
Qed.

End CustomMarkers.

Section BetweenCells.
Context `{Collaborators}.

Lemma is_code_comment (self : exporter) : comment (snd (is_code self)) = comment self.
Proof.
  unfold is_code. destruct (class_of self); try reflexivity;
    destruct (_ && _); reflexivity.
Qed.

(** X12.  [simplify_soc_marker] always returns, for every class, and leaves
    the store, the number of lines and every line but the first as they
    were; the first line changes in one way only, from the empty start
    marker [+ {}] after the comment string to [+]. *)
Theorem simplify_soc_marker_keeps_the_rest (self : exporter)
    (text prev_text : list string) (s : store) :
  exists text' self',
    simplify_soc_marker self text prev_text s = (Ok (text', self'), s) /\
    length text' = length text /\
    tail text' = tail text /\
    (text' = text \/
     head text = Some (comment self +:+ " + {}") /\
     head text' = Some (comment self +:+ " +")).
Proof.
  assert (forall self1 : exporter,
            exists text' self',
              (mret (text, self1) : M (list string * exporter)) s
              = (Ok (text', self'), s) /\
              length text' = length text /\ tail text' = tail text /\
              (text' = text \/
               head text = Some (comment self +:+ " + {}") /\
               head text' = Some (comment self +:+ " +"))) as Hsame.
  { intros self1. exists text, self1. repeat split; auto. }
  unfold simplify_soc_marker, LightScriptCellExporter_simplify_soc_marker.
  destruct (class_of self); try apply Hsame.
  all: destruct (str_truthy (cell_marker_start self)); [apply Hsame|].
  all: pose proof (is_code_comment self) as Hcomment.
  all: destruct (is_code self) as [code_cell self1]; cbn [snd] in Hcomment.
  all: destruct text as [|first rest]; [apply Hsame|].
  all: destruct (code_cell && String.eqb first (comment self1 +:+ " + {}")) eqn:Hfirst;
    [|apply Hsame].
  all: match goal with
       | |- context [if ?b then _ else _] => destruct b; [|apply Hsame]
       end.
  all: apply andb_true_iff in Hfirst as [_ Hfirst]; apply String.eqb_eq in Hfirst;
    rewrite Hcomment in *; subst first.
  all: eexists _, _; split; [reflexivity|]; repeat split; right; split; reflexivity.
Qed.

(** X13.  When the text of a code cell of a light script ends with the
    end-of-cell marker [-] and the next text does not open with an explicit
    start marker, [remove_eoc_marker] keeps the marker and puts blank lines
    before it: as many as [lines_to_end_of_cell_marker] records (none for a
    negative count), and when nothing is recorded two if
    [pep8_lines_between_cells] asks for two or more and none otherwise. *)
Theorem remove_eoc_marker_inserts_blank_lines (self : exporter)
    (body next_text : list string) (count : option Z) (s : store) :
  light (class_of self) = true ->
  cell_type self = code ->
  str_truthy (cell_marker_start self) = false ->
  opens_with_marker self next_text = false ->
  as_count (lines_to_end_of_cell_marker self) = Ok count ->
  let blank_lines :=
    match count with
    | Some n => Z.to_nat n
    | None =>
        if (pep8_lines_between_cells body next_text (ext self) <? 2)%Z then 0 else 2
    end in
  remove_eoc_marker self (body ++ [comment self +:+ " -"]) next_text s =
    (Ok (body ++ replicate blank_lines "" ++ [comment self +:+ " -"], self), s).
Proof.
  intros Hlight Hcode Hstart Hnext Hcount. cbv zeta.
  assert (remove_eoc_marker self = LightScriptCellExporter_remove_eoc_marker self) as ->
    by (unfold remove_eoc_marker; destruct (class_of self); try discriminate; reflexivity).
  unfold LightScriptCellExporter_remove_eoc_marker.
  rewrite Hstart, (is_code_code self Hcode). cbv beta iota.
  rewrite bind_run, lift_run, last_line_snoc. cbv beta iota.
  rewrite String.eqb_refl. unfold opens_with_marker in Hnext. rewrite Hnext.
  rewrite removelast_snoc, Hcount. run_store.
  destruct count as [n|]; [reflexivity|].
  destruct (_ <? 2)%Z; reflexivity.
Qed.

Lemma last_cons (text : list string) : forall line d : string,
  List.last (line :: text) d = List.last text line.
Proof.
  induction text as [|x text IH]; intros line d; [reflexivity|].
  change (List.last (line :: x :: text) d) with (List.last (x :: text) d).
  rewrite (IH x d), (IH x line). reflexivity.
Qed.

(** X14.  Whatever the class, the cell and the texts, [remove_eoc_marker]
    leaves the store as it was and touches the end of the text only, and
    only when the last line is the comment string followed by [ -]: it
    returns the text, or the text without that line, or the text with blank
    lines before that line. *)
Theorem remove_eoc_marker_touches_the_end_only (self self' : exporter)
    (text text' next_text : list string) (s s' : store) :
  remove_eoc_marker self text next_text s = (Ok (text', self'), s') ->
  s' = s /\
  (text' = text \/
   List.last text "" = comment self +:+ " -" /\
   (text' = removelast text \/
    exists k, text' = removelast text ++ replicate k "" ++ [comment self +:+ " -"])).
Proof.
  intros Hrun. split.
  { pose proof (unchanged_remove_eoc_marker self text next_text s) as Hs.
    rewrite Hrun in Hs. exact Hs. }
  revert Hrun.
  unfold remove_eoc_marker, LightScriptCellExporter_remove_eoc_marker.
  assert (forall self1 : exporter,
            (mret (text, self1) : M (list string * exporter)) s = (Ok (text', self'), s') ->
            text' = text \/
            List.last text "" = comment self +:+ " -" /\
            (text' = removelast text \/
             exists k,
               text' = removelast text ++ replicate k "" ++ [comment self +:+ " -"]))
    as Hsame by (intros self1 E; inversion E; left; reflexivity).
  destruct (class_of self); try apply Hsame.
  all: destruct (str_truthy (cell_marker_start self)); [apply Hsame|].
  all: pose proof (is_code_comment self) as Hcomment.
  all: destruct (is_code self) as [code_cell self1]; cbn [snd] in Hcomment.
  all: destruct code_cell; [|apply Hsame].
  all: rewrite bind_run, lift_run.
  all: destruct text as [|line text]; cbn [last_line]; [discriminate|].
  all: destruct (String.eqb_spec (List.last text line) (comment self1 +:+ " -"))
         as [Hlast|_]; [|apply Hsame].
  all: rewrite Hcomment in Hlast.
  all: assert (List.last (line :: text) "" = comment self +:+ " -") as Hfinal
         by (rewrite <- Hlast; apply last_cons).
  all: rewrite Hlast, Hcomment.
  all: destruct (match next_text with [] => true | _ => _ end).
  all: rewrite bind_run, lift_run.
  all: destruct (as_count (lines_to_end_of_cell_marker self1)) as [count|e];
         [|discriminate].
  all: cbv beta iota zeta.
  all: try (intros E; right; split; [exact Hfinal|]; right;
            rewrite ret_run in E; inversion E; eexists; reflexivity).
  all: intros E; right; split; [exact Hfinal|]; left; revert E.
  all: destruct count as [n|]; [|intros E; inversion E; reflexivity].
  all: destruct (n =? 0)%Z; [intros E; inversion E; reflexivity|].
  all: rewrite bind_run, lift_run.
  all: destruct (as_count (lines_to_next_cell self1)) as [[m|]|e]; [| |discriminate].
  all: try destruct (n >? m)%Z.
  all: intros E; inversion E; reflexivity.
Qed.

End BetweenCells.

Lemma custom_markers_enclose_the_cell_witness :
  exists first self',
    code_to_text (H:=Ref.collaborators)
      (set_cell_marker_start_end
         (exporter_of LightScriptCellExporter ".py" "#" code ["x = 1"]
            [("title", JStr "Setup")] "python" None None)
         (Some "region") (Some "endregion"))
      (one_cell code "x = 1" [("title", JStr "Setup")] (markers_fmt "region,endregion"))
    = (Ok (first :: ["x = 1"] ++ ["# endregion"], self'),
       one_cell code "x = 1" [("title", JStr "Setup")] (markers_fmt "region,endregion")) /\
    Str.startswith first "# region" = true.
Proof.
  apply (custom_markers_enclose_the_cell (H:=Ref.collaborators)
           (set_cell_marker_start_end
              (exporter_of LightScriptCellExporter ".py" "#" code ["x = 1"]
                 [("title", JStr "Setup")] "python" None None)
              (Some "region") (Some "endregion"))
           (one_cell code "x = 1" [("title", JStr "Setup")]
              (markers_fmt "region,endregion"))
           "region" "endregion");
    try reflexivity; try discriminate.
  intros v Hv. inversion Hv. exists "Setup". reflexivity.
Defined.

Lemma remove_eoc_marker_inserts_blank_lines_witness :
  remove_eoc_marker (H:=Ref.collaborators)
    (exporter_of LightScriptCellExporter ".py" "#" code ["x = 1"; ""; "y = 2"] []
       "python" None (Some (JNum 1)))
    (["# +"; "x = 1"; ""; "y = 2"] ++ ["# -"]) ["z = 3"]
    (one_cell code "x = 1" [] (fmt_of ".py"))
  = (Ok (["# +"; "x = 1"; ""; "y = 2"] ++ [""] ++ ["# -"],
         exporter_of LightScriptCellExporter ".py" "#" code ["x = 1"; ""; "y = 2"] []
           "python" None (Some (JNum 1))),
     one_cell code "x = 1" [] (fmt_of ".py")).
Proof.
  apply (remove_eoc_marker_inserts_blank_lines (H:=Ref.collaborators)
           (exporter_of LightScriptCellExporter ".py" "#" code ["x = 1"; ""; "y = 2"] []
              "python" None (Some (JNum 1)))
           ["# +"; "x = 1"; ""; "y = 2"] ["z = 3"] (Some 1%Z)
           (one_cell code "x = 1" [] (fmt_of ".py")));
    reflexivity.
Defined.

Lemma remove_eoc_marker_touches_the_end_only_witness :
  one_cell code "x = 1" [] (fmt_of ".py") = one_cell code "x = 1" [] (fmt_of ".py") /\
  (["x = 1"] = ["x = 1"; "# -"] \/
   List.last ["x = 1"; "# -"] "" = "# -" /\
   (["x = 1"] = removelast ["x = 1"; "# -"] \/
    exists k, ["x = 1"] = removelast ["x = 1"; "# -"] ++ replicate k "" ++ ["# -"])).
Proof.
  apply (remove_eoc_marker_touches_the_end_only (H:=Ref.collaborators)
           (exporter_of BareScriptCellExporter ".py" "#" code ["x = 1"; "# -"] []
              "python" None None)
           (exporter_of BareScriptCellExporter ".py" "#" code ["x = 1"; "# -"] []
              "python" None None)
           ["x = 1"; "# -"] ["x = 1"] []
           (one_cell code "x = 1" [] (fmt_of ".py"))
           (one_cell code "x = 1" [] (fmt_of ".py"))).
  reflexivity.
Defined.

(** * Markdown cells and raw cells in Markdown *)

Section Regions.
Context `{Collaborators}.

Lemma join_startswith_first (c : string) (rest : list string) :
  Str.startswith (Str.join " " (c :: rest)) c = true.
Proof.
  destruct rest as [|a rest]; [apply startswith_self|].
  rewrite join_cons by discriminate. apply startswith_app.
Qed.

(** [html_comment] wraps the source of the exporter between a line that
    starts with [<!-- #] and the kind of the region, and the line that ends
    the region; of the dict that it is given it may take the title. *)
Lemma html_comment_wraps (self : exporter) (md md' : dict) (kind : string)
    (lines : list string) :
  html_comment self md kind = Ok (lines, md') ->
  exists first,
    lines = first :: source self ++ ["<!-- #end" +:+ kind +:+ " -->"] /\
    Str.startswith first ("<!-- #" +:+ kind) = true /\
    (dict_nonempty md = false -> first = "<!-- #" +:+ kind +:+ " -->").
Proof.
  unfold html_comment. destruct (dict_nonempty md).
  - assert (forall (start : list string) (md1 : dict),
              Ok (Str.join " " (("<!-- #" +:+ kind) :: start ++ [json_dumps md1; "-->"])
                    :: source self ++ ["<!-- #end" +:+ kind +:+ " -->"], md1)
              = Ok (lines, md') ->
              exists first,
                lines = first :: source self ++ ["<!-- #end" +:+ kind +:+ " -->"] /\
                Str.startswith first ("<!-- #" +:+ kind) = true /\
                (true = false -> first = "<!-- #" +:+ kind +:+ " -->")) as Hwrap.
    { intros start md1 E. inversion E. eexists. split; [reflexivity|].
      split; [apply join_startswith_first | discriminate]. }
    destruct (dict_get md "title") as [title|]; [|apply (Hwrap [])].
    destruct (without_brace title) as [[]|e]; [|apply (Hwrap [])|discriminate].
    destruct (as_text title) as [t|e]; [apply (Hwrap [t]) | discriminate].
  - intros E. inversion E. eexists. split; [reflexivity|]. split; [|reflexivity].
    rewrite <- append_assoc. apply startswith_app.
Qed.

(** X15.  In Markdown and in R Markdown a markdown cell is written either as
    the lines of its source, unchanged, or as a region: the source between a
    line that starts with [<!-- #region] and the line [<!-- #endregion -->].
    It is written unchanged only when its metadata is empty, and then the
    exporter is left as it was. *)
Theorem markdown_cells_are_plain_or_regions (self self' : exporter)
    (lines : list string) (s s' : store) :
  class_of self = MarkdownCellExporter \/ class_of self = RMarkdownCellExporter ->
  cell_type self = markdown ->
  cell_to_text self s = (Ok (lines, self'), s') ->
  s' = s /\
  (lines = source self /\ self' = self /\ dict_nonempty (metadata self) = false \/
   exists first,
     lines = first :: source self ++ ["<!-- #endregion -->"] /\
     Str.startswith first "<!-- #region" = true /\
     (dict_nonempty (metadata self) = false -> first = "<!-- #region -->")).
Proof.
  intros Hclass Hkind Hrun. split.
  { pose proof (unchanged_cell_to_text self s) as Hs. rewrite Hrun in Hs. exact Hs. }
  revert Hrun.
  assert (cell_to_text self = MarkdownCellExporter_cell_to_text self) as ->
    by (unfold cell_to_text; destruct Hclass as [-> | ->]; reflexivity).
  unfold MarkdownCellExporter_cell_to_text. rewrite Hkind. cbn [cell_type_eqb].
  rewrite bind_run.
  assert (forall s1,
            (('(lines, metadata) ← lift (html_comment self (metadata self) "region");
              mret (lines, set_metadata self metadata)) : M (list string * exporter)) s1
            = (Ok (lines, self'), s') ->
            exists first,
              lines = first :: source self ++ ["<!-- #endregion -->"] /\
              Str.startswith first "<!-- #region" = true /\
              (dict_nonempty (metadata self) = false -> first = "<!-- #region -->"))
    as Hregion.
  { intros s1. rewrite bind_run, lift_run.
    destruct (html_comment self (metadata self) "region") as [[lines1 md1]|e] eqn:Hhtml;
      [|discriminate].
    rewrite ret_run. intros E. inversion E; subst.
    exact (html_comment_wraps _ _ _ _ _ Hhtml). }
  destruct (dict_nonempty (metadata self)) eqn:Hmeta.
  - rewrite ret_run. intros Hrun. right. apply (Hregion s), Hrun.
  - rewrite bind_run.
    destruct (get_fmt (fmt self) s) as [[f|e] s1]; [|discriminate].
    rewrite ret_run. destruct (_ <? _).
    + intros Hrun. right. apply (Hregion s1), Hrun.
    + rewrite ret_run. intros E. inversion E. left. auto.
Qed.

Lemma dict_without_set (d : dict) (k : string) (v : json) (keys : list string) :
  In k keys -> dict_without (dict_set d k v) keys = dict_without d keys.
Proof.
  intros Hin. unfold dict_without.
  assert (existsb (String.eqb k) keys = true) as Hk
    by (apply existsb_exists; exists k; split; [exact Hin | apply String.eqb_refl]).
  induction d as [|[k' w] d IH]; cbn.
  - rewrite Hk. reflexivity.
  - destruct (String.eqb_spec k' k) as [->|Hne]; cbn.
    + rewrite Hk. reflexivity.
    + rewrite IH. reflexivity.
Qed.

(** X16.  A raw cell whose metadata holds nothing that the Markdown exporter
    encodes, and in which no magic-cell directive is detected, is exported
    as its source between the lines [<!-- #raw -->] and [<!-- #endraw -->]:
    the key [active] that the constructor gives to a raw cell is not
    written. *)
Theorem raw_cells_are_raw_regions (source_text : string) (md : dict) (f : Fmt.t)
    (dl : option string) :
  cell_language (source_lines source_text) = (None, None, source_lines source_text) ->
  fenced_metadata f md = [] ->
  export MarkdownCellExporter 1%positive dl (Some 3%positive)
    (one_cell raw source_text md f)
  = (Ok ("<!-- #raw -->" :: source_lines source_text ++ ["<!-- #endraw -->"]),
     one_cell raw source_text md f).
Proof.
  intros Hnone Hfenced. unfold export.
  rewrite bind_run, init_eq, BaseCellExporter_init_eq.
  unfold get_fmt. rewrite one_cell_fmt, one_cell_cell. cbn [Cell.metadata].
  rewrite one_cell_dict. unfold base_exporter, detected.
  cbn [parse_cell_language Cell.source]. rewrite Hnone.
  cbn [base_metadata str_truthy Cell.cell_type cell_type_eqb andb].
  cbn [setup]. unfold MarkdownCellExporter_setup. run_store. fields.
  unfold cell_to_text. fields. unfold MarkdownCellExporter_cell_to_text. fields.
  cbn [cell_type_eqb]. unfold code_to_text. fields.
  unfold MarkdownCellExporter_code_to_text. fields. cbn [cell_type_eqb andb].
  unfold fenced_metadata in Hfenced.
  assert (dict_without
            (if negb (dict_mem
                        (filter_metadata md (Fmt.cell_metadata_filter f)
                           _IGNORE_CELL_METADATA) "active")
             then dict_set
                    (filter_metadata md (Fmt.cell_metadata_filter f)
                       _IGNORE_CELL_METADATA) "active" (JStr "")
             else filter_metadata md (Fmt.cell_metadata_filter f) _IGNORE_CELL_METADATA)
            ["active"; "language"] = []) as ->.
  { destruct (negb _); [rewrite dict_without_set by (left; reflexivity)|]; exact Hfenced. }
  run_store. unfold html_comment. cbn [dict_nonempty]. run_store. fields.
  reflexivity.
Qed.

End Regions.

Lemma markdown_cells_are_plain_or_regions_witness :
  one_cell markdown "Some *text*" [] (fmt_of ".md")
  = one_cell markdown "Some *text*" [] (fmt_of ".md") /\
  (["Some *text*"] = ["Some *text*"] /\
   exporter_of MarkdownCellExporter ".md" "" markdown ["Some *text*"] [] "python"
     None None
   = exporter_of MarkdownCellExporter ".md" "" markdown ["Some *text*"] [] "python"
       None None /\
   dict_nonempty [] = false \/
   exists first,
     ["Some *text*"] = first :: ["Some *text*"] ++ ["<!-- #endregion -->"] /\
     Str.startswith first "<!-- #region" = true /\
     (dict_nonempty [] = false -> first = "<!-- #region -->")).
Proof.
  apply (markdown_cells_are_plain_or_regions (H:=Ref.collaborators)
           (exporter_of MarkdownCellExporter ".md" "" markdown ["Some *text*"] []
              "python" None None)
           (exporter_of MarkdownCellExporter ".md" "" markdown ["Some *text*"] []
              "python" None None)
           ["Some *text*"]
           (one_cell markdown "Some *text*" [] (fmt_of ".md"))
           (one_cell markdown "Some *text*" [] (fmt_of ".md")));
    [left; reflexivity | reflexivity | reflexivity].
Defined.

Lemma raw_cells_are_raw_regions_witness :
  export (H:=Ref.collaborators) MarkdownCellExporter 1%positive (Some "python")
    (Some 3%positive) (one_cell raw "<b>bold</b>" [] (fmt_of ".md"))
  = (Ok ("<!-- #raw -->" :: source_lines "<b>bold</b>" ++ ["<!-- #endraw -->"]),
     one_cell raw "<b>bold</b>" [] (fmt_of ".md")).
Proof.
  apply (raw_cells_are_raw_regions (H:=Ref.collaborators) "<b>bold</b>" []
           (fmt_of ".md") (Some "python"));
    reflexivity.
Defined.

(** * Double percent, Hydrogen and Sphinx Gallery scripts *)

Section PercentScripts.
Context `{Collaborators}.




End PercentScripts.

Section SphinxGallery.
Context `{Collaborators}.

Lemma default_cell_marker_long :
  Str.startswith default_cell_marker (Str.repeat "#" 20) = true.
Proof. reflexivity. Qed.

Lemma default_cell_marker_plain (quotes : string) :
  String.length quotes <= 3 -> String.eqb default_cell_marker quotes = false.
Proof.
  intros Hlen. destruct (String.eqb_spec default_cell_marker quotes) as [<-|_];
    [|reflexivity].
  cbn in Hlen. lia.
Qed.

(** X18.  In a Sphinx Gallery script every cell that is not a code cell
    opens with a marker line.  For an empty cell the text is that line
    alone, a pair of double or of single quotes.  Otherwise the source is
    written as it is between two lines of triple quotes, or it is commented
    after a line that starts with twenty [#] or more: the marker of the
    metadata when it has that form, the default line of 79 [#] when it has
    not. *)
Theorem sphinx_text_cells_open_with_a_marker (self self' : exporter)
    (lines : list string) (s s' : store) :
  class_of self = SphinxGalleryCellExporter ->
  cell_type self <> code ->
  cell_to_text self s = (Ok (lines, self'), s') ->
  exists marker body,
    lines = marker :: body /\
    (source self = [""] ->
     body = [] /\ (marker = dquote +:+ dquote \/ marker = "''")) /\
    (source self <> [""] ->
     (marker = dquote +:+ dquote +:+ dquote \/ marker = "'''") /\
     body = source self ++ [marker] \/
     Str.startswith marker (Str.repeat "#" 20) = true /\
     body = comment_lines (source self) (comment self)).
Proof.
  intros Hclass Hkind. unfold cell_to_text. rewrite Hclass.
  unfold SphinxGalleryCellExporter_cell_to_text.
  destruct (cell_type self); [contradiction| |]; cbn [cell_type_eqb].
  all: destruct (dict_get (metadata self) "cell_marker") as [[| | |m| |]|]; fields.
  all: cbn [is_str orb].
  all: rewrite ?default_cell_marker_plain by (cbn; lia).
  all: destruct (decide (source self = [""])) as [Hempty|Hfull];
    [rewrite (bool_decide_eq_true_2 _ Hempty) | rewrite (bool_decide_eq_false_2 _ Hfull)].
  all: repeat match goal with
              | |- context [String.eqb ?a ?b] =>
                  destruct (String.eqb_spec a b) as [?|?]; [subst|]; cbn [orb]
              | |- context [if Str.startswith ?a ?b then _ else _] =>
                  destruct (Str.startswith a b) eqn:?
              end.
  all: rewrite ?ret_run, ?raise_run; intros E; inversion E; subst; clear E.
  all: eexists _, _; (split; [reflexivity|]).
  all: split; [first [contradiction | intros _; split; [reflexivity | auto]] |].
  all: first
         [ contradiction
         | intros _; left; split; [auto | reflexivity]
         | intros _; right; split;
           [first [assumption | apply default_cell_marker_long] | reflexivity] ].
Qed.

End SphinxGallery.


Lemma sphinx_text_cells_open_with_a_marker_witness :
  exists marker body,
    [default_cell_marker; "# A title"] = marker :: body /\
    (["A title"] = [""] ->
     body = [] /\ (marker = dquote +:+ dquote \/ marker = "''")) /\
    (["A title"] <> [""] ->
     (marker = dquote +:+ dquote +:+ dquote \/ marker = "'''") /\
     body = ["A title"] ++ [marker] \/
     Str.startswith marker (Str.repeat "#" 20) = true /\
     body = Ref.comment_lines ["A title"] "#").
Proof.
  apply (sphinx_text_cells_open_with_a_marker (H:=Ref.collaborators)
           (exporter_of SphinxGalleryCellExporter ".py" "#" markdown ["A title"] []
              "python" None None)
           (exporter_of SphinxGalleryCellExporter ".py" "#" markdown ["A title"] []
              "python" None None)
           [default_cell_marker; "# A title"]
           (one_cell markdown "A title" [] (fmt_of ".py"))
           (one_cell markdown "A title" [] (fmt_of ".py")));
    [reflexivity | discriminate | reflexivity].
Defined.

(** * What the constructors set *)

Ltac run_in H :=
  repeat first
    [ rewrite bind_run in H
    | rewrite ret_run in H
    | rewrite lift_run in H
    | rewrite raise_run in H
    | rewrite set_fmt_run in H
    | rewrite warn_run in H
    | progress cbv beta iota zeta in H
    | discriminate H
    | match type of H with
      | context [get_fmt ?l ?s0] => destruct (get_fmt l s0) as [[?|?] ?]
      | context [get_dict ?l ?s0] => destruct (get_dict l s0) as [[?|?] ?]
      | context [if ?b then _ else _] => destruct b
      | context [match ?x with _ => _ end] =>
          lazymatch x with
          | context [match _ with _ => _ end] => fail
          | _ => destruct x
          end
      end ].

Section Constructed.
Context `{Collaborators}.

(** X19.  A constructor needs the extension of the format only when a
    language is detected in the cell: with a format that has no
    [extension], and with no format at all, it raises [AttributeError] for
    such a cell (the extension is [None], and [None] has no [endswith]), and
    it leaves the store as it was. *)
Theorem language_needs_an_extension (d : dialect) (cell : loc) (dl : option string)
    (given_fmt : option loc) (s : store) (c : Cell.t) (md : dict) (f : Fmt.t) :
  cells s !! cell = Some c ->
  dicts s !! Cell.metadata c = Some md ->
  get_fmt given_fmt s = (Ok f, s) ->
  Fmt.extension f = None ->
  str_truthy (fst (fst (detected d c))) = true ->
  init d cell dl given_fmt s = (Err AttributeError, s).
Proof.
  intros Hc Hmd Hf Hext Hlang.
  rewrite init_eq, BaseCellExporter_init_eq, Hf, Hc, Hmd.
  unfold base_exporter. destruct (detected d c) as [[found magic_args] src].
  cbn [fst] in Hlang. unfold base_metadata. rewrite Hlang, Hext.
  cbn [ext_endswith]. destruct (str_truthy magic_args); reflexivity.
Qed.

Lemma base_exporter_comment (d : dialect) (sf : option loc) (c : Cell.t) (md : dict)
    (f : Fmt.t) (dl : option string) (self : exporter) :
  base_exporter d sf c md f dl = Ok self ->
  comment self
  = default "#" ((Fmt.extension f ≫= (_SCRIPT_EXTENSIONS !!.)) ≫= (.!! "comment")).
Proof.
  unfold base_exporter. destruct (detected d c) as [[found magic_args] src].
  destruct (base_metadata _ _ _ _); [|discriminate].
  intros E. inversion E. reflexivity.
Qed.

Lemma setup_comment (d : dialect) (self0 self : exporter) (s s' : store) :
  setup d self0 s = (Ok self, s') ->
  comment self =
    match d with
    | MarkdownCellExporter | RMarkdownCellExporter => ""
    | RScriptCellExporter => "#'"
    | SphinxGalleryCellExporter => "#"
    | _ => comment self0
    end /\
  ext self =
    match d with
    | RMarkdownCellExporter => Some ".Rmd"
    | _ => ext self0
    end.
Proof.
  destruct d; cbn [setup];
    unfold MarkdownCellExporter_setup, RMarkdownCellExporter_setup,
      LightScriptCellExporter_setup, RScriptCellExporter_setup,
      DoublePercentCellExporter_setup, SphinxGalleryCellExporter_setup;
    intros Hrun; run_in Hrun; inversion Hrun; subst; split; reflexivity.
Qed.

(** X20.  The comment string of an exporter depends on its class: empty for
    Markdown and R Markdown, [#'] for an R script and [#] for a Sphinx
    Gallery script, whatever the extension; for the other scripts it is the
    comment of the extension in [_SCRIPT_EXTENSIONS], and [#] when the
    extension is absent or unknown.  The extension of an R Markdown
    exporter is [.Rmd] whatever the format says. *)
Theorem constructed_comment_and_extension (d : dialect) (cell : loc)
    (dl : option string) (given_fmt : option loc) (s s' : store) (self : exporter)
    (f : Fmt.t) :
  init d cell dl given_fmt s = (Ok self, s') ->
  get_fmt given_fmt s = (Ok f, s) ->
  comment self =
    match d with
    | MarkdownCellExporter | RMarkdownCellExporter => ""
    | RScriptCellExporter => "#'"
    | SphinxGalleryCellExporter => "#"
    | _ => default "#" ((Fmt.extension f ≫= (_SCRIPT_EXTENSIONS !!.)) ≫= (.!! "comment"))
    end /\
  ext self =
    match d with
    | RMarkdownCellExporter => Some ".Rmd"
    | _ => Fmt.extension f
    end.
Proof.
  intros Hinit Hf.
  destruct (init_inv _ _ _ _ _ _ _ Hinit)
    as (c & md & f' & self0 & _ & _ & Hf' & Hb & Hsetup & _).
  rewrite Hf in Hf'. inversion Hf'; subst f'.
  destruct (base_exporter_fields _ _ _ _ _ _ _ Hb) as (_ & _ & Hext & _).
  pose proof (base_exporter_comment _ _ _ _ _ _ _ Hb) as Hcomment.
  destruct (setup_comment _ _ _ _ _ Hsetup) as [Hc He].
  rewrite Hc, He, Hcomment, Hext. split; reflexivity.
Qed.

(** Splitting at the first comma loses nothing. *)
Lemma split_comma_joins (markers : string) :
  Str.contains "," markers = true ->
  fst (split_comma markers) +:+ "," +:+ snd (split_comma markers) = markers /\
  Str.contains "," (fst (split_comma markers)) = false.
Proof.
  induction markers as [|a markers IH]; cbn [Str.contains split_comma];
    [discriminate|].
  destruct (Ascii.eqb a ",") eqn:Ha; cbn [orb].
  - intros _. apply Ascii.eqb_eq in Ha. subst a. split; reflexivity.
  - intros Hrest. destruct (IH Hrest) as [Hjoin Hfree].
    destruct (split_comma markers) as [x y]. cbn [fst snd] in *.
    rewrite app_String, Hjoin. cbn [Str.contains]. rewrite Ha, Hfree.
    split; reflexivity.
Qed.

(** X21.  The constructor of a light script that is given [cell_markers]
    with a comma writes nothing in the store.  The value [+,-] names the
    default markers and sets none; any other value is split at its first
    comma into the start marker and the end marker, which joined by a comma
    give the value back. *)
Theorem cell_markers_are_split_at_the_first_comma (d : dialect) (cell l : loc)
    (dl : option string) (s s' : store) (self : exporter) (f : Fmt.t)
    (markers : string) :
  light d = true ->
  init d cell dl (Some l) s = (Ok self, s') ->
  fmts s !! l = Some f ->
  Fmt.cell_markers f = Some markers ->
  Str.contains "," markers = true ->
  s' = s /\
  (if String.eqb markers "+,-"
   then cell_marker_start self = None /\ cell_marker_end self = None
   else exists marker_start marker_end,
          cell_marker_start self = Some marker_start /\
          cell_marker_end self = Some marker_end /\
          marker_start +:+ "," +:+ marker_end = markers /\
          Str.contains "," marker_start = false).
Proof.
  intros Hd Hinit Hf Hmarkers Hcomma.
  destruct (init_inv _ _ _ _ _ _ _ Hinit)
    as (c & md & f' & self0 & _ & _ & Hf' & Hb & Hsetup & _).
  rewrite (get_fmt_run _ _ _ Hf) in Hf'. inversion Hf'; subst f'.
  destruct (base_exporter_fields _ _ _ _ _ _ _ Hb)
    as (_ & Hfmt & _ & _ & _ & _ & _ & _ & Hstart & Hend & _).
  assert (Fmt.nonempty f = true) as Hnonempty
    by (destruct f as [[e|] [filter|] [magics|] [given|] r2m split]; cbn in *;
        first [reflexivity | discriminate]).
  rewrite Hnonempty in Hfmt.
  assert (setup d self0 = LightScriptCellExporter_setup self0) as Hlight
    by (destruct d; try discriminate; reflexivity).
  rewrite Hlight in Hsetup. unfold LightScriptCellExporter_setup in Hsetup.
  rewrite bind_run, Hfmt, (get_fmt_run _ _ _ Hf) in Hsetup.
  cbv beta iota in Hsetup. rewrite Hmarkers, Hcomma in Hsetup. cbn [negb] in Hsetup.
  pose proof (split_comma_joins markers Hcomma) as [Hjoin Hfree].
  destruct (String.eqb markers "+,-"); cbn [negb] in Hsetup.
  - rewrite bind_run, ret_run in Hsetup. cbv beta iota in Hsetup.
    rewrite bind_run in Hsetup.
    pose proof (unchanged_get_dict (unfiltered_metadata self0) s) as Hs.
    destruct (get_dict (unfiltered_metadata self0) s) as [[unfiltered|e] s1];
      [|discriminate].
    cbn [snd] in Hs. subst s1. rewrite ret_run in Hsetup. inversion Hsetup; subst.
    split; [reflexivity|].
    destruct (dict_get unfiltered "endofcell"); fields; auto.
  - destruct (split_comma markers) as [a b]. cbn [fst snd] in *.
    rewrite bind_run, ret_run in Hsetup. cbv beta iota in Hsetup.
    rewrite bind_run in Hsetup. fields.
    pose proof (unchanged_get_dict (unfiltered_metadata self0) s) as Hs.
    destruct (get_dict (unfiltered_metadata self0) s) as [[unfiltered|e] s1];
      [|discriminate].
    cbn [snd] in Hs. subst s1. rewrite ret_run in Hsetup. inversion Hsetup; subst.
    split; [reflexivity|]. exists a, b.
    destruct (dict_get unfiltered "endofcell"); fields; auto.
Qed.

End Constructed.

Lemma language_needs_an_extension_witness :
  init (H:=Ref.collaborators) LightScriptCellExporter 1%positive (Some "python") None
    (one_cell code ("%%R" +:+ newline +:+ "ls()") [] (fmt_of ".py"))
  = (Err AttributeError, one_cell code ("%%R" +:+ newline +:+ "ls()") [] (fmt_of ".py")).
Proof.
  apply (language_needs_an_extension (H:=Ref.collaborators) LightScriptCellExporter
           1%positive (Some "python") None
           (one_cell code ("%%R" +:+ newline +:+ "ls()") [] (fmt_of ".py"))
           (Cell.Make code ("%%R" +:+ newline +:+ "ls()") 2%positive) [] Fmt.empty);
    reflexivity.
Defined.

Lemma constructed_comment_and_extension_witness :
  comment (exporter_of RMarkdownCellExporter ".Rmd" "" code ["1 + 1"] [] "python"
             None None) = "" /\
  ext (exporter_of RMarkdownCellExporter ".Rmd" "" code ["1 + 1"] [] "python"
         None None) = Some ".Rmd".
Proof.
  apply (constructed_comment_and_extension (H:=Ref.collaborators)
           RMarkdownCellExporter 1%positive (Some "python") (Some 3%positive)
           (one_cell code "1 + 1" [] (fmt_of ".md"))
           (one_cell code "1 + 1" [] (fmt_of ".md"))
           (exporter_of RMarkdownCellExporter ".Rmd" "" code ["1 + 1"] [] "python"
              None None)
           (fmt_of ".md"));
    reflexivity.
Defined.

Lemma cell_markers_are_split_at_the_first_comma_witness :
  one_cell code "x = 1" [] (markers_fmt "region,endregion")
  = one_cell code "x = 1" [] (markers_fmt "region,endregion") /\
  exists marker_start marker_end,
    cell_marker_start
      (set_cell_marker_start_end
         (exporter_of LightScriptCellExporter ".py" "#" code ["x = 1"] [] "python"
            None None) (Some "region") (Some "endregion")) = Some marker_start /\
    cell_marker_end
      (set_cell_marker_start_end
         (exporter_of LightScriptCellExporter ".py" "#" code ["x = 1"] [] "python"
            None None) (Some "region") (Some "endregion")) = Some marker_end /\
    marker_start +:+ "," +:+ marker_end = "region,endregion" /\
    Str.contains "," marker_start = false.
Proof.
  apply (cell_markers_are_split_at_the_first_comma (H:=Ref.collaborators)
           LightScriptCellExporter 1%positive 3%positive (Some "python")
           (one_cell code "x = 1" [] (markers_fmt "region,endregion"))
           (one_cell code "x = 1" [] (markers_fmt "region,endregion"))
           (set_cell_marker_start_end
              (exporter_of LightScriptCellExporter ".py" "#" code ["x = 1"] []
                 "python" None None) (Some "region") (Some "endregion"))
           (markers_fmt "region,endregion") "region,endregion");
    reflexivity.
Defined.
